(** * Apple Health Data Analyzer: a shallow embedding and its properties

    The development follows the three scripts of the repository:
    - [scripts/step_corrector.py]  (module [StepCorrector]),
    - [scripts/gpx_analyzer.py]    (module [GPX]),
    - [scripts/health_analyzer.py] (module [Health]).

    Python integers are [Z].  Strings are [string].  Time stamps are records
    of calendar fields, compared the way [datetime] compares them.  Python
    floats are kept behind an interface ([PyFloat]) that names exactly the
    operations the scripts apply to them, and what [datetime.fromisoformat]
    reads beyond the format common to all versions behind another
    ([Interpreter]). *)

From Stdlib Require Import ZArith List String Ascii Bool Lia Sorted.
From stdpp Require Import base gmap strings list.
Import ListNotations.

Local Open Scope string_scope.
Local Open Scope list_scope.
Local Open Scope Z_scope.

(** ** Python strings *)

Module PyStr.

(** [needle in hay] on [str]. *)
Fixpoint contains (needle hay : string) : bool :=
  if String.prefix needle hay then true
  else match hay with
       | EmptyString => false
       | String _ rest => contains needle rest
       end.

(** Truthiness of an optional string ([None] and [''] are falsy). *)
Definition truthy (o : option string) : bool :=
  match o with
  | Some (String _ _) => true
  | _ => false
  end.

(** [s.split(sep)] for a one-character separator: never empty. *)
Fixpoint split (sep : ascii) (s : string) : list string :=
  match s with
  | EmptyString => [EmptyString]
  | String c rest =>
      if Ascii.eqb c sep then EmptyString :: split sep rest
      else match split sep rest with
           | [] => [String c EmptyString]
           | hd :: tl => String c hd :: tl
           end
  end.

(** [s.replace(old, new)] for a one-character [old]. *)
Fixpoint replace_char (old : ascii) (new : string) (s : string) : string :=
  match s with
  | EmptyString => EmptyString
  | String c rest =>
      if Ascii.eqb c old then new ++ replace_char old new rest
      else String c (replace_char old new rest)
  end.

(** [s.endswith(suffix)] *)
Definition endswith (s suffix : string) : bool :=
  let n := String.length s in
  let k := String.length suffix in
  (k <=? n)%nat && String.eqb (String.substring (n - k) k s) suffix.

(** [s[:k]] *)
Definition take (k : nat) (s : string) : string := String.substring 0 k s.

Definition is_digit (c : ascii) : bool :=
  let n := nat_of_ascii c in (48 <=? n)%nat && (n <=? 57)%nat.

Definition digit_val (c : ascii) : Z := Z.of_nat (nat_of_ascii c) - 48.

(** ASCII characters for which [str.isspace] holds. *)
Definition is_space (c : ascii) : bool :=
  let n := nat_of_ascii c in
  ((9 <=? n)%nat && (n <=? 13)%nat) || ((28 <=? n)%nat && (n <=? 32)%nat).

Fixpoint lstrip (s : string) : string :=
  match s with
  | String c rest => if is_space c then lstrip rest else s
  | EmptyString => EmptyString
  end.

Fixpoint rstrip (s : string) : string :=
  match s with
  | EmptyString => EmptyString
  | String c rest =>
      match rstrip rest with
      | EmptyString => if is_space c then EmptyString else String c EmptyString
      | r => String c r
      end
  end.

(** Digits with single underscores between them, as [int] reads them. *)
Fixpoint int_digits (s : string) (acc : Z) (after_digit : bool) : option Z :=
  match s with
  | EmptyString => if after_digit then Some acc else None
  | String c rest =>
      if is_digit c then int_digits rest (acc * 10 + digit_val c) true
      else if Ascii.eqb c "_" && after_digit then
        match rest with
        | String d _ => if is_digit d then int_digits rest acc false else None
        | EmptyString => None
        end
      else None
  end.

(** [int(s)] on ASCII text; [None] stands for [ValueError]. *)
Definition int_of_string (s : string) : option Z :=
  match rstrip (lstrip s) with
  | String "-" rest => option_map Z.opp (int_digits rest 0 false)
  | String "+" rest => int_digits rest 0 false
  | t => int_digits t 0 false
  end.

End PyStr.

(** ** Exceptions *)

Inductive exn : Type :=
| ZeroDivisionError | OverflowError | TypeError | ValueError | IndexError
| ParseError | OSError.

(** The outcome of code that may raise. *)
Inductive result (A : Type) : Type :=
| Ok (a : A)
| Raise (e : exn).
Arguments Ok {A} a.
Arguments Raise {A} e.

Definition rbind {A B} (r : result A) (k : A -> result B) : result B :=
  match r with
  | Ok a => k a
  | Raise e => Raise e
  end.

Notation "x <-- r ;; k" := (rbind r (fun x => k))
  (at level 100, r at next level, right associativity).

(** ** [datetime] values *)

Module DT.

(** A naive [datetime]: the seven calendar fields, no [tzinfo]. *)
Record naive : Type := mk_naive {
  year : Z; month : Z; day : Z;
  hour : Z; minute : Z; second : Z; microsecond : Z }.

(** An aware [datetime]: calendar fields plus the fixed offset of its
    [timezone], in microseconds. *)
Record aware : Type := mk_aware { local : naive; utcoffset : Z }.

(** [dt.replace(tzinfo=None)] *)
Definition replace_tzinfo_None (a : aware) : naive := local a.

Definition lex (c1 c2 : comparison) : comparison :=
  match c1 with Eq => c2 | _ => c1 end.

(** Comparison of naive values is the comparison of the field tuples. *)
Definition naive_cmp (a b : naive) : comparison :=
  lex (year a ?= year b)
 (lex (month a ?= month b)
 (lex (day a ?= day b)
 (lex (hour a ?= hour b)
 (lex (minute a ?= minute b)
 (lex (second a ?= second b)
      (microsecond a ?= microsecond b)))))).

Definition naive_ge (a b : naive) : bool :=
  match naive_cmp a b with Lt => false | _ => true end.

Definition naive_lt (a b : naive) : bool := negb (naive_ge a b).

Definition is_leap (y : Z) : bool :=
  (y mod 4 =? 0) && (negb (y mod 100 =? 0) || (y mod 400 =? 0)).

Definition days_before_year (y : Z) : Z :=
  let y' := y - 1 in y' * 365 + y' / 4 - y' / 100 + y' / 400.

Definition days_in_month (y m : Z) : Z :=
  if m =? 2 then (if is_leap y then 29 else 28)
  else if (m =? 4) || (m =? 6) || (m =? 9) || (m =? 11) then 30
  else 31.

Definition days_before_month_table (m : Z) : Z :=
  match m with
  | 1 => 0 | 2 => 31 | 3 => 59 | 4 => 90 | 5 => 120 | 6 => 151
  | 7 => 181 | 8 => 212 | 9 => 243 | 10 => 273 | 11 => 304 | 12 => 334
  | _ => 0
  end.

Definition days_before_month (y m : Z) : Z :=
  days_before_month_table m + (if (2 <? m) && is_leap y then 1 else 0).

(** [toordinal()] *)
Definition toordinal (n : naive) : Z :=
  days_before_year (year n) + days_before_month (year n) (month n) + day n.

(** The [timedelta] between the wall-clock readings, in microseconds. *)
Definition base_delta (a b : naive) : Z :=
  (toordinal a - toordinal b) * 86400000000
  + ((second a + minute a * 60 + hour a * 3600)
     - (second b + minute b * 60 + hour b * 3600)) * 1000000
  + (microsecond a - microsecond b).

(** [a - b] on aware values: a [timedelta], in microseconds. *)
Definition aware_sub (a b : aware) : Z :=
  if utcoffset a =? utcoffset b then base_delta (local a) (local b)
  else base_delta (local a) (local b) + utcoffset b - utcoffset a.

(** Comparison of aware values: field tuples when the offsets agree, the
    sign of the difference otherwise. *)
Definition aware_cmp (a b : aware) : comparison :=
  if utcoffset a =? utcoffset b then naive_cmp (local a) (local b)
  else let diff := aware_sub a b in
       if diff <? 0 then Lt else if diff =? 0 then Eq else Gt.

Definition aware_le (a b : aware) : bool :=
  match aware_cmp a b with Gt => false | _ => true end.

Definition aware_ge (a b : aware) : bool :=
  match aware_cmp a b with Lt => false | _ => true end.

(** *** Reading time stamps

    [strptime] compiles its format into a regular expression, takes the
    first match from the start of the text and refuses text that the match
    leaves unread.  A matcher lists the ways a pattern can match a prefix,
    in the order the backtracking engine tries them.  The tables are those
    of CPython's [_strptime.py]; only ASCII digits and blanks are read. *)

Definition matcher (A : Type) : Type := string -> list (A * string).

Definition ret {A} (a : A) : matcher A := fun s => [(a, s)].

Definition bind {A B} (m : matcher A) (f : A -> matcher B) : matcher B :=
  fun s => flat_map (fun p => f (fst p) (snd p)) (m s).

Definition alt {A} (m1 m2 : matcher A) : matcher A := fun s => m1 s ++ m2 s.

Definition char_if (p : ascii -> bool) : matcher string :=
  fun s => match s with
           | String c rest => if p c then [(String c EmptyString, rest)] else []
           | EmptyString => []
           end.

Definition lit (c : ascii) : matcher string := char_if (Ascii.eqb c).

Definition opt (m : matcher string) : matcher string := alt m (ret EmptyString).

Definition cat (m1 m2 : matcher string) : matcher string :=
  bind m1 (fun a => bind m2 (fun b => ret (a ++ b)%string)).

Definition between (lo hi : nat) (c : ascii) : bool :=
  let n := nat_of_ascii c in (lo <=? n)%nat && (n <=? hi)%nat.

(** [\d] and the classes [[a-b]] over digits *)
Definition d09 : matcher string := char_if PyStr.is_digit.
Definition d_rng (lo hi : nat) : matcher string := char_if (between (48 + lo) (48 + hi)).

(** [\s+], greedy *)
Fixpoint spaces1 (s : string) : list (string * string) :=
  match s with
  | String c rest =>
      if PyStr.is_space c
      then map (fun p => (String c (fst p), snd p)) (spaces1 rest)
           ++ [(String c EmptyString, rest)]
      else []
  | EmptyString => []
  end.

(** [\d{1,n}], greedy *)
Fixpoint digits_upto (n : nat) : matcher string :=
  match n with
  | O => fun _ => []
  | S k => cat d09 (alt (digits_upto k) (ret EmptyString))
  end.

Definition re_Y : matcher string := cat d09 (cat d09 (cat d09 d09)).
Definition re_m : matcher string :=
  alt (cat (lit "1") (d_rng 0 2)) (alt (cat (lit "0") (d_rng 1 9)) (d_rng 1 9)).
Definition re_d : matcher string :=
  alt (cat (lit "3") (d_rng 0 1))
 (alt (cat (d_rng 1 2) d09)
 (alt (cat (lit "0") (d_rng 1 9))
 (alt (d_rng 1 9)
      (cat (lit " ") (d_rng 1 9))))).
Definition re_H : matcher string :=
  alt (cat (lit "2") (d_rng 0 3)) (alt (cat (d_rng 0 1) d09) d09).
Definition re_M : matcher string := alt (cat (d_rng 0 5) d09) d09.
Definition re_S : matcher string :=
  alt (cat (lit "6") (d_rng 0 1)) (alt (cat (d_rng 0 5) d09) d09).
Definition re_z : matcher string :=
  alt (cat (char_if (fun c => Ascii.eqb c "+" || Ascii.eqb c "-"))
      (cat d09 (cat d09 (cat (opt (lit ":")) (cat (d_rng 0 5) (cat d09
      (opt (cat (opt (lit ":")) (cat (d_rng 0 5) (cat d09
           (opt (cat (lit ".") (digits_upto 6)))))))))))))
      (lit "Z").

(** The text of a matched field as a number ([int] of digits, possibly
    after a blank). *)
Definition num (s : string) : Z :=
  match PyStr.int_of_string s with Some n => n | None => 0 end.

(** The range checks of the [datetime] constructor. *)
Definition valid_naive (n : naive) : bool :=
  (1 <=? year n) && (year n <=? 9999)
  && (1 <=? month n) && (month n <=? 12)
  && (1 <=? day n) && (day n <=? days_in_month (year n) (month n))
  && (0 <=? hour n) && (hour n <=? 23)
  && (0 <=? minute n) && (minute n <=? 59)
  && (0 <=? second n) && (second n <=? 59)
  && (0 <=? microsecond n) && (microsecond n <=? 999999).

Definition checked (n : naive) : option naive :=
  if valid_naive n then Some n else None.

(** The first complete match of a pattern, if it reads the whole text. *)
Definition whole {A} (m : matcher A) (s : string) : option A :=
  match m s with
  | (a, EmptyString) :: _ => Some a
  | _ => None
  end.

Definition re_date : matcher (Z * Z * Z) :=
  bind re_Y (fun y => bind (lit "-") (fun _ =>
  bind re_m (fun m => bind (lit "-") (fun _ =>
  bind re_d (fun d => ret (num y, num m, num d)))))).

(** [datetime.strptime(s, '%Y-%m-%d')]; [None] stands for [ValueError]. *)
Definition strptime_date (s : string) : option naive :=
  match whole re_date s with
  | Some (y, m, d) => checked (mk_naive y m d 0 0 0 0)
  | None => None
  end.

(** The offset, in microseconds, that [_strptime] reads from a [%z] field. *)
Definition z_offset (z : string) : option Z :=
  if String.eqb z "Z" then Some 0 else
  let z1 :=
    match String.get 3 z with
    | Some ":"%char =>
        let z' := (String.substring 0 3 z ++ String.substring 4 (String.length z) z)%string in
        if (5 <? String.length z')%nat then
          match String.get 5 z' with
          | Some ":"%char =>
              Some (String.substring 0 5 z' ++ String.substring 6 (String.length z') z')%string
          | _ => None
          end
        else Some z'
    | _ => Some z
    end in
  match z1 with
  | None => None
  | Some z =>
      match PyStr.int_of_string (String.substring 1 2 z),
            PyStr.int_of_string (String.substring 3 2 z),
            (match String.substring 5 2 z with
             | EmptyString => Some 0
             | t => PyStr.int_of_string t
             end) with
      | Some hours, Some minutes, Some seconds =>
          let gmtoff := hours * 3600 + minutes * 60 + seconds in
          let rem := String.substring 8 (String.length z) z in
          let padded := (rem ++ String.substring 0 (6 - String.length rem) "000000")%string in
          match PyStr.int_of_string padded with
          | Some frac =>
              let off := gmtoff * 1000000 + frac in
              Some (if String.prefix "-" z then - off else off)
          | None => None
          end
      | _, _, _ => None
      end
  end.

(** [timezone(offset)] accepts offsets strictly within one day. *)
Definition valid_offset (off : Z) : bool :=
  (-86400000000 <? off) && (off <? 86400000000).

Definition re_stamp : matcher (naive * string) :=
  bind re_date (fun ymd => bind spaces1 (fun _ =>
  bind re_H (fun h => bind (lit ":") (fun _ =>
  bind re_M (fun mi => bind (lit ":") (fun _ =>
  bind re_S (fun sec => bind spaces1 (fun _ =>
  bind re_z (fun z =>
    ret (mk_naive (fst (fst ymd)) (snd (fst ymd)) (snd ymd) (num h) (num mi) (num sec) 0,
         z)))))))))).

(** [datetime.strptime(s, '%Y-%m-%d %H:%M:%S %z')]; [None] stands for
    [ValueError]. *)
Definition strptime_stamp (s : string) : option aware :=
  match whole re_stamp s with
  | Some (n, z) =>
      match z_offset z, checked n with
      | Some off, Some n' => if valid_offset off then Some (mk_aware n' off) else None
      | _, _ => None
      end
  | None => None
  end.

(** *** [datetime.fromisoformat]

    A [datetime] is naive or aware. *)
Inductive datetime : Type :=
| Naive (n : naive)
| Aware (a : aware).

(** Two ASCII digits at the head of a text, and what follows them. *)
Definition two_digits (s : string) : option (Z * string) :=
  match s with
  | String a (String b rest) =>
      if PyStr.is_digit a && PyStr.is_digit b
      then Some (PyStr.digit_val a * 10 + PyStr.digit_val b, rest)
      else None
  | _ => None
  end.

Fixpoint all_digits (s : string) : bool :=
  match s with
  | EmptyString => true
  | String c rest => PyStr.is_digit c && all_digits rest
  end.

(** The fraction after the point: three or six digits, in microseconds. *)
Definition parse_fraction (s : string) : option Z :=
  if all_digits s then
    if (String.length s =? 3)%nat then Some (num s * 1000)
    else if (String.length s =? 6)%nat then Some (num s)
    else None
  else None.

(** [HH[:MM[:SS[.fff[fff]]]]] *)
Definition parse_hh_mm_ss_ff (tstr : string) : option (Z * Z * Z * Z) :=
  match two_digits tstr with
  | None => None
  | Some (hh, EmptyString) => Some (hh, 0, 0, 0)
  | Some (hh, String ":" r1) =>
      match two_digits r1 with
      | None => None
      | Some (mm, EmptyString) => Some (hh, mm, 0, 0)
      | Some (mm, String ":" r2) =>
          match two_digits r2 with
          | None => None
          | Some (ss, EmptyString) => Some (hh, mm, ss, 0)
          | Some (ss, String "." r3) =>
              match parse_fraction r3 with
              | Some ff => Some (hh, mm, ss, ff)
              | None => None
              end
          | Some _ => None
          end
      | Some _ => None
      end
  | Some _ => None
  end.

(** [s.find(c)]: the text before and after the first [c]. *)
Fixpoint cut_at (c : ascii) (s : string) : option (string * string) :=
  match s with
  | EmptyString => None
  | String x rest =>
      if Ascii.eqb x c then Some (EmptyString, rest)
      else match cut_at c rest with
           | Some (before, after) => Some (String x before, after)
           | None => None
           end
  end.

(** The time part: [HH[:MM[:SS[.fff[fff]]]][+HH:MM[:SS[.ffffff]]]].  The
    result is the four time fields and the offset in microseconds, if any;
    an offset of no whole second is UTC. *)
Definition parse_isoformat_time (tstr : string) : option (Z * Z * Z * Z * option Z) :=
  let split :=
    match cut_at "-" tstr with
    | Some (t, z) => (t, Some (-1, z))
    | None =>
        match cut_at "+" tstr with
        | Some (t, z) => (t, Some (1, z))
        | None => (tstr, None)
        end
    end in
  match parse_hh_mm_ss_ff (fst split) with
  | None => None
  | Some (hh, mm, ss, ff) =>
      match snd split with
      | None => Some (hh, mm, ss, ff, None)
      | Some (sign, tzstr) =>
          let n := String.length tzstr in
          if (n =? 5)%nat || (n =? 8)%nat || (n =? 15)%nat then
            match parse_hh_mm_ss_ff tzstr with
            | Some (zh, zm, zs, zf) =>
                let tzoffset := zh * 3600 + zm * 60 + zs in
                let off :=
                  if tzoffset =? 0 then 0 else sign * (tzoffset * 1000000 + zf) in
                if valid_offset off then Some (hh, mm, ss, ff, Some off) else None
            | None => None
            end
          else None
      end
  end.

(** [YYYY-MM-DD] *)
Definition parse_isoformat_date (dstr : string) : option (Z * Z * Z) :=
  match two_digits dstr with
  | Some (c, r0) =>
      match two_digits r0 with
      | Some (y, String "-" r1) =>
          match two_digits r1 with
          | Some (m, String "-" r2) =>
              match two_digits r2 with
              | Some (d, EmptyString) => Some (c * 100 + y, m, d)
              | _ => None
              end
          | _ => None
          end
      | _ => None
      end
  | None => None
  end.

(** [datetime.fromisoformat(s)] on the format [isoformat()] writes,
    [YYYY-MM-DD[*HH[:MM[:SS[.fff[fff]]]][+HH:MM[:SS[.ffffff]]]]], which
    every CPython from 3.7 on reads; [None] stands for [ValueError].  Later
    versions read further ISO 8601 forms as well. *)
Definition fromisoformat (s : string) : option datetime :=
  match parse_isoformat_date (String.substring 0 10 s) with
  | None => None
  | Some (y, m, d) =>
      if (String.length s =? 10)%nat then
        match checked (mk_naive y m d 0 0 0 0) with
        | Some n => Some (Naive n)
        | None => None
        end
      else
        match parse_isoformat_time (String.substring 11 (String.length s) s) with
        | None => None
        | Some (hh, mm, ss, ff, tz) =>
            match checked (mk_naive y m d hh mm ss ff), tz with
            | Some n, None => Some (Naive n)
            | Some n, Some off => Some (Aware (mk_aware n off))
            | None, _ => None
            end
        end
  end.

(** [a - b]: a [timedelta] in microseconds; mixing naive and aware operands
    raises [TypeError]. *)
Definition sub (a b : datetime) : result Z :=
  match a, b with
  | Naive x, Naive y => Ok (base_delta x y)
  | Aware x, Aware y => Ok (aware_sub x y)
  | _, _ => Raise TypeError
  end.

(** [d.strftime('%Y-%m-%d')] and [d.isoformat()] for a date at midnight
    with a four-digit year. *)
Definition digit_char (n : Z) : ascii := ascii_of_nat (48 + Z.to_nat (n mod 10)).

Definition pad2 (n : Z) : string :=
  String (digit_char (n / 10)) (String (digit_char n) EmptyString).

Definition pad4 (n : Z) : string := (pad2 (n / 100) ++ pad2 n)%string.

Definition strftime_date (n : naive) : string :=
  (pad4 (year n) ++ "-" ++ pad2 (month n) ++ "-" ++ pad2 (day n))%string.

Definition isoformat (n : naive) : string :=
  (strftime_date n ++ "T" ++ pad2 (hour n) ++ ":" ++ pad2 (minute n) ++ ":"
   ++ pad2 (second n))%string.

(** *** Readings and instants

    The quantities in which the comparisons above are specified. *)

(** The extra day of a leap year. *)
Definition leap_day (y : Z) : Z := if is_leap y then 1 else 0.

(** A month and a day that exist in year [y]. *)
Definition valid_date (y m d : Z) : Prop :=
  1 <= m <= 12 /\ 1 <= d <= days_in_month y m.

Definition ordinal (y m d : Z) : Z := days_before_year y + days_before_month y m + d.

(** The wall-clock reading as a count of microseconds. *)
Definition micro (n : naive) : Z :=
  toordinal n * 86400000000
  + (second n + minute n * 60 + hour n * 3600) * 1000000 + microsecond n.

(** The instant an aware value denotes. *)
Definition instant (a : aware) : Z := micro (local a) - utcoffset a.

End DT.

(** ** The interpreter's [fromisoformat]

    Every CPython from 3.7 on reads the format that [isoformat()] writes,
    as [DT.fromisoformat] does.  CPython 3.11 and later read further
    ISO 8601 forms besides.  What the interpreter at hand reads beyond the
    common format is the field of [Interpreter]; the route analyzer is
    embedded over any interpreter. *)

Class Interpreter : Type := {
  (** [datetime.fromisoformat(s)] for a text outside the common format;
      [None] is [ValueError] *)
  also_reads : string -> option DT.datetime
}.

(** [datetime.fromisoformat(s)]; [None] is [ValueError]. *)
Definition fromisoformat {PY : Interpreter} (s : string) : option DT.datetime :=
  match DT.fromisoformat s with
  | Some d => Some d
  | None => also_reads s
  end.

(** CPython 3.7 to 3.10, which read the common format only. *)
Definition before_3_11 : Interpreter := {| also_reads := fun _ => None |}.

(** ** Python floats

    The scripts add, subtract, compare, divide and sum floats, read them
    from text and turn a [timedelta] into minutes.  These operations are
    the fields of [PyFloat]; the scripts are embedded over any
    implementation of them. *)

Class PyFloat : Type := {
  float : Type;
  (** [0.0] *)
  fzero : float;
  (** [x + y], [x - y] *)
  fadd : float -> float -> float;
  fsub : float -> float -> float;
  (** [x < y], [x <= y] *)
  flt : float -> float -> bool;
  fle : float -> float -> bool;
  (** [sum(xs)] over floats *)
  fsum : list float -> float;
  (** [x / n] for a float [x] and an int [n] other than zero *)
  fdiv_int : float -> Z -> float;
  (** [a / b] for ints, [b] other than zero; [None] is [OverflowError] *)
  int_truediv : Z -> Z -> option float;
  (** [float(s)]; [None] is [ValueError] *)
  float_of_string : string -> option float;
  (** [td.total_seconds() / 60.0] for a [timedelta] of that many microseconds *)
  minutes_of_timedelta : Z -> float;
  (** the great-circle distance of [_calculate_distance] between two
      points, from [lat1 lon1 lat2 lon2]; [None] is the [ValueError] of
      [math.sin] on an infinite angle and of [math.sqrt] below zero *)
  haversine_km : float -> float -> float -> float -> option float
}.

(** What the properties below use of float arithmetic.  Each law holds of
    IEEE 754 binary64 arithmetic, infinities and NaN included. *)
Class PyFloatLaws (PF : PyFloat) : Prop := {
  fadd_zero_zero : fadd fzero fzero = fzero;
  fadd_zero_r : forall x, flt fzero x = true -> fadd x fzero = x;
  fadd_pos : forall x d,
    x = fzero \/ flt fzero x = true -> flt fzero d = true ->
    flt fzero (fadd x d) = true;
  fle_zero_zero : fle fzero fzero = true;
  flt_fle : forall x y, flt x y = true -> fle x y = true;
  fsub_not_pos : forall x y, fle y x = true -> flt fzero (fsub y x) = false;
  flt_irrefl : forall x, flt x x = false;
  fdiv_int_antitone : forall x n m,
    flt fzero x = true -> 0 < n <= m -> fle (fdiv_int x m) (fdiv_int x n) = true;
  minutes_zero : minutes_of_timedelta 0 = fzero
}.

(** *** An implementation to compute with

    Fixed-point numbers with six decimals: the integer [n] stands for
    [n / 10^6].  Division truncates, text is read as plain decimals, and
    the distance between two points is the equirectangular approximation
    of the great-circle distance. *)
Module Fixed.

Definition scale : Z := 1000000.

Definition mul (a b : Z) : Z := a * b / scale.

(** The digits after the point, to six places. *)
Fixpoint fraction (s : string) (weight : Z) : option Z :=
  match s with
  | EmptyString => Some 0
  | String c rest =>
      if PyStr.is_digit c then
        match fraction rest (weight / 10) with
        | Some f => Some (PyStr.digit_val c * weight + f)
        | None => None
        end
      else None
  end.

Fixpoint whole_part (s : string) (acc : Z) : option (Z * option string) :=
  match s with
  | EmptyString => Some (acc, None)
  | String c rest =>
      if PyStr.is_digit c then whole_part rest (acc * 10 + PyStr.digit_val c)
      else if Ascii.eqb c "." then Some (acc, Some rest)
      else None
  end.

Definition unsigned (s : string) : option Z :=
  match s with
  | EmptyString | String "." EmptyString => None
  | _ =>
      match whole_part s 0 with
      | Some (w, None) => Some (w * scale)
      | Some (w, Some f) =>
          match fraction f (scale / 10) with
          | Some x => Some (w * scale + x)
          | None => None
          end
      | None => None
      end
  end.

Definition of_string (s : string) : option Z :=
  match PyStr.rstrip (PyStr.lstrip s) with
  | String "-" rest => option_map Z.opp (unsigned rest)
  | String "+" rest => unsigned rest
  | t => unsigned t
  end.

Definition radians (x : Z) : Z := x * 3141593 / 180000000.

Definition cosine (x : Z) : Z :=
  let x2 := mul x x in scale - x2 / 2 + mul x2 x2 / 24 - mul (mul x2 x2) x2 / 720.

Definition distance (lat1 lon1 lat2 lon2 : Z) : Z :=
  let dy := radians (lat2 - lat1) in
  let dx := mul (cosine (radians ((lat1 + lat2) / 2))) (radians (lon2 - lon1)) in
  6371 * Z.sqrt (dy * dy + dx * dx).

#[export] Instance ops : PyFloat := {|
  float := Z;
  fzero := 0;
  fadd := Z.add;
  fsub := Z.sub;
  flt := Z.ltb;
  fle := Z.leb;
  fsum := fun xs => fold_left Z.add xs 0;
  fdiv_int := fun x n => x / n;
  int_truediv := fun a b => Some (a * scale / b);
  float_of_string := of_string;
  minutes_of_timedelta := fun td => td / 60;
  haversine_km := fun lat1 lon1 lat2 lon2 => Some (distance lat1 lon1 lat2 lon2)
|}.

End Fixed.

Module PyNum.
Section WithFloat.
Context {PF : PyFloat}.

(** [x / n], float by int *)
Definition truediv (x : float) (n : Z) : result float :=
  if n =? 0 then Raise ZeroDivisionError else Ok (fdiv_int x n).

(** [a / b], int by int *)
Definition int_div (a b : Z) : result float :=
  if b =? 0 then Raise ZeroDivisionError
  else match int_truediv a b with
       | Some q => Ok q
       | None => Raise OverflowError
       end.

(** [min(xs)] and [max(xs)] over floats: the first extreme element. *)
Definition fmin (xs : list float) : result float :=
  match xs with
  | [] => Raise ValueError
  | x :: rest => Ok (fold_left (fun m y => if flt y m then y else m) rest x)
  end.

Definition fmax (xs : list float) : result float :=
  match xs with
  | [] => Raise ValueError
  | x :: rest => Ok (fold_left (fun m y => if flt m y then y else m) rest x)
  end.

End WithFloat.

(** [sum], [min], [max] over ints *)
Definition zsum (xs : list Z) : Z := fold_left Z.add xs 0.

Definition zmin (xs : list Z) : result Z :=
  match xs with
  | [] => Raise ValueError
  | x :: rest => Ok (fold_left Z.min rest x)
  end.

Definition zmax (xs : list Z) : result Z :=
  match xs with
  | [] => Raise ValueError
  | x :: rest => Ok (fold_left Z.max rest x)
  end.

(** [l[-n:]] *)
Definition last_n {A} (n : nat) (l : list A) : list A :=
  skipn (length l - n)%nat l.

(** [len(l)] *)
Definition len {A} (l : list A) : Z := Z.of_nat (length l).

End PyNum.

(** ** The export as a stream of parse events *)

Module Xml.

(** An element as [ElementTree] hands it over: its tag and its attributes. *)
Record Element : Type := mk_elem { tag : string; attrib : gmap string string }.

(** [elem.get(key)] *)
Definition get (elem : Element) (key : string) : option string := attrib elem !! key.

(** [elem.get(key, dflt)] *)
Definition get_default (elem : Element) (key dflt : string) : string :=
  default dflt (attrib elem !! key).

Inductive event : Type := ev_start | ev_end.

Definition is_end (e : event) : bool :=
  match e with ev_end => true | ev_start => false end.

(** What [ET.iterparse(path, events=('start', 'end'))] yields. *)
Definition stream : Type := list (event * Element).

End Xml.

(** ** [step_corrector.py]: the classification of step records *)

Module StepCorrector.

Import Xml.

(** [start_date = datetime(2025, 5, 1)] *)
Definition start_date : DT.naive := DT.mk_naive 2025 5 1 0 0 0 0.

(** The dict appended to [workout_times]. *)
Record Workout : Type := mk_workout {
  wk_start : DT.aware; wk_end : DT.aware; wk_type : string }.

(** The dict appended to [step_records]. *)
Record StepRecord : Type := mk_step {
  st_start : DT.aware; st_end : DT.aware; st_value : Z; st_source : string }.

(** The body of the loop of [extract_workout_times] for one [Workout]
    element: the dict it appends, or [None] when it appends nothing. *)
Definition workout_of (elem : Element) : option Workout :=
  let start_date_str := get elem "startDate" in
  let end_date_str := get elem "endDate" in
  let workout_type := get_default elem "workoutActivityType" EmptyString in
  if PyStr.truthy start_date_str && PyStr.truthy end_date_str then
    match start_date_str, end_date_str with
    | Some s, Some e =>
        match DT.strptime_stamp s with
        | None => None
        | Some workout_start =>
            match DT.strptime_stamp e with
            | None => None
            | Some workout_end =>
                let workout_start_naive := DT.replace_tzinfo_None workout_start in
                if DT.naive_ge workout_start_naive start_date
                then Some (mk_workout workout_start workout_end workout_type)
                else None
            end
        end
    | _, _ => None
    end
  else None.

Definition extract_workout_times (export : stream) : list Workout :=
  fold_left
    (fun workout_times (p : event * Element) =>
       let (ev, elem) := p in
       if is_end ev && String.eqb (tag elem) "Workout" then
         match workout_of elem with
         | Some w => workout_times ++ [w]
         | None => workout_times
         end
       else workout_times)
    export [].

(** The body of the loop of [extract_steps_with_times] for one [Record]
    element: the dict it appends, or [None] when it appends nothing. *)
Definition step_of (elem : Element) : option StepRecord :=
  let record_type := get elem "type" in
  if bool_decide (record_type = Some "HKQuantityTypeIdentifierStepCount") then
      let start_date_str := get elem "startDate" in
      let end_date_str := get elem "endDate" in
      let value := get elem "value" in
      if PyStr.truthy start_date_str && PyStr.truthy end_date_str && PyStr.truthy value then
        match start_date_str, end_date_str, value with
        | Some s, Some e, Some v =>
            match DT.strptime_stamp s with
            | None => None
            | Some step_start =>
                match DT.strptime_stamp e with
                | None => None
                | Some step_end =>
                    let step_start_naive := DT.replace_tzinfo_None step_start in
                    if DT.naive_ge step_start_naive start_date then
                      match PyStr.int_of_string v with
                      | Some n =>
                          Some (mk_step step_start step_end n
                                        (get_default elem "sourceName" "Unknown"))
                      | None => None
                      end
                    else None
                end
            end
        | _, _, _ => None
        end
      else None
  else None.

Definition extract_steps_with_times (export : stream) : list StepRecord :=
  fold_left
    (fun step_records (p : event * Element) =>
       let (ev, elem) := p in
       if is_end ev && String.eqb (tag elem) "Record" then
         match step_of elem with
         | Some r => step_records ++ [r]
         | None => step_records
         end
       else step_records)
    export [].

Definition overlaps (step_record : StepRecord) (workout : Workout) : bool :=
  DT.aware_le (st_start step_record) (wk_end workout)
  && DT.aware_ge (st_end step_record) (wk_start workout).

Fixpoint is_step_during_workout (step_record : StepRecord)
    (workout_times : list Workout) : bool :=
  match workout_times with
  | [] => false
  | workout :: rest =>
      if overlaps step_record workout then true
      else is_step_during_workout step_record rest
  end.

(** [sum(step['value'] for step in l)] *)
Definition sum_values (l : list StepRecord) : Z :=
  fold_left (fun acc step => acc + st_value step) l 0.

(** The three lists filled by the classification loop. *)
Record Buckets : Type := mk_buckets {
  steps_during_cycling : list StepRecord;
  steps_during_skating : list StepRecord;
  steps_during_walking : list StepRecord }.

Definition empty_buckets : Buckets := mk_buckets [] [] [].

(** One iteration of [for step in step_records]. *)
Definition classify_step (cycling_workouts skating_workouts walking_workouts : list Workout)
    (b : Buckets) (step : StepRecord) : Buckets :=
  if is_step_during_workout step cycling_workouts then
    mk_buckets (steps_during_cycling b ++ [step]) (steps_during_skating b) (steps_during_walking b)
  else if is_step_during_workout step skating_workouts then
    mk_buckets (steps_during_cycling b) (steps_during_skating b ++ [step]) (steps_during_walking b)
  else if is_step_during_workout step walking_workouts then
    mk_buckets (steps_during_cycling b) (steps_during_skating b) (steps_during_walking b ++ [step])
  else b.

Definition of_type (name : string) (workout_times : list Workout) : list Workout :=
  List.filter (fun w => PyStr.contains name (wk_type w)) workout_times.

Definition classify_all (workout_times : list Workout) (step_records : list StepRecord) : Buckets :=
  fold_left
    (classify_step (of_type "Cycling" workout_times)
                   (of_type "Skating" workout_times)
                   (of_type "Walking" workout_times))
    step_records empty_buckets.

(** The dict returned by [calculate_corrected_steps]. *)
Record Correction : Type := mk_correction {
  total_steps : Z;
  cycling_steps : Z;
  skating_steps : Z;
  walking_steps : Z;
  corrected_steps : Z;
  step_records_out : list StepRecord;
  workout_times_out : list Workout }.

(** The body of [calculate_corrected_steps] once the two lists have been
    extracted from the export. *)
Definition correct_steps (workout_times : list Workout) (step_records : list StepRecord)
    : Correction :=
  let total := sum_values step_records in
  let b := classify_all workout_times step_records in
  let cycling := sum_values (steps_during_cycling b) in
  let skating := sum_values (steps_during_skating b) in
  let walking := sum_values (steps_during_walking b) in
  mk_correction total cycling skating walking (total - cycling - skating)
                step_records workout_times.

(** [calculate_corrected_steps()], reading the export twice. *)
Definition calculate_corrected_steps (export : stream) : Correction :=
  let workout_times := extract_workout_times export in
  let step_records := extract_steps_with_times export in
  correct_steps workout_times step_records.

(** *** Records before the cutoff

    A [Record] element, at its end event, whose start reads as a time
    before [start_date]. *)
Definition starts_before_cutoff (elem : Element) : bool :=
  match get elem "startDate" with
  | Some s =>
      match DT.strptime_stamp s with
      | Some step_start => DT.naive_lt (DT.replace_tzinfo_None step_start) start_date
      | None => false
      end
  | None => false
  end.

Definition old_record (p : event * Element) : bool :=
  is_end (fst p) && String.eqb (tag (snd p)) "Record" && starts_before_cutoff (snd p).

(** The export without those records. *)
Definition without_old_records (export : stream) : stream :=
  List.filter (fun p => negb (old_record p)) export.

(** What one event contributes to [step_records]. *)
Definition step_at (p : event * Element) : option StepRecord :=
  if is_end (fst p) && String.eqb (tag (snd p)) "Record" then step_of (snd p) else None.

(** *** The classification, stated on its own

    The quantities in which the loop above is specified. *)

(** The sum of a list of integers, written as a right fold. *)
Definition total_of (l : list Z) : Z := fold_right Z.add 0 l.

(** The class a step record falls into, by first match. *)
Inductive class : Type := Cycling | Skating | Walking | Kept.

Definition class_eqb (a b : class) : bool :=
  match a, b with
  | Cycling, Cycling | Skating, Skating | Walking, Walking | Kept, Kept => true
  | _, _ => false
  end.

Definition class_of (workout_times : list Workout) (step : StepRecord) : class :=
  if is_step_during_workout step (of_type "Cycling" workout_times) then Cycling
  else if is_step_during_workout step (of_type "Skating" workout_times) then Skating
  else if is_step_during_workout step (of_type "Walking" workout_times) then Walking
  else Kept.

Definition in_class (ws : list Workout) (c : class) (steps : list StepRecord)
    : list StepRecord :=
  List.filter (fun step => class_eqb (class_of ws step) c) steps.

End StepCorrector.

(** ** [health_analyzer.py]: the streaming classifier and its reporters *)

Module Health.

Import Xml PyNum.

Section WithFloat.
Context {PF : PyFloat}.

(** [self.start_date = datetime(2025, 5, 1)] *)
Definition start_date : DT.naive := DT.mk_naive 2025 5 1 0 0 0 0.

(** The dicts appended to [heart_rate_data], [step_data], [energy_data]. *)
Record HeartRate : Type := mk_hr { hr_date : string; hr_value : float }.
Record StepDatum : Type := mk_sd { sd_date : string; sd_value : Z }.
Record Energy : Type := mk_en { en_date : string; en_type : string; en_value : float }.

(** The dict appended to [workouts].  The nested statistics blocks are left
    out: nothing below reads them. *)
Record WorkoutInfo : Type := mk_wi {
  wi_type : string;
  wi_start_date : string;
  wi_end_date : option string;
  wi_duration : option string;
  wi_duration_unit : option string;
  wi_source : option string }.

(** The accumulators of a [HealthDataParser]. *)
Record HealthDataParser : Type := mk_parser {
  stats : gmap string Z;
  workouts : list WorkoutInfo;
  heart_rate_data : list HeartRate;
  step_data : list StepDatum;
  energy_data : list Energy }.

(** [HealthDataParser(xml_file)] *)
Definition init : HealthDataParser := mk_parser ∅ [] [] [] [].

(** [s.split(' ')[0]] *)
Definition first_token (s : string) : string := hd EmptyString (PyStr.split " " s).

(** [d[k] += n] on a [defaultdict(int)] *)
Definition bump (k : string) (n : Z) (d : gmap string Z) : gmap string Z :=
  <[k := default 0 (d !! k) + n]> d.

Definition _process_record (self : HealthDataParser) (elem : Element) : HealthDataParser :=
  match get elem "startDate" with
  | Some (String _ _ as start_date_str) =>
      match DT.strptime_date (first_token start_date_str) with
      | None => self
      | Some record_date =>
          if DT.naive_ge record_date start_date then
            let record_type := get_default elem "type" "Unknown" in
            let self1 := mk_parser (bump record_type 1 (stats self)) (workouts self)
                           (heart_rate_data self) (step_data self) (energy_data self) in
            if String.eqb record_type "HKQuantityTypeIdentifierHeartRate" then
              match get elem "value" with
              | Some (String _ _ as value) =>
                  match float_of_string value with
                  | Some v =>
                      mk_parser (stats self1) (workouts self1)
                        (heart_rate_data self1 ++ [mk_hr start_date_str v])
                        (step_data self1) (energy_data self1)
                  | None => self1
                  end
              | _ => self1
              end
            else if String.eqb record_type "HKQuantityTypeIdentifierStepCount" then
              match get elem "value" with
              | Some (String _ _ as value) =>
                  match PyStr.int_of_string value with
                  | Some v =>
                      mk_parser (stats self1) (workouts self1) (heart_rate_data self1)
                        (step_data self1 ++ [mk_sd start_date_str v]) (energy_data self1)
                  | None => self1
                  end
              | _ => self1
              end
            else if String.eqb record_type "HKQuantityTypeIdentifierActiveEnergyBurned"
                    || String.eqb record_type "HKQuantityTypeIdentifierBasalEnergyBurned" then
              match get elem "value" with
              | Some (String _ _ as value) =>
                  match float_of_string value with
                  | Some v =>
                      mk_parser (stats self1) (workouts self1) (heart_rate_data self1)
                        (step_data self1)
                        (energy_data self1 ++ [mk_en start_date_str record_type v])
                  | None => self1
                  end
              | _ => self1
              end
            else self1
          else self
      end
  | _ => self
  end.

Definition _process_workout (self : HealthDataParser) (elem : Element) : HealthDataParser :=
  match get elem "startDate" with
  | Some (String _ _ as start_date_str) =>
      match DT.strptime_date (first_token start_date_str) with
      | None => self
      | Some workout_date =>
          if DT.naive_ge workout_date start_date then
            let workout_info :=
              mk_wi (get_default elem "workoutActivityType" "Unknown")
                    start_date_str
                    (get elem "endDate")
                    (get elem "duration")
                    (get elem "durationUnit")
                    (get elem "sourceName") in
            mk_parser (stats self) (workouts self ++ [workout_info])
              (heart_rate_data self) (step_data self) (energy_data self)
          else self
      end
  | _ => self
  end.

(** One turn of the loop of [parse_xml_streaming]. *)
Definition on_event (self : HealthDataParser) (p : event * Element) : HealthDataParser :=
  let (ev, elem) := p in
  if is_end ev then
    if String.eqb (tag elem) "Record" then _process_record self elem
    else if String.eqb (tag elem) "Workout" then _process_workout self elem
    else self
  else self.

Definition parse_xml_streaming (self : HealthDataParser) (export : stream) : HealthDataParser :=
  fold_left on_event export self.

(** *** Reporters *)

Inductive HeartRateSummary : Type :=
| HR_message (message : string)
| HR_stats (total_readings : Z) (average min max : float)
           (recent_readings : list HeartRate).

Definition _analyze_heart_rate (self : HealthDataParser) : result HeartRateSummary :=
  match heart_rate_data self with
  | [] => Ok (HR_message "No heart rate data found")
  | _ =>
      let values := map hr_value (heart_rate_data self) in
      average <-- truediv (fsum values) (len values) ;;
      mn <-- fmin values ;;
      mx <-- fmax values ;;
      Ok (HR_stats (len values) average mn mx (last_n 10 (heart_rate_data self)))
  end.

Inductive StepSummary : Type :=
| ST_message (message : string)
| ST_stats (total_days total_steps : Z) (average_daily : float)
           (max_daily min_daily : Z) (daily_breakdown : gmap string Z).

(** The loop that fills [daily_steps]. *)
Definition daily_steps_of (data : list StepDatum) : gmap string Z :=
  fold_left (fun daily step => bump (first_token (sd_date step)) (sd_value step) daily)
            data ∅.

(** [list(d.values())] *)
Definition dict_values (d : gmap string Z) : list Z := (map_to_list d).*2.

Definition _analyze_steps (self : HealthDataParser) : result StepSummary :=
  match step_data self with
  | [] => Ok (ST_message "No step data found")
  | _ =>
      let daily_steps := daily_steps_of (step_data self) in
      let values := dict_values daily_steps in
      average_daily <-- int_div (zsum values) (len values) ;;
      max_daily <-- zmax values ;;
      min_daily <-- zmin values ;;
      Ok (ST_stats (Z.of_nat (size daily_steps)) (zsum values) average_daily
                   max_daily min_daily daily_steps)
  end.

(** The dict stored under ['active_energy'] or ['basal_energy']. *)
Record EnergyStats : Type := mk_es { es_total : float; es_average : float; es_max : float }.

Inductive EnergySummary : Type :=
| EN_message (message : string)
| EN_result (active_energy basal_energy : option EnergyStats).

(** The block guarded by [if active_energy:] (and its twin). *)
Definition energy_stats (es : list Energy) : result (option EnergyStats) :=
  match es with
  | [] => Ok None
  | _ =>
      let values := map en_value es in
      average <-- truediv (fsum values) (len values) ;;
      mx <-- fmax values ;;
      Ok (Some (mk_es (fsum values) average mx))
  end.

Definition _analyze_energy (self : HealthDataParser) : result EnergySummary :=
  match energy_data self with
  | [] => Ok (EN_message "No energy data found")
  | _ =>
      let active_energy :=
        List.filter (fun e => PyStr.contains "ActiveEnergy" (en_type e)) (energy_data self) in
      let basal_energy :=
        List.filter (fun e => PyStr.contains "BasalEnergy" (en_type e)) (energy_data self) in
      a <-- energy_stats active_energy ;;
      b <-- energy_stats basal_energy ;;
      Ok (EN_result a b)
  end.

Inductive WorkoutSummary : Type :=
| WK_message (message : string)
| WK_stats (total_workouts : Z) (workout_types : gmap string Z)
           (total_duration_minutes : float) (average_duration : float)
           (recent_workouts : list WorkoutInfo).

(** One turn of the loop that accumulates [total_duration]. *)
Definition add_duration (total_duration : float) (workout : WorkoutInfo) : float :=
  match wi_duration workout with
  | Some (String _ _ as d) =>
      match float_of_string d with
      | Some x => fadd total_duration x
      | None => total_duration
      end
  | _ => total_duration
  end.

(** [total_duration] after the loop.  It starts as the int [0], which
    behaves as [0.0] in the additions and in the division that follow. *)
Definition total_duration_of (ws : list WorkoutInfo) : float :=
  fold_left add_duration ws fzero.

(** [Counter(w['type'] for w in ws)] *)
Definition count_types (ws : list WorkoutInfo) : gmap string Z :=
  fold_left (fun c w => bump (wi_type w) 1 c) ws ∅.

Definition _analyze_workouts (self : HealthDataParser) : result WorkoutSummary :=
  match workouts self with
  | [] => Ok (WK_message "No workouts found")
  | _ =>
      let workout_types := count_types (workouts self) in
      let total_duration := total_duration_of (workouts self) in
      average_duration <--
        (match workouts self with
         | [] => Ok fzero
         | _ => truediv total_duration (len (workouts self))
         end) ;;
      Ok (WK_stats (len (workouts self)) workout_types total_duration average_duration
                   (last_n 5 (workouts self)))
  end.

(** The dict returned by [generate_summary] (its [period] text left out). *)
Record Summary : Type := mk_summary {
  total_records : Z;
  sm_total_workouts : Z;
  record_types : gmap string Z;
  sm_workouts : list WorkoutInfo;
  heart_rate_summary : HeartRateSummary;
  step_summary : StepSummary;
  energy_summary : EnergySummary;
  workout_summary : WorkoutSummary }.

Definition generate_summary (self : HealthDataParser) : result Summary :=
  hr <-- _analyze_heart_rate self ;;
  st <-- _analyze_steps self ;;
  en <-- _analyze_energy self ;;
  wk <-- _analyze_workouts self ;;
  Ok (mk_summary (zsum (dict_values (stats self))) (len (workouts self)) (stats self)
                 (workouts self) hr st en wk).

(** *** Records before the cutoff

    A [Record] element, at its end event, whose start date reads as a day
    before [start_date]. *)
Definition dated_before_cutoff (elem : Element) : bool :=
  match get elem "startDate" with
  | Some s =>
      match DT.strptime_date (first_token s) with
      | Some record_date => DT.naive_lt record_date start_date
      | None => false
      end
  | None => false
  end.

Definition old_record (p : event * Element) : bool :=
  is_end (fst p) && String.eqb (tag (snd p)) "Record" && dated_before_cutoff (snd p).

(** The export without those records. *)
Definition without_old_records (export : stream) : stream :=
  List.filter (fun p => negb (old_record p)) export.

(** *** The workout durations, stated on their own *)

(** The duration of a workout, when the attribute is present and reads as
    a number. *)
Definition duration_of (workout : WorkoutInfo) : option float :=
  match wi_duration workout with
  | Some (String _ _ as d) => float_of_string d
  | _ => None
  end.

(** The durations that are present and read as numbers, in order. *)
Definition parsed_durations (ws : list WorkoutInfo) : list float :=
  omap duration_of ws.

(** A start-date text that reads as a day at or after [start_date]. *)
Definition on_or_after_cutoff (s : string) : bool :=
  match DT.strptime_date (first_token s) with
  | Some d => DT.naive_ge d start_date
  | None => false
  end.


End WithFloat.
End Health.

(** ** [gpx_analyzer.py]: route statistics and the batch over route files *)

Module GPX.

Import PyNum.

Section WithFloat.
Context {PF : PyFloat} {PY : Interpreter}.

(** The dict appended to [track_points]. *)
Record TrackPoint : Type := mk_point {
  lat : float; lon : float; ele : option float; time : option string }.

(** *** Statistics of one route *)

(** The loop of [_calculate_distance] over consecutive points; the first
    leg on which the formula fails ends it with [ValueError]. *)
Fixpoint distance_loop (points : list TrackPoint) (total_distance : float)
  : result float :=
  match points with
  | p1 :: (p2 :: _) as rest =>
      match haversine_km (lat p1) (lon p1) (lat p2) (lon p2) with
      | Some distance => distance_loop rest (fadd total_distance distance)
      | None => Raise ValueError
      end
  | _ => Ok total_distance
  end.

Definition _calculate_distance (points : list TrackPoint) : result float :=
  if len points <? 2 then Ok fzero else distance_loop points fzero.

(** One turn of the loop of [_calculate_elevation_gain]. *)
Definition gain_step (elevation_gain : float) (p1 p2 : TrackPoint) : float :=
  match ele p1, ele p2 with
  | Some ele1, Some ele2 =>
      let elevation_diff := fsub ele2 ele1 in
      if flt fzero elevation_diff then fadd elevation_gain elevation_diff
      else elevation_gain
  | _, _ => elevation_gain
  end.

Fixpoint gain_loop (points : list TrackPoint) (elevation_gain : float) : float :=
  match points with
  | p1 :: (p2 :: _) as rest => gain_loop rest (gain_step elevation_gain p1 p2)
  | _ => elevation_gain
  end.

Definition _calculate_elevation_gain (points : list TrackPoint) : float :=
  if len points <? 2 then fzero else gain_loop points fzero.

(** The loop of [_calculate_duration] that finds [start_time] and
    [end_time]. *)
Definition scan_times (points : list TrackPoint) : option string * option string :=
  fold_left
    (fun (acc : option string * option string) point =>
       if PyStr.truthy (time point) then
         ((match fst acc with None => time point | Some _ => fst acc end), time point)
       else acc)
    points (None, None).

Definition _calculate_duration (points : list TrackPoint) : result float :=
  if len points <? 2 then Ok fzero
  else
    match scan_times points with
    | (Some (String _ _ as start_time), Some (String _ _ as end_time)) =>
        match fromisoformat (PyStr.replace_char "Z" "+00:00" start_time) with
        | None => Ok fzero
        | Some start_dt =>
            match fromisoformat (PyStr.replace_char "Z" "+00:00" end_time) with
            | None => Ok fzero
            | Some end_dt =>
                td <-- DT.sub end_dt start_dt ;;
                Ok (minutes_of_timedelta td)
            end
        end
    | _ => Ok fzero
    end.

(** The dict returned by [_analyze_single_gpx]. *)
Record RouteInfo : Type := mk_route {
  filename : string;
  date : string;
  datetime : string;
  track_points : Z;
  distance_km : float;
  elevation_gain_m : float;
  duration_minutes : float;
  start_point : float * float;
  end_point : float * float }.

(** *** The batch over the route directory *)

(** What the file system answers: the names in the directory, if it
    exists, and for each path the track points that [ET.parse] and the
    loop over [trkpt] elements read from it, or the exception that reading
    or converting raises. *)
Record FileSystem : Type := mk_fs {
  listdir : option (list string);
  read_track_points : string -> result (list TrackPoint) }.

(** The lines the analyzer prints. *)
Inductive Line : Type :=
| Analyzing_from (d : string)
| Directory_not_found (dir : string)
| Could_not_parse_date (gpx_file : string) (e : exn)
| Error_analyzing (filename : string) (e : exn)
| Processed (processed_count total_count : Z).

(** The analyzer together with what it has done to the outside. *)
Record GPXAnalyzer : Type := mk_analyzer {
  gpx_dir : string;
  routes : list RouteInfo;
  opened : list string;
  printed : list Line }.

(** [self.start_date = datetime(2025, 5, 1)] *)
Definition start_date : DT.naive := DT.mk_naive 2025 5 1 0 0 0 0.

(** [GPXAnalyzer(gpx_dir)] *)
Definition init (dir : string) : GPXAnalyzer := mk_analyzer dir [] [] [].

Definition print (l : Line) (self : GPXAnalyzer) : GPXAnalyzer :=
  mk_analyzer (gpx_dir self) (routes self) (opened self) (printed self ++ [l]).

(** [os.path.join(dir, name)] *)
Definition path_join (dir name : string) : string :=
  if String.prefix "/" name then name
  else match dir with
       | EmptyString => name
       | _ => if PyStr.endswith dir "/" then (dir ++ name)%string
              else (dir ++ "/" ++ name)%string
       end.

Definition _analyze_single_gpx (fs : FileSystem) (self : GPXAnalyzer)
    (file_path filename : string) (route_date : DT.naive)
    : GPXAnalyzer * option RouteInfo :=
  let self := mk_analyzer (gpx_dir self) (routes self) (opened self ++ [file_path])
                          (printed self) in
  match read_track_points fs file_path with
  | Raise e => (print (Error_analyzing filename e) self, None)
  | Ok [] => (self, None)
  | Ok ((first :: _) as points) =>
      match _calculate_distance points with
      | Raise e => (print (Error_analyzing filename e) self, None)
      | Ok distance =>
          let elevation_gain := _calculate_elevation_gain points in
          match _calculate_duration points with
          | Raise e => (print (Error_analyzing filename e) self, None)
          | Ok duration =>
              let final := List.last points first in
              (self,
               Some (mk_route filename (DT.strftime_date route_date)
                              (DT.isoformat route_date)
                              (len points) distance elevation_gain duration
                              (lat first, lon first) (lat final, lon final)))
          end
      end
  end.

(** [l.sort()] on names. *)
Fixpoint insert_sorted (x : string) (l : list string) : list string :=
  match l with
  | [] => [x]
  | y :: rest => if String.leb x y then x :: l else y :: insert_sorted x rest
  end.

Definition sort (l : list string) : list string := fold_right insert_sorted [] l.

(** One turn of [for gpx_file in gpx_files], with the two counters. *)
Definition on_file (fs : FileSystem) (st : GPXAnalyzer * (Z * Z)) (gpx_file : string)
    : GPXAnalyzer * (Z * Z) :=
  let '(self, (processed_count, total_count)) := st in
  let total_count := total_count + 1 in
  let file_path := path_join (gpx_dir self) gpx_file in
  match PyStr.split "_" gpx_file with
  | _ :: date_part :: _ =>
      match DT.strptime_date date_part with
      | Some route_date =>
          if DT.naive_ge route_date start_date then
            match _analyze_single_gpx fs self file_path gpx_file route_date with
            | (self, Some route_info) =>
                (mk_analyzer (gpx_dir self) (routes self ++ [route_info]) (opened self)
                             (printed self),
                 (processed_count + 1, total_count))
            | (self, None) => (self, (processed_count, total_count))
            end
          else (self, (processed_count, total_count))
      | None =>
          (print (Could_not_parse_date gpx_file ValueError) self,
           (processed_count, total_count))
      end
  | _ =>
      (print (Could_not_parse_date gpx_file IndexError) self,
       (processed_count, total_count))
  end.

Definition analyze_gpx_files (fs : FileSystem) (self : GPXAnalyzer) : GPXAnalyzer :=
  let self := print (Analyzing_from (DT.strftime_date start_date)) self in
  match listdir fs with
  | None => print (Directory_not_found (gpx_dir self)) self
  | Some names =>
      let gpx_files := sort (List.filter (fun f => PyStr.endswith f ".gpx") names) in
      let '(self, (processed_count, total_count)) :=
        fold_left (on_file fs) gpx_files (self, (0, 0)) in
      print (Processed processed_count total_count) self
  end.

(** *** The summary of the routes *)

(** One entry of [monthly_stats]. *)
Record MonthStats : Type := mk_month {
  ms_routes : Z; ms_distance : float; ms_elevation : float; ms_duration : float }.

(** The value a missing month starts from. *)
Definition month_default : MonthStats := mk_month 0 fzero fzero fzero.

(** One turn of the loop that groups the routes by month. *)
Definition add_route (monthly_stats : gmap string MonthStats) (route : RouteInfo)
    : gmap string MonthStats :=
  let month_key := PyStr.take 7 (date route) in
  let cur := default month_default (monthly_stats !! month_key) in
  <[month_key := mk_month (ms_routes cur + 1)
                          (fadd (ms_distance cur) (distance_km route))
                          (fadd (ms_elevation cur) (elevation_gain_m route))
                          (fadd (ms_duration cur) (duration_minutes route))]> monthly_stats.

(** The dict returned by [generate_summary] when there are routes (its
    [period] text left out). *)
Record RouteStats : Type := mk_stats {
  total_routes : Z;
  total_distance_km : float;
  total_elevation_gain_m : float;
  total_duration_minutes : float;
  total_track_points : Z;
  average_distance_per_route : float;
  average_elevation_per_route : float;
  average_duration_per_route : float;
  monthly_breakdown : gmap string MonthStats;
  routes_out : list RouteInfo }.

Inductive RouteSummary : Type :=
| GS_message (message : string)
| GS_stats (s : RouteStats).

Definition generate_summary (self : GPXAnalyzer) : result RouteSummary :=
  match routes self with
  | [] => Ok (GS_message "No routes found for the specified period")
  | _ =>
      let total_distance := fsum (map distance_km (routes self)) in
      let total_elevation := fsum (map elevation_gain_m (routes self)) in
      let total_duration := fsum (map duration_minutes (routes self)) in
      let total_points := zsum (map track_points (routes self)) in
      let monthly_stats := fold_left add_route (routes self) ∅ in
      avg_distance <-- truediv total_distance (len (routes self)) ;;
      avg_elevation <-- truediv total_elevation (len (routes self)) ;;
      avg_duration <-- truediv total_duration (len (routes self)) ;;
      Ok (GS_stats (mk_stats (len (routes self)) total_distance total_elevation
                             total_duration total_points avg_distance avg_elevation
                             avg_duration monthly_stats (routes self)))
  end.

(** *** The elevation gain, stated on its own *)

(** The differences [ele[i+1] - ele[i]] over the consecutive pairs in
    which both elevations are present. *)
Fixpoint elevation_diffs (points : list TrackPoint) : list float :=
  match points with
  | p1 :: (p2 :: _) as rest =>
      match ele p1, ele p2 with
      | Some ele1, Some ele2 => fsub ele2 ele1 :: elevation_diffs rest
      | _, _ => elevation_diffs rest
      end
  | _ => []
  end.

(** [max(0, d)] *)
Definition max0 (d : float) : float := if flt fzero d then d else fzero.

(** The sum of [max(0, ele[i+1] - ele[i])] over those pairs. *)
Definition sum_of_rises (points : list TrackPoint) : float :=
  fold_left fadd (map max0 (elevation_diffs points)) fzero.

(** No consecutive pair with both elevations present rises. *)
Fixpoint never_rises (points : list TrackPoint) : Prop :=
  match points with
  | p1 :: (p2 :: _) as rest =>
      match ele p1, ele p2 with
      | Some ele1, Some ele2 => fle ele2 ele1 = true
      | _, _ => True
      end /\ never_rises rest
  | _ => True
  end.

(** The accumulator of the gain loop is [0.0] or positive. *)
Definition settled (g : float) : Prop := g = fzero \/ flt fzero g = true.

(** *** The duration, stated on its own *)

(** The time texts of the points that carry one, in order. *)
Definition stamps (points : list TrackPoint) : list string :=
  omap (fun p => if PyStr.truthy (time p) then time p else None) points.

(** [fromisoformat] after the replacement of [Z]. *)
Definition read_stamp (s : string) : option DT.datetime :=
  fromisoformat (PyStr.replace_char "Z" "+00:00" s).

(** *** The batch, stated on its own *)





End WithFloat.
End GPX.

(** ** Further quantities of the step correction *)

Module StepCorrectorExt.

Import Xml StepCorrector.

(** A step record that no cycling and no skating workout overlaps. *)
Definition clear_of (workout_times : list Workout) (step : StepRecord) : bool :=
  negb (is_step_during_workout step (of_type "Cycling" workout_times))
  && negb (is_step_during_workout step (of_type "Skating" workout_times)).

(** A workout of one of the two kinds whose steps are taken off. *)
Definition takes_off (w : Workout) : bool :=
  PyStr.contains "Cycling" (wk_type w) || PyStr.contains "Skating" (wk_type w).


(** Both ends of the step lie within the workout, as instants. *)
Definition within (step : StepRecord) (w : Workout) : Prop :=
  DT.instant (wk_start w) <= DT.instant (st_start step) <= DT.instant (wk_end w)
  /\ DT.instant (wk_start w) <= DT.instant (st_end step) <= DT.instant (wk_end w).

End StepCorrectorExt.

(** ** Totals over dicts *)

Module Dict.

(** [list(d.values())] for any kind of value. *)
Definition values_of {V} (d : gmap string V) : list V := (map_to_list d).*2.

(** The sum of an integer reading of the values. *)
Definition weight {V} (f : V -> Z) (d : gmap string V) : Z :=
  PyNum.zsum (map f (values_of d)).

(** What a key holds, zero when it is missing. *)
Definition held (d : gmap string Z) (k : string) : Z := default 0 (d !! k).

(** A loop of [d[key(x)] += val(x)]. *)
Definition tally {A} (key : A -> string) (val : A -> Z) (l : list A)
    (d : gmap string Z) : gmap string Z :=
  fold_left (fun d x => Health.bump (key x) (val x) d) l d.

End Dict.

(** ** Further quantities of the health analyzer *)

Module HealthExt.

Import Xml PyNum Health.

Section WithFloat.
Context {PF : PyFloat}.

(** A start-date attribute that is present, not empty, and reads as a day
    at or after [start_date]. *)
Definition dated (elem : Element) : bool :=
  match get elem "startDate" with
  | Some (String _ _ as s) => on_or_after_cutoff s
  | _ => false
  end.

(** The end of a [Record] element, or of a [Workout] element, so dated. *)
Definition dated_record (p : event * Element) : bool :=
  is_end (fst p) && String.eqb (tag (snd p)) "Record" && dated (snd p).

Definition dated_workout (p : event * Element) : bool :=
  is_end (fst p) && String.eqb (tag (snd p)) "Workout" && dated (snd p).

(** An energy entry of one of the two collected kinds. *)
Definition is_active (e : Energy) : bool :=
  String.eqb (en_type e) "HKQuantityTypeIdentifierActiveEnergyBurned".

Definition is_basal (e : Energy) : bool :=
  String.eqb (en_type e) "HKQuantityTypeIdentifierBasalEnergyBurned".

(** The entries of one day, and of one workout type. *)
Definition on_day (day : string) (data : list StepDatum) : list StepDatum :=
  List.filter (fun step => String.eqb (first_token (sd_date step)) day) data.

Definition of_workout_type (ty : string) (ws : list WorkoutInfo) : list WorkoutInfo :=
  List.filter (fun w => String.eqb (wi_type w) ty) ws.

(** The counts relate to the lists as the loop keeps them: no list is
    longer than the count of its type. *)
Definition counts_cover (self : HealthDataParser) : Prop :=
  len (heart_rate_data self) <= Dict.held (stats self) "HKQuantityTypeIdentifierHeartRate"
  /\ len (step_data self) <= Dict.held (stats self) "HKQuantityTypeIdentifierStepCount"
  /\ len (List.filter is_active (energy_data self))
     <= Dict.held (stats self) "HKQuantityTypeIdentifierActiveEnergyBurned"
  /\ len (List.filter is_basal (energy_data self))
     <= Dict.held (stats self) "HKQuantityTypeIdentifierBasalEnergyBurned"
  /\ Forall (fun e => is_active e || is_basal e = true) (energy_data self).

End WithFloat.
End HealthExt.

(** ** Sample data *)

Module Samples.

Import Xml StepCorrector.

Definition record (ty start finish value : string) : Element :=
  mk_elem "Record"
    (list_to_map [("type", ty); ("startDate", start); ("endDate", finish);
                  ("value", value); ("sourceName", "Watch")]).

Definition step_count (start finish value : string) : Element :=
  record "HKQuantityTypeIdentifierStepCount" start finish value.

Definition workout (activity start finish duration : string) : Element :=
  mk_elem "Workout"
    (list_to_map [("workoutActivityType", activity); ("startDate", start);
                  ("endDate", finish); ("duration", duration)]).

Definition ride : Element :=
  workout "HKWorkoutActivityTypeCycling"
          "2025-05-10 10:00:00 +0200" "2025-05-10 10:30:00 +0200" "30.0".
Definition skate : Element :=
  workout "HKWorkoutActivityTypeSkatingSports"
          "2025-05-10 10:20:00 +0200" "2025-05-10 10:50:00 +0200" "30.0".
Definition walk : Element :=
  workout "HKWorkoutActivityTypeWalking"
          "2025-05-10 12:00:00 +0200" "2025-05-10 12:30:00 +0200" EmptyString.

Definition during_ride : Element :=
  step_count "2025-05-10 10:05:00 +0200" "2025-05-10 10:10:00 +0200" "500".
Definition during_both : Element :=
  step_count "2025-05-10 10:25:00 +0200" "2025-05-10 10:28:00 +0200" "120".
Definition during_skate : Element :=
  step_count "2025-05-10 10:40:00 +0200" "2025-05-10 10:45:00 +0200" "80".
Definition at_rest : Element :=
  step_count "2025-05-10 11:00:00 +0200" "2025-05-10 11:05:00 +0200" "200".
Definition during_walk : Element :=
  step_count "2025-05-10 12:10:00 +0200" "2025-05-10 12:15:00 +0200" "300".
(** starts at the instant the ride ends, written in another zone *)
Definition touching_ride : Element :=
  step_count "2025-05-10 08:30:00 +0000" "2025-05-10 08:31:00 +0000" "7".
Definition before_cutoff : Element :=
  step_count "2025-04-30 23:59:00 +0200" "2025-05-01 00:04:00 +0200" "999".
Definition pulse : Element :=
  record "HKQuantityTypeIdentifierHeartRate"
         "2025-05-10 10:05:00 +0200" "2025-05-10 10:05:00 +0200" "72".

Definition closed (elem : Element) : list (event * Element) :=
  [(ev_start, elem); (ev_end, elem)].

Definition export : stream :=
  closed ride ++ closed skate ++ closed walk ++ closed before_cutoff
  ++ closed during_ride ++ closed during_both ++ closed during_skate
  ++ closed at_rest ++ closed during_walk ++ closed touching_ride ++ closed pulse.

Definition at_0200 (h mi : Z) : DT.aware :=
  DT.mk_aware (DT.mk_naive 2025 5 10 h mi 0 0) 7200000000.

Definition workouts : list Workout :=
  [ mk_workout (at_0200 10 0) (at_0200 10 30) "HKWorkoutActivityTypeCycling";
    mk_workout (at_0200 10 20) (at_0200 10 50) "HKWorkoutActivityTypeSkatingSports";
    mk_workout (at_0200 12 0) (at_0200 12 30) "HKWorkoutActivityTypeWalking" ].

Definition both : StepRecord := mk_step (at_0200 10 25) (at_0200 10 28) 120 "Watch".

Definition touching : StepRecord :=
  mk_step (DT.mk_aware (DT.mk_naive 2025 5 10 8 30 0 0) 0)
          (DT.mk_aware (DT.mk_naive 2025 5 10 8 31 0 0) 0) 7 "Watch".

Definition steps : list StepRecord :=
  [ mk_step (at_0200 10 5) (at_0200 10 10) 500 "Watch";
    both;
    mk_step (at_0200 10 40) (at_0200 10 45) 80 "Watch";
    mk_step (at_0200 11 0) (at_0200 11 5) 200 "Watch";
    mk_step (at_0200 12 10) (at_0200 12 15) 300 "Watch";
    touching ].

(** A route whose first time stamp carries a zone and whose last one does
    not. *)
Definition mixed_route {PF : PyFloat} : list GPX.TrackPoint :=
  [ GPX.mk_point fzero fzero None (Some "2025-05-10T10:00:00Z");
    GPX.mk_point fzero fzero None (Some "2025-05-10T10:30:00") ].

(** A file system that holds that route under every path. *)
Definition mixed_fs {PF : PyFloat} : GPX.FileSystem :=
  GPX.mk_fs (Some ["route_2025-05-10_10.00am.gpx"]) (fun _ => Ok mixed_route).

(** A route directory: a route in May, one in April, a name without a
    date, a name whose second token is no date, and a file that is not a
    route. *)
Definition route_names : list string :=
  [ "route_2025-05-10_5.09pm.gpx"; "notes.txt"; "route_2025-04-10_1.00pm.gpx";
    "broken.gpx"; "route_someday_x.gpx" ].

Definition short_walk : list (GPX.TrackPoint (PF := Fixed.ops)) :=
  [ GPX.mk_point (PF := Fixed.ops) 52000000 21000000 (Some 100000000)
                 (Some "2025-05-10T15:09:00Z");
    GPX.mk_point (PF := Fixed.ops) 52010000 21000000 (Some 104000000)
                 (Some "2025-05-10T15:39:00Z") ].

Definition route_fs : GPX.FileSystem (PF := Fixed.ops) :=
  GPX.mk_fs (Some route_names) (fun _ => Ok short_walk).

End Samples.

(** ** Further quantities of the route analyzer *)

Module GPXExt.

Import PyNum GPX.

Section WithFloat.
Context {PF : PyFloat}.


(** The routes of one month. *)
Definition in_month (month_key : string) (rs : list RouteInfo) : list RouteInfo :=
  List.filter (fun r => String.eqb (PyStr.take 7 (date r)) month_key) rs.

(** The distance with one more leg, from the distance so far. *)
Definition add_leg (q p : TrackPoint) (total_distance : float) : result float :=
  match haversine_km (lat q) (lon q) (lat p) (lon p) with
  | Some distance => Ok (fadd total_distance distance)
  | None => Raise ValueError
  end.


End WithFloat.
End GPXExt.

(** ** Documents with their subelements

    The functions above read the tag and the attributes of the elements
    the parser hands over.  Some places also read what lies below an
    element, through [findall] and [find]: for them a document is the tree
    that [ElementTree] builds, each element with its attributes, its text
    and its subelements.  The loop over [iterparse] shares the elements
    between its turns, so that the subelements an 'end' event shows are
    the objects the earlier turns have acted on. *)

Module Tree.

Import Xml.

#[warnings="-register-all"] Inductive Node : Type :=
| mk_node (t : string) (a : gmap string string) (x : option string) (cs : list Node).

Definition node_tag (n : Node) : string := match n with mk_node t _ _ _ => t end.
Definition node_attrib (n : Node) : gmap string string :=
  match n with mk_node _ a _ _ => a end.
Definition node_text (n : Node) : option string :=
  match n with mk_node _ _ x _ => x end.
Definition children (n : Node) : list Node :=
  match n with mk_node _ _ _ cs => cs end.

(** What [elem.tag] and [elem.get] read. *)
Definition elem_of (n : Node) : Element := mk_elem (node_tag n) (node_attrib n).

(** [elem.clear()]: the attributes, the text and the subelements go, the tag
    stays. *)
Definition clear (n : Node) : Node := mk_node (node_tag n) ∅ None [].

(** The subelements on all levels, in document order. *)
Fixpoint descendants (n : Node) : list Node :=
  match n with
  | mk_node _ _ _ cs => flat_map (fun c => c :: descendants c) cs
  end.

(** [elem.findall('.//' + tag)] *)
Definition findall (tag : string) (n : Node) : list Node :=
  List.filter (fun d => String.eqb (node_tag d) tag) (descendants n).

(** [elem.find(tag)]: the first subelement directly below with the tag *)
Definition find (tag : string) (n : Node) : option Node :=
  List.find (fun c => String.eqb (node_tag c) tag) (children n).

(** What [ET.iterparse(path, events=('start', 'end'))] yields for a
    document, as far as tags and attributes go. *)
Fixpoint events (n : Node) : stream :=
  match n with
  | mk_node t a x cs =>
      (ev_start, mk_elem t a) :: flat_map events cs ++ [(ev_end, mk_elem t a)]
  end.

(** The loop [for event, elem in ET.iterparse(...)] with a body that acts
    at 'end' events only.  [body] takes the state and the element and
    returns the new state and the element as it leaves it; an element
    reaches its own turn with the subelements as their turns have left
    them. *)
Fixpoint iterparse_loop {S : Type} (body : S -> Node -> S * Node) (n : Node) (s : S)
  : S * Node :=
  match n with
  | mk_node t a x cs =>
      let r := fold_left (fun acc c =>
                            let r := iterparse_loop body c (fst acc) in
                            (fst r, snd acc ++ [snd r]))
                         cs (s, []) in
      body (fst r) (mk_node t a x (snd r))
  end.

(** One subelement's share of the loop. *)
Definition turn {S : Type} (body : S -> Node -> S * Node) (acc : S * list Node) (c : Node)
  : S * list Node :=
  let r := iterparse_loop body c (fst acc) in (fst r, snd acc ++ [snd r]).

(** An element after [clear()]. *)
Definition cleared (n : Node) : Prop :=
  node_attrib n = ∅ /\ node_text n = None /\ children n = [].

(** No element below [n] carries the tag. *)
Definition none_inside (tag : string) (n : Node) : Prop := findall tag n = [].

End Tree.

(** ** The health analyzer on documents *)

Module HealthTree.

Import Xml Tree PyNum Health.

Section WithFloat.
Context {PF : PyFloat}.

(** The dict stored under the type of a statistics element. *)
Record Statistic : Type := mk_stat {
  st_average : option string;
  st_minimum : option string;
  st_maximum : option string;
  st_sum : option string;
  st_unit : option string }.

(** One turn of the loop that fills [stats] in [_process_workout]. *)
Definition add_statistic (stats : gmap string Statistic) (stat_elem : Node)
  : gmap string Statistic :=
  match get (elem_of stat_elem) "type" with
  | Some (String _ _ as stat_type) =>
      <[stat_type := mk_stat (get (elem_of stat_elem) "average")
                             (get (elem_of stat_elem) "minimum")
                             (get (elem_of stat_elem) "maximum")
                             (get (elem_of stat_elem) "sum")
                             (get (elem_of stat_elem) "unit")]> stats
  | _ => stats
  end.

Definition statistics_of (elem : Node) : gmap string Statistic :=
  fold_left add_statistic (findall "WorkoutStatistics" elem) ∅.

(** The parser and, beside [workouts], the ['statistics'] entries of its
    dicts, in the same order. *)
Record Parser : Type := mk_tree_parser {
  base : HealthDataParser;
  statistics : list (gmap string Statistic) }.

Definition _process_workout (self : Parser) (elem : Node) : Parser :=
  match get (elem_of elem) "startDate" with
  | Some (String _ _ as start_date_str) =>
      match DT.strptime_date (first_token start_date_str) with
      | None => self
      | Some workout_date =>
          if DT.naive_ge workout_date start_date then
            let workout_info :=
              mk_wi (get_default (elem_of elem) "workoutActivityType" "Unknown")
                    start_date_str
                    (get (elem_of elem) "endDate")
                    (get (elem_of elem) "duration")
                    (get (elem_of elem) "durationUnit")
                    (get (elem_of elem) "sourceName") in
            let stats := statistics_of elem in
            mk_tree_parser
              (mk_parser (Health.stats (base self)) (workouts (base self) ++ [workout_info])
                         (heart_rate_data (base self)) (step_data (base self))
                         (energy_data (base self)))
              (statistics self ++ [stats])
          else self
      end
  | _ => self
  end.

(** The 'end' branch of the loop of [parse_xml_streaming], with its
    [elem.clear()].  The 'start' branch only sets [current_element], which
    nothing reads. *)
Definition body (self : Parser) (elem : Node) : Parser * Node :=
  (if String.eqb (node_tag elem) "Record" then
     mk_tree_parser (_process_record (base self) (elem_of elem)) (statistics self)
   else if String.eqb (node_tag elem) "Workout" then _process_workout self elem
   else self,
   clear elem).

Definition parse_document (self : Parser) (root : Node) : Parser :=
  fst (iterparse_loop body root self).

(** Every dict of [workouts] has its ['statistics'] entry, and each is the
    empty dict. *)
Definition statistics_empty (self : Parser) : Prop :=
  length (statistics self) = length (workouts (base self))
  /\ Forall (fun stats => stats = ∅) (statistics self).

End WithFloat.
End HealthTree.

(** ** The workout distances of the step corrector *)

Module WorkoutDistances.

Import Xml Tree PyNum.

Section WithFloat.
Context {PF : PyFloat}.

(** The dict [distances]. *)
Record Distances : Type := mk_distances {
  cycling : float;
  skating : float;
  walking : float;
  running : float }.

Definition no_distances : Distances := mk_distances fzero fzero fzero fzero.

(** [start_date = datetime(2025, 5, 1)] *)
Definition start_date : DT.naive := DT.mk_naive 2025 5 1 0 0 0 0.

(** [float(stat_elem.get('sum', 0))]; [None] is [ValueError] *)
Definition sum_of (stat_elem : Node) : option float :=
  match get (elem_of stat_elem) "sum" with
  | Some s => float_of_string s
  | None => Some fzero
  end.

(** [stat_type == name], for what [stat_elem.get('type')] gives *)
Definition is_type (stat_type : option string) (name : string) : bool :=
  match stat_type with
  | Some ty => String.eqb ty name
  | None => false
  end.

(** The loop over the statistics of one workout, inside the [try]: the
    first sum that does not read ends it, with the distances as they
    stand. *)
Fixpoint add_statistics (workout_type : string) (stat_elems : list Node)
    (distances : Distances) : Distances :=
  match stat_elems with
  | [] => distances
  | stat_elem :: rest =>
      let stat_type := get (elem_of stat_elem) "type" in
      if is_type stat_type "HKQuantityTypeIdentifierDistanceCycling" then
        match sum_of stat_elem with
        | Some distance =>
            add_statistics workout_type rest
              (mk_distances (fadd (cycling distances) distance) (skating distances)
                            (walking distances) (running distances))
        | None => distances
        end
      else if is_type stat_type "HKQuantityTypeIdentifierDistanceSkatingSports" then
        match sum_of stat_elem with
        | Some distance =>
            add_statistics workout_type rest
              (mk_distances (cycling distances) (fadd (skating distances) distance)
                            (walking distances) (running distances))
        | None => distances
        end
      else if is_type stat_type "HKQuantityTypeIdentifierDistanceWalkingRunning" then
        match sum_of stat_elem with
        | Some distance =>
            if PyStr.contains "Running" workout_type then
              add_statistics workout_type rest
                (mk_distances (cycling distances) (skating distances)
                              (walking distances) (fadd (running distances) distance))
            else
              add_statistics workout_type rest
                (mk_distances (cycling distances) (skating distances)
                              (fadd (walking distances) distance) (running distances))
        | None => distances
        end
      else add_statistics workout_type rest distances
  end.

(** What the loop does with a [Workout] element before clearing it. *)
Definition on_workout (distances : Distances) (elem : Node) : Distances :=
  match get (elem_of elem) "startDate" with
  | Some (String _ _ as start_date_str) =>
      match DT.strptime_date (Health.first_token start_date_str) with
      | None => distances
      | Some workout_date =>
          if DT.naive_ge workout_date start_date then
            add_statistics (get_default (elem_of elem) "workoutActivityType" EmptyString)
                           (findall "WorkoutStatistics" elem) distances
          else distances
      end
  | _ => distances
  end.

(** One turn of the loop at an 'end' event: only [Workout] elements are read
    and cleared. *)
Definition body (distances : Distances) (elem : Node) : Distances * Node :=
  if String.eqb (node_tag elem) "Workout" then (on_workout distances elem, clear elem)
  else (distances, elem).


(** *** Quantities the statements use *)

(** A statistics element of one of the three types the loop reads. *)
Definition is_distance (stat_elem : Node) : bool :=
  let stat_type := get (elem_of stat_elem) "type" in
  is_type stat_type "HKQuantityTypeIdentifierDistanceCycling"
  || is_type stat_type "HKQuantityTypeIdentifierDistanceSkatingSports"
  || is_type stat_type "HKQuantityTypeIdentifierDistanceWalkingRunning".



End WithFloat.
End WorkoutDistances.

(** ** More sample data *)

Module MoreSamples.

Import Xml.

(** A record whose start date is no date, and one without any. *)
Definition undated : Element :=
  mk_elem "Record"
    (list_to_map [("type", "HKQuantityTypeIdentifierStepCount");
                  ("startDate", "yesterday 10:00:00 +0200"); ("value", "40")]).


(** Energy at rest, and active energy whose value does not read. *)
Definition at_rest_energy : Element :=
  Samples.record "HKQuantityTypeIdentifierBasalEnergyBurned"
                 "2025-05-10 10:00:00 +0200" "2025-05-10 11:00:00 +0200" "75.5".

Definition garbled_energy : Element :=
  Samples.record "HKQuantityTypeIdentifierActiveEnergyBurned"
                 "2025-05-10 10:00:00 +0200" "2025-05-10 11:00:00 +0200" "n/a".

Definition energy_export : stream :=
  Samples.closed at_rest_energy ++ Samples.closed garbled_energy
  ++ Samples.closed undated.

(** The two ends of a short walk. *)
Definition walk_start : GPX.TrackPoint (PF := Fixed.ops) :=
  GPX.mk_point (PF := Fixed.ops) 52000000 21000000 (Some 100000000)
               (Some "2025-05-10T15:09:00Z").

Definition walk_end : GPX.TrackPoint (PF := Fixed.ops) :=
  GPX.mk_point (PF := Fixed.ops) 52010000 21000000 (Some 104000000)
               (Some "2025-05-10T15:39:00Z").



End MoreSamples.

(** ** Route files as documents *)

Module GPXTree.

Import Xml Tree PyNum GPX.

(** [ns = {'gpx': 'http://www.topografix.com/GPX/1/1'}]: the tag that a
    name with the prefix [gpx:] stands for. *)
Definition gpx (name : string) : string :=
  ("{http://www.topografix.com/GPX/1/1}" ++ name)%string.

Section WithFloat.
Context {PF : PyFloat}.

(** [float(trkpt.get(key, 0))] *)
Definition float_attr (trkpt : Node) (key : string) : result float :=
  match get (elem_of trkpt) key with
  | Some s =>
      match float_of_string s with
      | Some v => Ok v
      | None => Raise ValueError
      end
  | None => Ok fzero
  end.

(** [float(ele.text) if ele is not None else None], for
    [ele = trkpt.find('gpx:ele', ns)] *)
Definition ele_of (trkpt : Node) : result (option float) :=
  match find (gpx "ele") trkpt with
  | Some ele =>
      match node_text ele with
      | Some s =>
          match float_of_string s with
          | Some v => Ok (Some v)
          | None => Raise ValueError
          end
      | None => Raise TypeError
      end
  | None => Ok None
  end.

(** [time.text if time is not None else None], for
    [time = trkpt.find('gpx:time', ns)] *)
Definition time_of (trkpt : Node) : option string :=
  match find (gpx "time") trkpt with
  | Some time => node_text time
  | None => None
  end.

(** One turn of the loop over the [trkpt] elements. *)
Definition point_of (trkpt : Node) : result TrackPoint :=
  lat <-- float_attr trkpt "lat" ;;
  lon <-- float_attr trkpt "lon" ;;
  ele <-- ele_of trkpt ;;
  Ok (mk_point lat lon ele (time_of trkpt)).

Fixpoint read_points (trkpts : list Node) : result (list TrackPoint) :=
  match trkpts with
  | [] => Ok []
  | trkpt :: rest =>
      point <-- point_of trkpt ;;
      track_points <-- read_points rest ;;
      Ok (point :: track_points)
  end.

(** The loop over [root.findall('.//gpx:trkpt', ns)]. *)
Definition track_points_of (root : Node) : result (list TrackPoint) :=
  read_points (findall (gpx "trkpt") root).

(** A file system whose files are documents: [parse path] is
    [ET.parse(path).getroot()], or the exception it raises. *)
Definition fs_of (names : option (list string)) (parse : string -> result Node)
  : FileSystem :=
  mk_fs names (fun path => root <-- parse path ;; track_points_of root).

End WithFloat.
End GPXTree.

(** ** Sample documents *)

Module TreeSamples.

Import Xml Tree.

Definition statistic (ty total unit : string) : Node :=
  mk_node "WorkoutStatistics"
          (list_to_map [("type", ty); ("sum", total); ("unit", unit)]) None [].

Definition leaf (elem : Element) : Node := mk_node (tag elem) (attrib elem) None [].

Definition workout_with (activity start : string) (stats : list Node) : Node :=
  mk_node "Workout"
          (list_to_map [("workoutActivityType", activity); ("startDate", start)]) None stats.

Definition cycled : Node := statistic "HKQuantityTypeIdentifierDistanceCycling" "12.5" "km".
Definition skated : Node :=
  statistic "HKQuantityTypeIdentifierDistanceSkatingSports" "3.0" "km".
Definition on_foot : Node :=
  statistic "HKQuantityTypeIdentifierDistanceWalkingRunning" "5.0" "km".
Definition burned : Node :=
  statistic "HKQuantityTypeIdentifierActiveEnergyBurned" "300" "kcal".
Definition garbled : Node :=
  statistic "HKQuantityTypeIdentifierDistanceCycling" "n/a" "km".

Definition ride : Node :=
  workout_with "HKWorkoutActivityTypeCycling" "2025-05-10 10:00:00 +0200" [cycled; burned].
Definition run : Node :=
  workout_with "HKWorkoutActivityTypeRunning" "2025-05-11 09:00:00 +0200" [on_foot; burned].
Definition stroll : Node :=
  workout_with "HKWorkoutActivityTypeWalking" "2025-05-12 18:00:00 +0200" [on_foot].
Definition april_ride : Node :=
  workout_with "HKWorkoutActivityTypeCycling" "2025-04-10 10:00:00 +0200" [cycled].

(** An export: the root, and below it records and workouts with their
    statistics. *)
Definition document : Node :=
  mk_node "HealthData" (list_to_map [("locale", "en_US")]) None
          [leaf Samples.during_ride; ride; leaf Samples.pulse; run; april_ride; stroll].

(** A route of two points, the same route with the tags of no namespace,
    and a route whose second point has an empty elevation element. *)
Definition trkpt (tag_of : string -> string) (lat lon : string) (below : list Node)
  : Node :=
  mk_node (tag_of "trkpt") (list_to_map [("lat", lat); ("lon", lon)]) None below.

Definition route_of (tag_of : string -> string) (points : list Node) : Node :=
  mk_node (tag_of "gpx") (list_to_map [("version", "1.1")]) None
          [mk_node (tag_of "trk") ∅ None [mk_node (tag_of "trkseg") ∅ None points]].

Definition text_of (tag : string) (text : string) : Node := mk_node tag ∅ (Some text) [].

Definition two_points (tag_of : string -> string) : list Node :=
  [ trkpt tag_of "52.0" "21.0"
          [text_of (tag_of "ele") "100.0"; text_of (tag_of "time") "2025-05-10T15:09:00Z"];
    trkpt tag_of "52.01" "21.0"
          [text_of (tag_of "ele") "104.0"; text_of (tag_of "time") "2025-05-10T15:39:00Z"] ].

Definition route : Node := route_of GPXTree.gpx (two_points GPXTree.gpx).

Definition bare_route : Node := route_of (fun name => name) (two_points (fun name => name)).

Definition no_elevation : Node :=
  trkpt GPXTree.gpx "52.01" "21.0" [mk_node (GPXTree.gpx "ele") ∅ None []].

Definition broken_route : Node :=
  route_of GPXTree.gpx (two_points GPXTree.gpx ++ [no_elevation]).

End TreeSamples.

(** * Properties *)

(** ** The fixed-point numbers obey the laws *)

Module FixedFacts.

Lemma laws : PyFloatLaws Fixed.ops.
Proof.
  constructor; simpl.
  - reflexivity.
  - intros x _. lia.
  - intros x d [->|Hx] Hd.
    + exact Hd.
    + apply Z.ltb_lt in Hx, Hd. apply Z.ltb_lt. lia.
  - reflexivity.
  - intros x y H. apply Z.ltb_lt in H. apply Z.leb_le. lia.
  - intros x y H. apply Z.leb_le in H. apply Z.ltb_ge. lia.
  - intros x. apply Z.ltb_irrefl.
  - intros x n m Hx [Hn Hm]. apply Z.ltb_lt in Hx. apply Z.leb_le.
    apply Z.div_le_compat_l; lia.
  - reflexivity.
Qed.

End FixedFacts.

(** ** Time stamps *)

Module DTFacts.

Import DT.

Ltac Zify.zify_post_hook ::= Z.to_euclidean_division_equations.

Lemma lex_compare (K hi1 lo1 hi2 lo2 : Z) :
  0 <= lo1 < K -> 0 <= lo2 < K ->
  (hi1 * K + lo1 ?= hi2 * K + lo2) = lex (hi1 ?= hi2) (lo1 ?= lo2).
Proof.
  intros H1 H2. unfold lex.
  destruct (Z.compare_spec hi1 hi2) as [E|E|E].
  - subst hi2. destruct (Z.compare_spec lo1 lo2) as [F|F|F].
    + subst. apply Z.compare_refl.
    + apply Z.compare_lt_iff. lia.
    + apply Z.compare_gt_iff. lia.
  - apply Z.compare_lt_iff. nia.
  - apply Z.compare_gt_iff. nia.
Qed.

Lemma lex_assoc (a b c : comparison) : lex (lex a b) c = lex a (lex b c).
Proof. destruct a; reflexivity. Qed.

Lemma days_before_year_succ (y : Z) :
  days_before_year (y + 1) = days_before_year y + 365 + leap_day y.
Proof.
  unfold days_before_year, leap_day, is_leap.
  replace (y + 1 - 1) with y by lia.
  destruct (y mod 4 =? 0) eqn:E4; destruct (y mod 100 =? 0) eqn:E100;
    destruct (y mod 400 =? 0) eqn:E400; simpl; lia.
Qed.

Lemma days_before_year_mono (y1 y2 : Z) :
  y1 <= y2 -> days_before_year y1 <= days_before_year y2.
Proof. unfold days_before_year. intros H. lia. Qed.

Lemma month_cases (m : Z) :
  1 <= m <= 12 ->
  m = 1 \/ m = 2 \/ m = 3 \/ m = 4 \/ m = 5 \/ m = 6 \/ m = 7 \/ m = 8 \/ m = 9
  \/ m = 10 \/ m = 11 \/ m = 12.
Proof. lia. Qed.

Ltac month_split m H :=
  destruct (month_cases m H) as
    [?|[?|[?|[?|[?|[?|[?|[?|[?|[?|[?|?]]]]]]]]]]]; subst m.

(** The day of the year of a valid date lies within the year. *)
Lemma day_of_year_bounds (y m d : Z) :
  1 <= m <= 12 -> 1 <= d <= days_in_month y m ->
  1 <= days_before_month y m + d <= 365 + leap_day y.
Proof.
  intros Hm. unfold days_before_month, days_in_month, leap_day.
  month_split m Hm; destruct (is_leap y); simpl; lia.
Qed.

Lemma days_before_month_next (y m1 m2 : Z) :
  1 <= m1 -> m1 < m2 -> m2 <= 12 ->
  days_before_month y m1 + days_in_month y m1 <= days_before_month y m2.
Proof.
  intros H1 H12 H2. unfold days_before_month, days_in_month.
  assert (Hm1 : 1 <= m1 <= 12) by lia. assert (Hm2 : 1 <= m2 <= 12) by lia.
  month_split m1 Hm1; month_split m2 Hm2; try lia;
    destruct (is_leap y); simpl; lia.
Qed.

Lemma ordinal_compare (y1 m1 d1 y2 m2 d2 : Z) :
  valid_date y1 m1 d1 -> valid_date y2 m2 d2 ->
  (ordinal y1 m1 d1 ?= ordinal y2 m2 d2) = lex (y1 ?= y2) (lex (m1 ?= m2) (d1 ?= d2)).
Proof.
  intros [Hm1 Hd1] [Hm2 Hd2]. unfold ordinal, lex.
  pose proof (day_of_year_bounds y1 m1 d1 Hm1 Hd1) as B1.
  pose proof (day_of_year_bounds y2 m2 d2 Hm2 Hd2) as B2.
  destruct (Z.compare_spec y1 y2) as [E|E|E].
  - subst y2. destruct (Z.compare_spec m1 m2) as [F|F|F].
    + subst m2. destruct (Z.compare_spec d1 d2) as [G|G|G].
      * subst. apply Z.compare_refl.
      * apply Z.compare_lt_iff. lia.
      * apply Z.compare_gt_iff. lia.
    + apply Z.compare_lt_iff.
      pose proof (days_before_month_next y1 m1 m2). lia.
    + apply Z.compare_gt_iff.
      pose proof (days_before_month_next y1 m2 m1). lia.
  - apply Z.compare_lt_iff.
    pose proof (days_before_year_succ y1).
    pose proof (days_before_year_mono (y1 + 1) y2). lia.
  - apply Z.compare_gt_iff.
    pose proof (days_before_year_succ y2).
    pose proof (days_before_year_mono (y2 + 1) y1). lia.
Qed.

Lemma valid_naive_spec (n : naive) :
  valid_naive n = true ->
  valid_date (year n) (month n) (day n)
  /\ 0 <= hour n <= 23 /\ 0 <= minute n <= 59 /\ 0 <= second n <= 59
  /\ 0 <= microsecond n <= 999999.
Proof.
  unfold valid_naive, valid_date. rewrite !andb_true_iff, !Z.leb_le. tauto.
Qed.

(** On valid values, comparing the field tuples is comparing the readings. *)
Lemma naive_cmp_micro (a b : naive) :
  valid_naive a = true -> valid_naive b = true ->
  naive_cmp a b = (micro a ?= micro b).
Proof.
  intros Ha Hb.
  destruct (valid_naive_spec a Ha) as (Da & Hha & Hma & Hsa & Hua).
  destruct (valid_naive_spec b Hb) as (Db & Hhb & Hmb & Hsb & Hub).
  unfold naive_cmp, micro, toordinal.
  fold (ordinal (year a) (month a) (day a)). fold (ordinal (year b) (month b) (day b)).
  rewrite <- !lex_assoc. rewrite (lex_assoc (year a ?= year b)).
  rewrite <- (ordinal_compare _ _ _ _ _ _ Da Db).
  set (oa := ordinal (year a) (month a) (day a)).
  set (ob := ordinal (year b) (month b) (day b)).
  rewrite !lex_assoc.
  rewrite <- (lex_compare 1000000 (second a) _ (second b) _) by lia.
  rewrite <- (lex_compare 60000000 (minute a) _ (minute b) _) by lia.
  rewrite <- (lex_compare 3600000000 (hour a) _ (hour b) _) by lia.
  rewrite <- (lex_compare 86400000000 oa _ ob _) by lia.
  f_equal; lia.
Qed.

Lemma base_delta_micro (a b : naive) : base_delta a b = micro a - micro b.
Proof. unfold base_delta, micro. lia. Qed.

Lemma aware_sub_instant (a b : aware) : aware_sub a b = instant a - instant b.
Proof.
  unfold aware_sub, instant. rewrite base_delta_micro.
  destruct (Z.eqb_spec (utcoffset a) (utcoffset b)); lia.
Qed.

(** Comparing aware values is comparing the instants they denote. *)
Lemma aware_cmp_instant (a b : aware) :
  valid_naive (local a) = true -> valid_naive (local b) = true ->
  aware_cmp a b = (instant a ?= instant b).
Proof.
  intros Ha Hb. unfold aware_cmp.
  destruct (Z.eqb_spec (utcoffset a) (utcoffset b)) as [E|E].
  - rewrite (naive_cmp_micro _ _ Ha Hb). unfold instant. rewrite E.
    symmetry. destruct (Z.compare_spec (micro (local a)) (micro (local b))).
    + apply Z.compare_eq_iff. lia.
    + apply Z.compare_lt_iff. lia.
    + apply Z.compare_gt_iff. lia.
  - cbv zeta. rewrite aware_sub_instant.
    destruct (Z.ltb_spec (instant a - instant b) 0).
    + symmetry. apply Z.compare_lt_iff. lia.
    + destruct (Z.eqb_spec (instant a - instant b) 0).
      * symmetry. apply Z.compare_eq_iff. lia.
      * symmetry. apply Z.compare_gt_iff. lia.
Qed.

Lemma aware_le_instant (a b : aware) :
  valid_naive (local a) = true -> valid_naive (local b) = true ->
  aware_le a b = true <-> instant a <= instant b.
Proof.
  intros Ha Hb. unfold aware_le. rewrite (aware_cmp_instant a b Ha Hb).
  destruct (Z.compare_spec (instant a) (instant b)); split; intros; try lia; try reflexivity;
    discriminate.
Qed.

Lemma aware_ge_instant (a b : aware) :
  valid_naive (local a) = true -> valid_naive (local b) = true ->
  aware_ge a b = true <-> instant b <= instant a.
Proof.
  intros Ha Hb. unfold aware_ge. rewrite (aware_cmp_instant a b Ha Hb).
  destruct (Z.compare_spec (instant a) (instant b)); split; intros; try lia; try reflexivity;
    discriminate.
Qed.

(** The readers on some texts. *)
Example strptime_date_reads :
  strptime_date "2025-05-10" = Some (mk_naive 2025 5 10 0 0 0 0)
  /\ strptime_date "2025-5-1" = Some (mk_naive 2025 5 1 0 0 0 0)
  /\ strptime_date "2024-02-29" = Some (mk_naive 2024 2 29 0 0 0 0)
  /\ strptime_date "2025-02-29" = None
  /\ strptime_date "2025-13-01" = None
  /\ strptime_date "2025-05-10.gpx" = None
  /\ strptime_date "someday" = None.
Proof. vm_compute. auto 10. Qed.

Example strptime_stamp_reads :
  strptime_stamp "2025-05-01 16:32:36 +0200"
  = Some (mk_aware (mk_naive 2025 5 1 16 32 36 0) 7200000000)
  /\ strptime_stamp "2025-05-01 16:32:36 -02:30"
     = Some (mk_aware (mk_naive 2025 5 1 16 32 36 0) (-9000000000))
  /\ strptime_stamp "2025-05-01 16:32:36 Z"
     = Some (mk_aware (mk_naive 2025 5 1 16 32 36 0) 0)
  /\ strptime_stamp "2025-05-01 16:32:36" = None
  /\ strptime_stamp "2025-05-01 16:32:60 +0200" = None
  /\ strptime_stamp "2025-05-01 16:32:36 +9900" = None.
Proof. vm_compute. auto 10. Qed.

Example fromisoformat_reads :
  fromisoformat "2025-05-10T10:00:00+00:00"
  = Some (Aware (mk_aware (mk_naive 2025 5 10 10 0 0 0) 0))
  /\ fromisoformat "2025-05-10T10:30:00" = Some (Naive (mk_naive 2025 5 10 10 30 0 0))
  /\ fromisoformat "2025-05-10T10:30:00.250"
     = Some (Naive (mk_naive 2025 5 10 10 30 0 250000))
  /\ fromisoformat "2025-05-10" = Some (Naive (mk_naive 2025 5 10 0 0 0 0))
  /\ fromisoformat "2025-05-10T24:30:00" = None
  /\ fromisoformat "yesterday" = None.
Proof. vm_compute. auto 10. Qed.

(** The same instant written in two zones compares equal. *)
Example same_instant_two_zones :
  aware_cmp (mk_aware (mk_naive 2025 5 10 10 30 0 0) 7200000000)
            (mk_aware (mk_naive 2025 5 10 8 30 0 0) 0) = Eq.
Proof. reflexivity. Qed.

(** What [strptime] returns passed the range checks. *)
Lemma strptime_stamp_valid (s : string) (a : aware) :
  strptime_stamp s = Some a -> valid_naive (local a) = true.
Proof.
  unfold strptime_stamp. destruct (whole re_stamp s) as [[n z]|]; [|discriminate].
  destruct (z_offset z) as [off|]; [|discriminate].
  unfold checked. destruct (valid_naive n) eqn:V; [|discriminate].
  destruct (valid_offset off); [|discriminate].
  intros H. injection H as <-. exact V.
Qed.

End DTFacts.

(** ** The step correction *)

Module StepCorrectorFacts.

Import Xml StepCorrector.

Lemma fold_add_shift (l : list StepRecord) (a : Z) :
  fold_left (fun acc step => acc + st_value step) l a
  = a + fold_left (fun acc step => acc + st_value step) l 0.
Proof.
  revert a. induction l as [|x l IH]; intros a; simpl.
  - lia.
  - rewrite IH. rewrite (IH (0 + st_value x)). lia.
Qed.

Lemma sum_values_cons (x : StepRecord) (l : list StepRecord) :
  sum_values (x :: l) = st_value x + sum_values l.
Proof. unfold sum_values. simpl. rewrite fold_add_shift. lia. Qed.

Lemma sum_values_app (l1 l2 : list StepRecord) :
  sum_values (l1 ++ l2) = sum_values l1 + sum_values l2.
Proof.
  induction l1 as [|x l1 IH]; simpl.
  - unfold sum_values at 2. simpl. lia.
  - rewrite !sum_values_cons, IH. lia.
Qed.

Lemma sum_values_total (l : list StepRecord) :
  sum_values l = total_of (map st_value l).
Proof.
  induction l as [|x l IH]; [reflexivity|].
  rewrite sum_values_cons, IH. reflexivity.
Qed.

(** The loop fills each bucket with the records of its class, in order. *)
Lemma fold_classify (ws : list Workout) (steps : list StepRecord) (b : Buckets) :
  let b' := fold_left (classify_step (of_type "Cycling" ws) (of_type "Skating" ws)
                                     (of_type "Walking" ws)) steps b in
  steps_during_cycling b' = steps_during_cycling b ++ in_class ws Cycling steps
  /\ steps_during_skating b' = steps_during_skating b ++ in_class ws Skating steps
  /\ steps_during_walking b' = steps_during_walking b ++ in_class ws Walking steps.
Proof.
  revert b. induction steps as [|s steps IH]; intros b; simpl.
  - rewrite !app_nil_r. auto.
  - destruct (IH (classify_step (of_type "Cycling" ws) (of_type "Skating" ws)
                                (of_type "Walking" ws) b s)) as (Hc & Hs & Hw).
    rewrite Hc, Hs, Hw. clear IH Hc Hs Hw.
    unfold in_class; simpl. unfold classify_step, class_of.
    destruct (is_step_during_workout s (of_type "Cycling" ws)); simpl;
      [rewrite <- app_assoc; auto|].
    destruct (is_step_during_workout s (of_type "Skating" ws)); simpl;
      [rewrite <- app_assoc; auto|].
    destruct (is_step_during_workout s (of_type "Walking" ws)); simpl;
      [rewrite <- app_assoc; auto|].
    auto.
Qed.

Lemma buckets_by_class (ws : list Workout) (steps : list StepRecord) :
  steps_during_cycling (classify_all ws steps) = in_class ws Cycling steps
  /\ steps_during_skating (classify_all ws steps) = in_class ws Skating steps
  /\ steps_during_walking (classify_all ws steps) = in_class ws Walking steps.
Proof. exact (fold_classify ws steps empty_buckets). Qed.

Lemma in_class_iff (ws : list Workout) (c : class) (steps : list StepRecord) (r : StepRecord) :
  In r (in_class ws c steps) <-> In r steps /\ class_of ws r = c.
Proof.
  unfold in_class. rewrite filter_In.
  destruct (class_of ws r), c; simpl; intuition congruence.
Qed.

(** The test over a list holds exactly when some workout of the list overlaps. *)
Lemma during_iff (step : StepRecord) (ws : list Workout) :
  is_step_during_workout step ws = true <-> exists w, In w ws /\ overlaps step w = true.
Proof.
  induction ws as [|w ws IH]; simpl.
  - split; [discriminate | intros (w & [] & _)].
  - destruct (overlaps step w) eqn:E.
    + split; [intros _; exists w; auto | reflexivity].
    + rewrite IH. split.
      * intros (w' & Hin & Ho). exists w'. auto.
      * intros (w' & [Heq | Hin] & Ho); [congruence | exists w'; auto].
Qed.

Lemma of_type_In (name : string) (ws : list Workout) (w : Workout) :
  In w (of_type name ws) <-> In w ws /\ PyStr.contains name (wk_type w) = true.
Proof. unfold of_type. apply filter_In. Qed.

(** Every record falls in one class; the classes split the total. *)
Lemma class_split (ws : list Workout) (steps : list StepRecord) :
  sum_values steps
  = sum_values (in_class ws Cycling steps) + sum_values (in_class ws Skating steps)
    + sum_values (in_class ws Walking steps) + sum_values (in_class ws Kept steps).
Proof.
  induction steps as [|s steps IH]; [reflexivity|].
  unfold in_class in *. simpl. rewrite sum_values_cons, IH.
  destruct (class_of ws s); simpl; rewrite ?sum_values_cons; lia.
Qed.

Lemma sum_values_nonneg (l : list StepRecord) :
  (forall r, In r l -> 0 <= st_value r) -> 0 <= sum_values l.
Proof.
  induction l as [|x l IH]; intros H.
  - unfold sum_values; simpl; lia.
  - rewrite sum_values_cons.
    assert (0 <= st_value x) by (apply H; left; reflexivity).
    assert (0 <= sum_values l) by (apply IH; intros r Hr; apply H; right; exact Hr).
    lia.
Qed.

Lemma in_class_length (ws : list Workout) (steps : list StepRecord) :
  (length (in_class ws Cycling steps) + length (in_class ws Skating steps)
   + length (in_class ws Walking steps) + length (in_class ws Kept steps))%nat
  = length steps.
Proof.
  induction steps as [|s steps IH]; [reflexivity|].
  unfold in_class in *. simpl.
  destruct (class_of ws s); simpl; lia.
Qed.

Lemma in_class_remove (ws : list Workout) (c : class) (l1 l2 : list StepRecord)
    (step : StepRecord) :
  in_class ws c (l1 ++ step :: l2)
  = in_class ws c l1
    ++ (if class_eqb (class_of ws step) c then [step] else []) ++ in_class ws c l2.
Proof.
  unfold in_class. rewrite List.filter_app. simpl.
  destruct (class_eqb (class_of ws step) c); reflexivity.
Qed.

(** A record that overlaps a cycling workout is of class [Cycling]. *)
Lemma cycling_first (ws : list Workout) (step : StepRecord) (w : Workout) :
  In w ws -> PyStr.contains "Cycling" (wk_type w) = true -> overlaps step w = true ->
  class_of ws step = Cycling.
Proof.
  intros Hin Hty Hov. unfold class_of.
  assert (H : is_step_during_workout step (of_type "Cycling" ws) = true).
  { apply during_iff. exists w. split; [apply of_type_In; auto | exact Hov]. }
  rewrite H. reflexivity.
Qed.

(** C1: for every list of workouts and every list of step records, the
    corrected steps plus the cycling steps plus the skating steps are the
    total steps, where the total is the sum of all step values and the
    cycling and skating steps are the sums over the records of those
    classes; the same holds for the result computed from any export. *)
Theorem correction_balance :
  forall (workout_times : list Workout) (step_records : list StepRecord),
    let c := correct_steps workout_times step_records in
    corrected_steps c + cycling_steps c + skating_steps c = total_steps c
    /\ total_steps c = total_of (map st_value step_records)
    /\ cycling_steps c
       = total_of (map st_value (in_class workout_times Cycling step_records))
    /\ skating_steps c
       = total_of (map st_value (in_class workout_times Skating step_records))
    /\ forall export : stream,
         let c' := calculate_corrected_steps export in
         corrected_steps c' + cycling_steps c' + skating_steps c' = total_steps c'.
Proof.
  intros ws steps c.
  destruct (buckets_by_class ws steps) as (Hc & Hs & _).
  repeat split.
  - unfold c, correct_steps; simpl. lia.
  - unfold c, correct_steps; simpl. apply sum_values_total.
  - unfold c, correct_steps; simpl. rewrite Hc. apply sum_values_total.
  - unfold c, correct_steps; simpl. rewrite Hs. apply sum_values_total.
  - intros export. unfold calculate_corrected_steps, correct_steps; simpl. lia.
Qed.

(** C2: a step record that overlaps a cycling workout and also a skating
    workout is put in the cycling list and in neither of the other two; its
    whole value goes to the cycling sum, and the skating and walking sums
    are what they would be without the record. *)
Theorem cycling_wins :
  forall (workout_times : list Workout) (before after : list StepRecord)
         (step : StepRecord) (cycling skating : Workout),
    In cycling workout_times ->
    PyStr.contains "Cycling" (wk_type cycling) = true ->
    overlaps step cycling = true ->
    In skating workout_times ->
    PyStr.contains "Skating" (wk_type skating) = true ->
    overlaps step skating = true ->
    let b := classify_all workout_times (before ++ step :: after) in
    let c := correct_steps workout_times (before ++ step :: after) in
    let c0 := correct_steps workout_times (before ++ after) in
    In step (steps_during_cycling b)
    /\ ~ In step (steps_during_skating b)
    /\ ~ In step (steps_during_walking b)
    /\ cycling_steps c = cycling_steps c0 + st_value step
    /\ skating_steps c = skating_steps c0
    /\ walking_steps c = walking_steps c0.
Proof.
  intros ws l1 l2 step wc wsk Hc1 Hc2 Hc3 _ _ _ b c c0.
  pose proof (cycling_first ws step wc Hc1 Hc2 Hc3) as Hclass.
  destruct (buckets_by_class ws (l1 ++ step :: l2)) as (Bc & Bs & Bw).
  destruct (buckets_by_class ws (l1 ++ l2)) as (Bc0 & Bs0 & Bw0).
  assert (Hin : In step (l1 ++ step :: l2)) by (apply in_or_app; right; left; reflexivity).
  repeat split.
  - unfold b. rewrite Bc. apply in_class_iff. auto.
  - unfold b. rewrite Bs. rewrite in_class_iff. intros [_ H]. congruence.
  - unfold b. rewrite Bw. rewrite in_class_iff. intros [_ H]. congruence.
  - unfold c, c0, correct_steps; simpl. rewrite Bc, Bc0.
    rewrite in_class_remove, Hclass. simpl.
    unfold in_class at 3. rewrite List.filter_app. fold (in_class ws Cycling l1).
    fold (in_class ws Cycling l2).
    rewrite !sum_values_app, sum_values_cons. lia.
  - unfold c, c0, correct_steps; simpl. rewrite Bs, Bs0.
    rewrite in_class_remove, Hclass. simpl.
    unfold in_class at 3. rewrite List.filter_app. reflexivity.
  - unfold c, c0, correct_steps; simpl. rewrite Bw, Bw0.
    rewrite in_class_remove, Hclass. simpl.
    unfold in_class at 3. rewrite List.filter_app. reflexivity.
Qed.

Lemma cycling_wins_witness :
  let workout_times := Samples.workouts in
  let step := Samples.both in
  let before := firstn 1 Samples.steps in
  let after := skipn 2 Samples.steps in
  let b := classify_all workout_times (before ++ step :: after) in
  let c := correct_steps workout_times (before ++ step :: after) in
  let c0 := correct_steps workout_times (before ++ after) in
  In step (steps_during_cycling b)
  /\ ~ In step (steps_during_skating b)
  /\ ~ In step (steps_during_walking b)
  /\ cycling_steps c = cycling_steps c0 + st_value step
  /\ skating_steps c = skating_steps c0
  /\ walking_steps c = walking_steps c0.
Proof.
  apply (cycling_wins Samples.workouts (firstn 1 Samples.steps) (skipn 2 Samples.steps)
           Samples.both
           (mk_workout (Samples.at_0200 10 0) (Samples.at_0200 10 30)
                       "HKWorkoutActivityTypeCycling")
           (mk_workout (Samples.at_0200 10 20) (Samples.at_0200 10 50)
                       "HKWorkoutActivityTypeSkatingSports")).
  - left; reflexivity.
  - reflexivity.
  - reflexivity.
  - right; left; reflexivity.
  - reflexivity.
  - reflexivity.
Defined.

(** C3: the overlap test against one workout holds exactly when the step
    starts no later than the workout ends and ends no earlier than the
    workout starts; for range-checked time stamps this is the order of the
    instants they denote; over a list the test holds when it holds for some
    workout of the list; and a step that only touches a workout at an end
    point overlaps it. *)
Theorem overlap_test :
  forall (step : StepRecord) (workout : Workout),
    (is_step_during_workout step [workout] = true
     <-> DT.aware_le (st_start step) (wk_end workout) = true
         /\ DT.aware_ge (st_end step) (wk_start workout) = true)
    /\ (forall workout_times : list Workout,
          is_step_during_workout step workout_times = true
          <-> exists w, In w workout_times
                        /\ DT.aware_le (st_start step) (wk_end w) = true
                        /\ DT.aware_ge (st_end step) (wk_start w) = true)
    /\ (DT.valid_naive (DT.local (st_start step)) = true ->
        DT.valid_naive (DT.local (st_end step)) = true ->
        DT.valid_naive (DT.local (wk_start workout)) = true ->
        DT.valid_naive (DT.local (wk_end workout)) = true ->
        (is_step_during_workout step [workout] = true
         <-> DT.instant (st_start step) <= DT.instant (wk_end workout)
             /\ DT.instant (wk_start workout) <= DT.instant (st_end step)))
    /\ (DT.aware_cmp (st_start step) (wk_end workout) = Eq ->
        DT.aware_ge (st_end step) (wk_start workout) = true ->
        is_step_during_workout step [workout] = true)
    /\ (DT.aware_cmp (st_end step) (wk_start workout) = Eq ->
        DT.aware_le (st_start step) (wk_end workout) = true ->
        is_step_during_workout step [workout] = true).
Proof.
  intros step workout.
  assert (One : is_step_during_workout step [workout] = true
                <-> DT.aware_le (st_start step) (wk_end workout) = true
                    /\ DT.aware_ge (st_end step) (wk_start workout) = true).
  { simpl. unfold overlaps.
    destruct (DT.aware_le (st_start step) (wk_end workout));
      destruct (DT.aware_ge (st_end step) (wk_start workout)); simpl;
      intuition congruence. }
  split; [exact One|]. split; [|split; [|split]].
  - intros ws. rewrite during_iff. unfold overlaps.
    split; intros (w & Hin & H); exists w.
    + apply andb_true_iff in H. tauto.
    + split; [exact Hin | apply andb_true_iff; exact H].
  - intros V1 V2 V3 V4. rewrite One.
    rewrite (DTFacts.aware_le_instant _ _ V1 V4), (DTFacts.aware_ge_instant _ _ V2 V3).
    reflexivity.
  - intros E G. apply One. split; [|exact G]. unfold DT.aware_le. rewrite E. reflexivity.
  - intros E L. apply One. split; [exact L|]. unfold DT.aware_ge. rewrite E. reflexivity.
Qed.

Lemma overlap_test_witness :
  let step := Samples.touching in
  let workout := mk_workout (Samples.at_0200 10 0) (Samples.at_0200 10 30)
                            "HKWorkoutActivityTypeCycling" in
  DT.aware_cmp (st_start step) (wk_end workout) = Eq
  /\ DT.aware_ge (st_end step) (wk_start workout) = true
  /\ is_step_during_workout step [workout] = true
  /\ (is_step_during_workout step [workout] = true
      <-> DT.instant (st_start step) <= DT.instant (wk_end workout)
          /\ DT.instant (wk_start workout) <= DT.instant (st_end step)).
Proof.
  intros step workout.
  destruct (overlap_test step workout) as (_ & _ & Inst & Touch & _).
  split; [reflexivity|]. split; [reflexivity|]. split.
  - apply Touch; reflexivity.
  - apply Inst; reflexivity.
Defined.

Lemma workout_of_valid (elem : Element) (w : Workout) :
  workout_of elem = Some w ->
  DT.valid_naive (DT.local (wk_start w)) = true
  /\ DT.valid_naive (DT.local (wk_end w)) = true.
Proof.
  unfold workout_of.
  destruct (PyStr.truthy (get elem "startDate") && PyStr.truthy (get elem "endDate"));
    [|discriminate].
  destruct (get elem "startDate") as [s|]; [|discriminate].
  destruct (get elem "endDate") as [e|]; [|discriminate].
  destruct (DT.strptime_stamp s) as [a|] eqn:Ha; [|discriminate].
  destruct (DT.strptime_stamp e) as [b|] eqn:Hb; [|discriminate].
  destruct (DT.naive_ge _ _); [|discriminate].
  intros H; injection H as <-. simpl.
  split; eapply DTFacts.strptime_stamp_valid; eassumption.
Qed.

(** C9: each step record goes to at most one of the three lists: the lists
    are the records of the three classes, no record is in two of them, and
    together they are no longer than the input; when no step value is
    negative, the three sums together do not exceed the total and the
    corrected steps are at least the walking steps. *)
Theorem classes_disjoint :
  forall (workout_times : list Workout) (step_records : list StepRecord),
    (forall r, In r step_records -> 0 <= st_value r) ->
    let b := classify_all workout_times step_records in
    let c := correct_steps workout_times step_records in
    (forall r, In r (steps_during_cycling b)
               <-> In r step_records /\ class_of workout_times r = Cycling)
    /\ (forall r, In r (steps_during_skating b)
                  <-> In r step_records /\ class_of workout_times r = Skating)
    /\ (forall r, In r (steps_during_walking b)
                  <-> In r step_records /\ class_of workout_times r = Walking)
    /\ (forall r, ~ (In r (steps_during_cycling b) /\ In r (steps_during_skating b)))
    /\ (forall r, ~ (In r (steps_during_cycling b) /\ In r (steps_during_walking b)))
    /\ (forall r, ~ (In r (steps_during_skating b) /\ In r (steps_during_walking b)))
    /\ (length (steps_during_cycling b) + length (steps_during_skating b)
        + length (steps_during_walking b) <= length step_records)%nat
    /\ cycling_steps c + skating_steps c + walking_steps c <= total_steps c
    /\ walking_steps c <= corrected_steps c.
Proof.
  intros ws steps Hpos b c.
  destruct (buckets_by_class ws steps) as (Bc & Bs & Bw).
  assert (Hk : 0 <= sum_values (in_class ws Kept steps)).
  { apply sum_values_nonneg. intros r Hr. apply Hpos.
    apply in_class_iff in Hr. tauto. }
  pose proof (class_split ws steps) as Hsplit.
  pose proof (in_class_length ws steps) as Hlen.
  unfold b, c, correct_steps; simpl. rewrite Bc, Bs, Bw.
  refine (conj _ (conj _ (conj _ (conj _ (conj _ (conj _ (conj _ (conj _ _)))))))).
  - intros r. apply in_class_iff.
  - intros r. apply in_class_iff.
  - intros r. apply in_class_iff.
  - intros r [H1 H2]. apply in_class_iff in H1, H2. destruct H1, H2. congruence.
  - intros r [H1 H2]. apply in_class_iff in H1, H2. destruct H1, H2. congruence.
  - intros r [H1 H2]. apply in_class_iff in H1, H2. destruct H1, H2. congruence.
  - lia.
  - lia.
  - lia.
Qed.

Lemma classes_disjoint_witness :
  (forall r, In r Samples.steps -> 0 <= st_value r)
  /\ let c := correct_steps Samples.workouts Samples.steps in
     cycling_steps c + skating_steps c + walking_steps c <= total_steps c
     /\ walking_steps c <= corrected_steps c.
Proof.
  assert (H : forall r, In r Samples.steps -> 0 <= st_value r).
  { intros r Hr. simpl in Hr.
    destruct Hr as [<-|[<-|[<-|[<-|[<-|[<-|[]]]]]]]; simpl; lia. }
  split; [exact H|].
  destruct (classes_disjoint Samples.workouts Samples.steps H)
    as (_ & _ & _ & _ & _ & _ & _ & Hsum & Hwalk).
  split; [exact Hsum | exact Hwalk].
Defined.

(** *** The cut-off in the step corrector *)

Lemma fold_append_omap {A B} (f : list B -> A -> list B) (g : A -> option B)
    (l : list A) (acc : list B) :
  (forall acc x, f acc x = match g x with Some y => acc ++ [y] | None => acc end) ->
  fold_left f l acc = acc ++ omap g l.
Proof.
  intros Hf. revert acc. induction l as [|x l IH]; intros acc; simpl.
  - rewrite app_nil_r. reflexivity.
  - rewrite IH, Hf. destruct (g x); simpl; [rewrite <- app_assoc|]; reflexivity.
Qed.

Lemma extract_steps_omap (export : stream) :
  extract_steps_with_times export = omap step_at export.
Proof.
  unfold extract_steps_with_times.
  rewrite (fold_append_omap _ step_at); [reflexivity|].
  intros acc [ev elem]. unfold step_at; simpl.
  destruct (is_end ev && String.eqb (tag elem) "Record"); reflexivity.
Qed.

Lemma extract_steps_In (export : stream) (r : StepRecord) :
  In r (extract_steps_with_times export)
  <-> exists elem, In (ev_end, elem) export /\ tag elem = "Record" /\ step_of elem = Some r.
Proof.
  rewrite extract_steps_omap, <- list_elem_of_In, list_elem_of_omap. split.
  - intros ([ev elem] & Hin & Hs). unfold step_at in Hs; simpl in Hs.
    destruct ev; simpl in Hs; [discriminate|].
    destruct (String.eqb_spec (tag elem) "Record"); [|discriminate].
    exists elem. rewrite <- list_elem_of_In. auto.
  - intros (elem & Hin & Ht & Hs). exists (ev_end, elem).
    rewrite list_elem_of_In. split; [exact Hin|].
    unfold step_at; simpl. rewrite Ht. exact Hs.
Qed.

(** What [step_of] appends was read from the element and starts at or
    after the cut-off. *)
Lemma step_of_Some (elem : Element) (r : StepRecord) :
  step_of elem = Some r ->
  get elem "type" = Some "HKQuantityTypeIdentifierStepCount"
  /\ (exists s, get elem "startDate" = Some s /\ DT.strptime_stamp s = Some (st_start r))
  /\ (exists e, get elem "endDate" = Some e /\ DT.strptime_stamp e = Some (st_end r))
  /\ (exists v, get elem "value" = Some v /\ PyStr.int_of_string v = Some (st_value r))
  /\ DT.naive_ge (DT.local (st_start r)) start_date = true.
Proof.
  unfold step_of. case_bool_decide as Hty; [|discriminate].
  destruct (get elem "startDate") as [s|]; [|discriminate].
  destruct (get elem "endDate") as [e|]; [|simpl; rewrite andb_false_r; discriminate].
  destruct (get elem "value") as [v|]; [|simpl; rewrite andb_false_r; discriminate].
  destruct (PyStr.truthy (Some s) && PyStr.truthy (Some e) && PyStr.truthy (Some v));
    [|discriminate].
  destruct (DT.strptime_stamp s) as [a|] eqn:Ha; [|discriminate].
  destruct (DT.strptime_stamp e) as [b|] eqn:Hb; [|discriminate].
  unfold DT.replace_tzinfo_None.
  destruct (DT.naive_ge (DT.local a) start_date) eqn:Hge; [|discriminate].
  destruct (PyStr.int_of_string v) as [n|] eqn:Hn; [|discriminate].
  intros H. injection H as <-. simpl.
  split; [exact Hty|]. split; [exists s; auto|]. split; [exists e; auto|].
  split; [exists v; auto | exact Hge].
Qed.









Lemma extract_workouts_In (export : stream) (w : Workout) :
  In w (extract_workout_times export) ->
  exists elem, In (ev_end, elem) export /\ tag elem = "Workout" /\ workout_of elem = Some w.
Proof.
  unfold extract_workout_times.
  rewrite (fold_append_omap _
             (fun p : event * Element =>
                if is_end (fst p) && String.eqb (tag (snd p)) "Workout"
                then workout_of (snd p) else None)).
  - rewrite app_nil_l, <- list_elem_of_In, list_elem_of_omap.
    intros ([ev elem] & Hin & Hw). simpl in Hw.
    destruct ev; simpl in Hw; [discriminate|].
    destruct (String.eqb_spec (tag elem) "Workout"); [|discriminate].
    exists elem. rewrite <- list_elem_of_In. auto.
  - intros acc [ev elem]. simpl.
    destruct (is_end ev && String.eqb (tag elem) "Workout"); reflexivity.
Qed.

(** On what the two passes extract, the overlap test is the order of
    instants: the step starts no later than the workout ends and ends no
    earlier than the workout starts. *)
Lemma extracted_overlap_instants (export : stream) (r : StepRecord) (w : Workout) :
  In r (extract_steps_with_times export) ->
  In w (extract_workout_times export) ->
  overlaps r w = true
  <-> DT.instant (st_start r) <= DT.instant (wk_end w)
      /\ DT.instant (wk_start w) <= DT.instant (st_end r).
Proof.
  intros Hr Hw.
  apply extract_steps_In in Hr as (er & _ & _ & Hr).
  apply extract_workouts_In in Hw as (ew & _ & _ & Hw).
  destruct (step_of_Some er r Hr) as (_ & (s & _ & Hs) & (e & _ & He) & _).
  destruct (workout_of_valid ew w Hw) as [Vs Ve].
  pose proof (DTFacts.strptime_stamp_valid s _ Hs) as V1.
  pose proof (DTFacts.strptime_stamp_valid e _ He) as V2.
  unfold overlaps. rewrite andb_true_iff.
  rewrite (DTFacts.aware_le_instant _ _ V1 Ve), (DTFacts.aware_ge_instant _ _ V2 Vs).
  reflexivity.
Qed.

(** The scenario of the specification: a ride from 10:00 to 10:30, 500
    steps during it and 200 steps an hour later. *)
Example scenario_one_ride :
  let c := calculate_corrected_steps
             (Samples.closed Samples.ride ++ Samples.closed Samples.during_ride
              ++ Samples.closed Samples.at_rest) in
  total_steps c = 700 /\ cycling_steps c = 500 /\ corrected_steps c = 200.
Proof. vm_compute. auto. Qed.

(** The sample export as the two passes read it, and its correction. *)
Example sample_extraction :
  extract_steps_with_times Samples.export = Samples.steps
  /\ extract_workout_times Samples.export = Samples.workouts.
Proof. split; vm_compute; reflexivity. Qed.

Example sample_correction :
  let c := correct_steps Samples.workouts Samples.steps in
  total_steps c = 1207 /\ cycling_steps c = 627 /\ skating_steps c = 80
  /\ walking_steps c = 300 /\ corrected_steps c = 500.
Proof. vm_compute. auto 6. Qed.

End StepCorrectorFacts.

(** ** The health analyzer *)

Module HealthFacts.

Import Xml PyNum Health.

Section WithFloat.
Context {PF : PyFloat}.









End WithFloat.
End HealthFacts.

(** ** The cut-off date, across the two readers of the export *)

Module CutoffFacts.

Import Xml.

Section WithFloat.
Context {PF : PyFloat}.


End WithFloat.


End CutoffFacts.

(** ** The route statistics *)

Module GPXFacts.

Import PyNum GPX.

Section WithFloat.
Context {PF : PyFloat} {PY : Interpreter}.
Context (laws : PyFloatLaws PF).

Lemma fadd_max0 (g d : float) :
  settled g -> settled (fadd g (max0 d)) /\ fadd g (max0 d)
                                           = if flt fzero d then fadd g d else g.
Proof.
  intros Hg. unfold max0. destruct (flt fzero d) eqn:Hd.
  - split; [right; apply fadd_pos; assumption | reflexivity].
  - destruct Hg as [->|Hg].
    + rewrite fadd_zero_zero. split; [left|]; reflexivity.
    + rewrite (fadd_zero_r g Hg). split; [right; exact Hg | reflexivity].
Qed.

Lemma gain_loop_sum (points : list TrackPoint) (g : float) :
  settled g ->
  gain_loop points g = fold_left fadd (map max0 (elevation_diffs points)) g
  /\ settled (gain_loop points g).
Proof.
  revert g. induction points as [|p1 points IH]; intros g Hg; [simpl; auto|].
  destruct points as [|p2 rest]; [simpl; auto|].
  change (gain_loop (p1 :: p2 :: rest) g) with (gain_loop (p2 :: rest) (gain_step g p1 p2)).
  change (elevation_diffs (p1 :: p2 :: rest))
    with (match ele p1, ele p2 with
          | Some ele1, Some ele2 => fsub ele2 ele1 :: elevation_diffs (p2 :: rest)
          | _, _ => elevation_diffs (p2 :: rest)
          end).
  unfold gain_step.
  destruct (ele p1) as [e1|]; [|apply IH; exact Hg].
  destruct (ele p2) as [e2|]; [|apply IH; exact Hg].
  cbn [map fold_left].
  destruct (fadd_max0 g (fsub e2 e1) Hg) as [Hs Heq]. rewrite Heq in *.
  apply IH. exact Hs.
Qed.

Lemma gain_loop_flat (points : list TrackPoint) (g : float) :
  never_rises points -> gain_loop points g = g.
Proof.
  revert g. induction points as [|p1 points IH]; intros g H; [reflexivity|].
  destruct points as [|p2 rest]; [reflexivity|].
  change (gain_loop (p1 :: p2 :: rest) g) with (gain_loop (p2 :: rest) (gain_step g p1 p2)).
  destruct H as [Hpair Hrest]. rewrite (IH _ Hrest). unfold gain_step.
  destruct (ele p1) as [e1|]; [|reflexivity].
  destruct (ele p2) as [e2|]; [|reflexivity].
  rewrite (fsub_not_pos e1 e2 Hpair). reflexivity.
Qed.

Lemma short_route (points : list TrackPoint) :
  (len points <? 2) = true -> points = [] \/ exists p, points = [p].
Proof.
  unfold len. intros H. apply Z.ltb_lt in H.
  destruct points as [|p [|q rest]]; [left; reflexivity | right; eauto |].
  simpl in H. lia.
Qed.

Lemma settled_nonneg (g : float) : settled g -> fle fzero g = true.
Proof. intros [->|H]; [apply fle_zero_zero | apply flt_fle; exact H]. Qed.

(** C5: the elevation gain of a sequence of track points is the sum, over
    the consecutive pairs in which both elevations are present, of
    [max(0, ele[i+1] - ele[i])]; it is never below zero; and it is zero
    when no such pair rises. *)
Theorem elevation_gain_sum :
  forall points : list TrackPoint,
    _calculate_elevation_gain points = sum_of_rises points
    /\ fle fzero (_calculate_elevation_gain points) = true
    /\ (never_rises points -> _calculate_elevation_gain points = fzero).
Proof.
  intros points. unfold _calculate_elevation_gain, sum_of_rises.
  assert (H0 : settled fzero) by (left; reflexivity).
  destruct (len points <? 2) eqn:Hlen.
  - destruct (short_route points Hlen) as [->|[p ->]]; simpl;
      (split; [reflexivity | split; [apply fle_zero_zero | reflexivity]]).
  - destruct (gain_loop_sum points fzero H0) as [Hsum Hs].
    split; [exact Hsum|]. split; [apply settled_nonneg; exact Hs|].
    intros Hflat. apply gain_loop_flat. exact Hflat.
Qed.

(** The loop of [_calculate_duration] keeps the first and the last time
    text. *)
Lemma scan_times_from (points : list TrackPoint) (seen : list string) :
  fold_left
    (fun (acc : option string * option string) point =>
       if PyStr.truthy (time point) then
         ((match fst acc with None => time point | Some _ => fst acc end), time point)
       else acc)
    points (head seen, last seen)
  = (head (seen ++ stamps points), last (seen ++ stamps points)).
Proof.
  revert seen. induction points as [|p points IH]; intros seen.
  - simpl. rewrite app_nil_r. reflexivity.
  - cbn [fold_left]. unfold stamps. cbn [omap list_omap]. fold (stamps points).
    destruct (time p) as [[|c t]|]; simpl PyStr.truthy; cbv iota; try apply IH.
    replace (seen ++ String c t :: stamps points)
      with ((seen ++ [String c t]) ++ stamps points) by (rewrite <- app_assoc; reflexivity).
    rewrite <- IH. f_equal. rewrite last_snoc. f_equal.
    destruct seen; reflexivity.
Qed.

Lemma scan_times_stamps (points : list TrackPoint) :
  scan_times points = (head (stamps points), last (stamps points)).
Proof. exact (scan_times_from points []). Qed.

Lemma stamps_truthy (points : list TrackPoint) (s : string) :
  In s (stamps points) -> PyStr.truthy (Some s) = true.
Proof.
  unfold stamps. rewrite <- list_elem_of_In, list_elem_of_omap.
  intros (p & _ & H). destruct (time p) as [[|c t]|]; simpl in H; try discriminate.
  injection H as <-. reflexivity.
Qed.

Lemma sub_self (d : DT.datetime) : DT.sub d d = Ok 0.
Proof.
  destruct d as [n|a]; simpl; f_equal.
  - rewrite DTFacts.base_delta_micro. lia.
  - rewrite DTFacts.aware_sub_instant. lia.
Qed.

(** What [_calculate_duration] returns, case by case. *)
Lemma duration_cases (points : list TrackPoint) :
  _calculate_duration points
  = if len points <? 2 then Ok fzero
    else match head (stamps points), last (stamps points) with
         | Some s, Some e =>
             match read_stamp s, read_stamp e with
             | Some start_dt, Some end_dt =>
                 td <-- DT.sub end_dt start_dt ;; Ok (minutes_of_timedelta td)
             | _, _ => Ok fzero
             end
         | _, _ => Ok fzero
         end.
Proof.
  unfold _calculate_duration. destruct (len points <? 2); [reflexivity|].
  rewrite scan_times_stamps.
  destruct (head (stamps points)) as [s|] eqn:Hs; [|reflexivity].
  destruct (last (stamps points)) as [e|] eqn:He; [|destruct s; reflexivity].
  assert (Ts : PyStr.truthy (Some s) = true).
  { apply (stamps_truthy points). apply list_elem_of_In. apply head_Some_elem_of. exact Hs. }
  assert (Te : PyStr.truthy (Some e) = true).
  { apply (stamps_truthy points). apply list_elem_of_In. apply last_Some_elem_of. exact He. }
  destruct s as [|c s]; [discriminate|]. destruct e as [|c' e]; [discriminate|].
  unfold read_stamp.
  destruct (fromisoformat _) as [ds|]; [|reflexivity].
  destruct (fromisoformat _) as [de|]; reflexivity.
Qed.

(** When the two time stamps are both naive or both aware, the duration is
    their difference in minutes; with fewer than two time stamps, or when
    one of the two does not read, it is zero. *)
Lemma duration_when_comparable (points : list TrackPoint) :
  ((length (stamps points) < 2)%nat -> _calculate_duration points = Ok fzero)
  /\ (forall s e, head (stamps points) = Some s -> last (stamps points) = Some e ->
                  read_stamp s = None \/ read_stamp e = None ->
                  _calculate_duration points = Ok fzero)
  /\ (forall s e x y, (2 <= length points)%nat ->
         head (stamps points) = Some s -> last (stamps points) = Some e ->
         read_stamp s = Some (DT.Naive x) -> read_stamp e = Some (DT.Naive y) ->
         _calculate_duration points
         = Ok (minutes_of_timedelta (DT.micro y - DT.micro x)))
  /\ (forall s e a b, (2 <= length points)%nat ->
         head (stamps points) = Some s -> last (stamps points) = Some e ->
         read_stamp s = Some (DT.Aware a) -> read_stamp e = Some (DT.Aware b) ->
         _calculate_duration points
         = Ok (minutes_of_timedelta (DT.instant b - DT.instant a))).
Proof.
  rewrite duration_cases. repeat split.
  - intros Hfew. destruct (len points <? 2); [reflexivity|].
    destruct (stamps points) as [|s [|s' rest]]; [reflexivity| |simpl in Hfew; lia].
    simpl. destruct (read_stamp s) as [d|]; [|reflexivity].
    rewrite sub_self. simpl. rewrite minutes_zero. reflexivity.
  - intros s e Hs He Hbad. destruct (len points <? 2); [reflexivity|].
    rewrite Hs, He. destruct Hbad as [-> | ->]; [reflexivity|].
    destruct (read_stamp s); reflexivity.
  - intros s e x y Hlen Hs He Hx Hy.
    replace (len points <? 2) with false
      by (symmetry; apply Z.ltb_ge; unfold len; lia).
    rewrite Hs, He, Hx, Hy. simpl. rewrite DTFacts.base_delta_micro. reflexivity.
  - intros s e a b Hlen Hs He Ha Hb.
    replace (len points <? 2) with false
      by (symmetry; apply Z.ltb_ge; unfold len; lia).
    rewrite Hs, He, Ha, Hb. simpl. rewrite DTFacts.aware_sub_instant. reflexivity.
Qed.

End WithFloat.

(** C6 (the code departs from the claim): for a route whose first time
    stamp carries a zone and whose last one does not, both stamps read on
    every interpreter, yet [_calculate_duration] raises [TypeError] instead
    of returning their difference or zero, and [_analyze_single_gpx] drops
    the route.  The error it prints is that [TypeError], unless the
    distance, which is computed first, has failed already (between two
    equal points binary64 arithmetic does not). *)
Theorem duration_mixed_stamps_raises :
  forall (PF : PyFloat) (PY : Interpreter),
    stamps Samples.mixed_route = ["2025-05-10T10:00:00Z"; "2025-05-10T10:30:00"]
    /\ read_stamp "2025-05-10T10:00:00Z"
       = Some (DT.Aware (DT.mk_aware (DT.mk_naive 2025 5 10 10 0 0 0) 0))
    /\ read_stamp "2025-05-10T10:30:00"
       = Some (DT.Naive (DT.mk_naive 2025 5 10 10 30 0 0))
    /\ _calculate_duration Samples.mixed_route = Raise TypeError
    /\ _analyze_single_gpx Samples.mixed_fs (init "workout-routes")
         "workout-routes/route_2025-05-10_10.00am.gpx" "route_2025-05-10_10.00am.gpx"
         (DT.mk_naive 2025 5 10 0 0 0 0)
       = (mk_analyzer "workout-routes" []
            ["workout-routes/route_2025-05-10_10.00am.gpx"]
            [Error_analyzing "route_2025-05-10_10.00am.gpx"
               (match _calculate_distance Samples.mixed_route with
                | Ok _ => TypeError
                | Raise e => e
                end)],
          None).
Proof.
  intros PF PY.
  assert (Hraise : _calculate_duration Samples.mixed_route = Raise TypeError)
    by (vm_compute; reflexivity).
  split; [reflexivity|]. split; [vm_compute; reflexivity|].
  split; [vm_compute; reflexivity|]. split; [exact Hraise|].
  unfold _analyze_single_gpx. simpl read_track_points. cbv beta.
  change (Samples.mixed_route) with
    [mk_point fzero fzero None (Some "2025-05-10T10:00:00Z");
     mk_point fzero fzero None (Some "2025-05-10T10:30:00")] at 1.
  cbv iota.
  change [mk_point fzero fzero None (Some "2025-05-10T10:00:00Z");
          mk_point fzero fzero None (Some "2025-05-10T10:30:00")]
    with Samples.mixed_route.
  destruct (_calculate_distance Samples.mixed_route) as [distance|e];
    [rewrite Hraise|]; reflexivity.
Qed.

Section Batch.
Context {PF : PyFloat} {PY : Interpreter}.
Variable fs : FileSystem.









End Batch.


(** The statistics of a half-hour walk of one hundredth of a degree north,
    four metres up, in fixed-point numbers. *)
Example short_walk_statistics :
  _calculate_duration (PY := before_3_11) Samples.short_walk = Ok 30000000
  /\ _calculate_elevation_gain Samples.short_walk = 4000000
  /\ _calculate_distance Samples.short_walk = Ok 1108554.
Proof. vm_compute. auto. Qed.

(** The duration of the walk is the same on every interpreter: its stamps
    are in the common format. *)
Example short_walk_duration :
  forall PY : Interpreter, _calculate_duration Samples.short_walk = Ok 30000000.
Proof. intros PY. vm_compute. reflexivity. Qed.

(** One point, or no time stamp at all, gives a duration of zero, and so
    does a stamp that the interpreter does not read. *)
Example duration_without_stamps :
  let point := mk_point (PF := Fixed.ops) 0 0 None in
  let duration := _calculate_duration (PY := before_3_11) in
  duration [point (Some "2025-05-10T15:09:00Z")] = Ok 0
  /\ duration [point None; point None] = Ok 0
  /\ duration [point (Some "noon"); point (Some "2025-05-10T15:09:00Z")] = Ok 0.
Proof. vm_compute. auto. Qed.

(** A climb of 5 m, a descent, a point without elevation and a climb of
    2.5 m; then a descent only. *)
Lemma elevation_gain_sum_witness :
  let up := fun e => mk_point (PF := Fixed.ops) 0 0 e None in
  let hilly := [up (Some 100000000); up (Some 105000000); up (Some 101000000);
                up None; up (Some 90000000); up (Some 92500000)] in
  let downhill := [up (Some 100000000); up (Some 100000000); up (Some 90000000)] in
  _calculate_elevation_gain hilly = 7500000
  /\ sum_of_rises hilly = 7500000
  /\ never_rises downhill
  /\ _calculate_elevation_gain downhill = 0.
Proof.
  intros up hilly downhill.
  destruct (elevation_gain_sum FixedFacts.laws hilly) as (Hsum & _ & _).
  destruct (elevation_gain_sum FixedFacts.laws downhill) as (_ & _ & Hflat).
  split; [rewrite Hsum; reflexivity|].
  split; [reflexivity|].
  assert (Hd : never_rises downhill) by (simpl; auto).
  split; [exact Hd | exact (Hflat Hd)].
Defined.

End GPXFacts.

(** ** The reporters *)

Module ReporterFacts.

Import PyNum Health.

Section WithFloat.
Context {PF : PyFloat}.

Lemma len_cons_nonzero {A} (x : A) (l : list A) : (len (x :: l) =? 0) = false.
Proof. apply Z.eqb_neq. unfold len. simpl. lia. Qed.

(** The daily totals of a non-empty list of step entries are not empty. *)
Lemma daily_steps_nonempty (data : list StepDatum) (daily : gmap string Z) :
  data <> [] ->
  fold_left (fun daily step => bump (first_token (sd_date step)) (sd_value step) daily)
            data daily <> ∅.
Proof.
  revert daily. induction data as [|x rest IH]; intros daily H; [congruence|].
  cbn [fold_left]. destruct rest as [|y rest'].
  - simpl. unfold bump. apply insert_non_empty.
  - apply IH. discriminate.
Qed.

Lemma dict_values_nonempty (d : gmap string Z) : d <> ∅ -> dict_values d <> [].
Proof.
  unfold dict_values. intros H Hnil. apply H, map_to_list_empty_iff.
  destruct (map_to_list d); [reflexivity | discriminate].
Qed.

Lemma heart_rate_total (self : HealthDataParser) :
  exists r, _analyze_heart_rate self = Ok r.
Proof.
  unfold _analyze_heart_rate.
  destruct (heart_rate_data self) as [|h rest]; [eauto|].
  unfold truediv. cbn [map]. rewrite len_cons_nonzero. simpl. eauto.
Qed.

Lemma steps_raise_only_overflow (self : HealthDataParser) (e : exn) :
  _analyze_steps self = Raise e -> e = OverflowError.
Proof.
  unfold _analyze_steps.
  destruct (step_data self) as [|d rest] eqn:E; [discriminate|].
  pose proof (dict_values_nonempty _ (daily_steps_nonempty (d :: rest) ∅ ltac:(discriminate)))
    as Hne.
  fold (daily_steps_of (d :: rest)) in Hne.
  destruct (dict_values (daily_steps_of (d :: rest))) as [|v vs] eqn:Ev; [congruence|].
  unfold int_div. rewrite len_cons_nonzero.
  destruct (int_truediv _ _); simpl; intros H; [discriminate|].
  injection H as <-. reflexivity.
Qed.

Lemma energy_stats_total (es : list Energy) : exists r, energy_stats es = Ok r.
Proof.
  unfold energy_stats. destruct es as [|x rest]; [eauto|].
  unfold truediv. cbn [map]. rewrite len_cons_nonzero. simpl. eauto.
Qed.

Lemma energy_total (self : HealthDataParser) : exists r, _analyze_energy self = Ok r.
Proof.
  unfold _analyze_energy. destruct (energy_data self) as [|x rest]; [eauto|].
  destruct (energy_stats_total
              (List.filter (fun e => PyStr.contains "ActiveEnergy" (en_type e)) (x :: rest)))
    as [a ->].
  destruct (energy_stats_total
              (List.filter (fun e => PyStr.contains "BasalEnergy" (en_type e)) (x :: rest)))
    as [b ->].
  simpl. eauto.
Qed.

Lemma workouts_report (self : HealthDataParser) :
  workouts self <> [] ->
  _analyze_workouts self
  = Ok (WK_stats (len (workouts self)) (count_types (workouts self))
                 (total_duration_of (workouts self))
                 (fdiv_int (total_duration_of (workouts self)) (len (workouts self)))
                 (last_n 5 (workouts self))).
Proof.
  unfold _analyze_workouts. destruct (workouts self) as [|w rest]; [congruence|].
  intros _. unfold truediv. rewrite len_cons_nonzero. reflexivity.
Qed.

Lemma workouts_total (self : HealthDataParser) : exists r, _analyze_workouts self = Ok r.
Proof.
  destruct (workouts self) as [|w rest] eqn:E.
  - unfold _analyze_workouts. rewrite E. eauto.
  - rewrite workouts_report by (rewrite E; discriminate). eauto.
Qed.

Lemma routes_total (g : GPX.GPXAnalyzer) : exists r, GPX.generate_summary g = Ok r.
Proof.
  unfold GPX.generate_summary. destruct (GPX.routes g) as [|r rest]; [eauto|].
  unfold truediv. rewrite len_cons_nonzero. simpl. eauto.
Qed.

Lemma energy_stats_none (es : list Energy) :
  exists r, energy_stats es = Ok r /\ (r = None <-> es = []).
Proof.
  unfold energy_stats. destruct es as [|x rest].
  - exists None. split; [reflexivity | tauto].
  - unfold truediv. cbn [map]. rewrite len_cons_nonzero. simpl.
    eexists. split; [reflexivity|]. split; discriminate.
Qed.

Lemma energy_kinds (self : HealthDataParser) :
  energy_data self <> [] ->
  exists a b,
    _analyze_energy self = Ok (EN_result a b)
    /\ (a = None
        <-> List.filter (fun e => PyStr.contains "ActiveEnergy" (en_type e))
                        (energy_data self) = [])
    /\ (b = None
        <-> List.filter (fun e => PyStr.contains "BasalEnergy" (en_type e))
                        (energy_data self) = []).
Proof.
  intros Hne. unfold _analyze_energy.
  destruct (energy_data self) as [|x rest]; [congruence|].
  destruct (energy_stats_none
              (List.filter (fun e => PyStr.contains "ActiveEnergy" (en_type e)) (x :: rest)))
    as (a & -> & Ha).
  destruct (energy_stats_none
              (List.filter (fun e => PyStr.contains "BasalEnergy" (en_type e)) (x :: rest)))
    as (b & -> & Hb).
  exists a, b. split; [reflexivity|]. split; assumption.
Qed.

(** C7 (as amended): each of the five reporters, given an empty
    collection, returns its "no data" message and does not raise, and so
    does the whole summary of an analyzer that has read nothing.  Beyond
    that, no reporter ever divides by zero: four of them return a result
    on every input, and the step reporter can only raise the overflow of
    an integer division.  Within the energy reporter there is no message
    for a kind: when there are energy entries, the active and the basal
    entries are each summarised if there are any and left out of the
    result if there are none. *)
Theorem empty_collections_guarded :
  (forall self, heart_rate_data self = [] ->
                _analyze_heart_rate self = Ok (HR_message "No heart rate data found"))
  /\ (forall self, step_data self = [] ->
                   _analyze_steps self = Ok (ST_message "No step data found"))
  /\ (forall self, energy_data self = [] ->
                   _analyze_energy self = Ok (EN_message "No energy data found"))
  /\ (forall self, workouts self = [] ->
                   _analyze_workouts self = Ok (WK_message "No workouts found"))
  /\ (forall g, GPX.routes g = [] ->
                GPX.generate_summary g
                = Ok (GPX.GS_message "No routes found for the specified period"))
  /\ energy_stats [] = Ok None
  /\ (forall self,
        energy_data self <> [] ->
        exists a b,
          _analyze_energy self = Ok (EN_result a b)
          /\ (a = None
              <-> List.filter (fun e => PyStr.contains "ActiveEnergy" (en_type e))
                              (energy_data self) = [])
          /\ (b = None
              <-> List.filter (fun e => PyStr.contains "BasalEnergy" (en_type e))
                              (energy_data self) = []))
  /\ (forall self, exists r, _analyze_heart_rate self = Ok r)
  /\ (forall self e, _analyze_steps self = Raise e -> e = OverflowError)
  /\ (forall self, exists r, _analyze_energy self = Ok r)
  /\ (forall self, exists r, _analyze_workouts self = Ok r)
  /\ (forall g, exists r, GPX.generate_summary g = Ok r)
  /\ generate_summary init
     = Ok (mk_summary 0 0 ∅ []
             (HR_message "No heart rate data found") (ST_message "No step data found")
             (EN_message "No energy data found") (WK_message "No workouts found")).
Proof.
  refine (conj _ (conj _ (conj _ (conj _ (conj _ (conj eq_refl (conj energy_kinds
         (conj heart_rate_total (conj steps_raise_only_overflow
         (conj energy_total (conj workouts_total (conj routes_total _)))))))))))).
  6: { unfold generate_summary, dict_values. simpl. rewrite map_to_list_empty.
       reflexivity. }
  - intros self H. unfold _analyze_heart_rate. rewrite H. reflexivity.
  - intros self H. unfold _analyze_steps. rewrite H. reflexivity.
  - intros self H. unfold _analyze_energy. rewrite H. reflexivity.
  - intros self H. unfold _analyze_workouts. rewrite H. reflexivity.
  - intros g H. unfold GPX.generate_summary. rewrite H. reflexivity.
Qed.

End WithFloat.

Lemma empty_collections_guarded_witness :
  heart_rate_data (PF := Fixed.ops) init = []
  /\ _analyze_heart_rate (PF := Fixed.ops) init = Ok (HR_message "No heart rate data found")
  /\ _analyze_steps (PF := Fixed.ops) init = Ok (ST_message "No step data found")
  /\ _analyze_energy (PF := Fixed.ops) init = Ok (EN_message "No energy data found")
  /\ _analyze_workouts (PF := Fixed.ops) init = Ok (WK_message "No workouts found")
  /\ GPX.generate_summary (PF := Fixed.ops) (GPX.init "workout-routes")
     = Ok (GPX.GS_message "No routes found for the specified period").
Proof.
  destruct (empty_collections_guarded (PF := Fixed.ops)) as (Hh & Hs & He & Hw & Hg & _).
  split; [reflexivity|].
  split; [apply Hh; reflexivity|].
  split; [apply Hs; reflexivity|].
  split; [apply He; reflexivity|].
  split; [apply Hw; reflexivity | apply Hg; reflexivity].
Defined.

(** C7 as first stated fails: the export with energy at rest only leaves
    the collection of active energy empty, and the energy reporter returns
    the statistics of the energy at rest with nothing in place of the
    active ones, and no message. *)
Lemma energy_kind_without_message :
  let self := parse_xml_streaming (PF := Fixed.ops) init MoreSamples.energy_export in
  List.filter (fun e => PyStr.contains "ActiveEnergy" (en_type e)) (energy_data self) = []
  /\ _analyze_energy self
     = Ok (EN_result None (Some (mk_es (PF := Fixed.ops) 75500000 75500000 75500000)))
  /\ ~ exists message, _analyze_energy self = Ok (EN_message message).
Proof.
  intros self.
  assert (H : _analyze_energy self
              = Ok (EN_result None (Some (mk_es (PF := Fixed.ops) 75500000 75500000
                                                75500000))))
    by reflexivity.
  split; [reflexivity|]. split; [exact H|].
  intros [message Hm]. rewrite H in Hm. discriminate.
Qed.

Section WithLaws.
Context {PF : PyFloat}.

(** The loop adds up the durations that are present and read as numbers. *)
Lemma total_duration_from (ws : list WorkoutInfo) (acc : float) :
  fold_left add_duration ws acc = fold_left fadd (parsed_durations ws) acc.
Proof.
  revert acc. induction ws as [|w ws IH]; intros acc; [reflexivity|].
  cbn [fold_left]. rewrite IH. unfold parsed_durations. cbn [omap list_omap].
  unfold add_duration, duration_of.
  destruct (wi_duration w) as [[|c d]|]; try reflexivity.
  destruct (float_of_string (String c d)); reflexivity.
Qed.

Lemma parsed_durations_skip (ws1 ws2 : list WorkoutInfo) (w : WorkoutInfo) :
  duration_of w = None ->
  parsed_durations (ws1 ++ w :: ws2) = parsed_durations (ws1 ++ ws2).
Proof.
  intros H. unfold parsed_durations. rewrite !omap_app. f_equal.
  cbn [omap list_omap]. rewrite H. reflexivity.
Qed.

Lemma parsed_durations_length (ws : list WorkoutInfo) :
  (length (parsed_durations ws) <= length ws)%nat.
Proof.
  unfold parsed_durations. induction ws as [|w ws IH]; [reflexivity|].
  cbn [omap list_omap]. destruct (duration_of w); simpl in *; lia.
Qed.

Context (laws : PyFloatLaws PF).

(** C10 (as amended): for a non-empty workout list the reported average
    duration is the sum of the durations that are present and read as
    numbers, divided by the count of all workouts.  A workout whose
    duration is missing or does not read leaves the sum as it is and still
    adds one to the count; so a positive sum yields an average no greater
    than the one over the workouts whose duration reads. *)
Theorem average_duration_counts_all :
  forall self : HealthDataParser,
    workouts self <> [] ->
    let ws := workouts self in
    let total := fold_left fadd (parsed_durations ws) fzero in
    _analyze_workouts self
    = Ok (WK_stats (len ws) (count_types ws) total (fdiv_int total (len ws))
                   (last_n 5 ws))
    /\ (forall ws1 ws2 w,
          duration_of w = None ->
          total_duration_of (ws1 ++ w :: ws2) = total_duration_of (ws1 ++ ws2)
          /\ len (ws1 ++ w :: ws2) = len (ws1 ++ ws2) + 1)
    /\ (flt fzero total = true ->
        fle (fdiv_int total (len ws)) (fdiv_int total (len (parsed_durations ws))) = true).
Proof.
  intros self Hne ws total.
  assert (Htot : total_duration_of ws = total) by apply total_duration_from.
  split; [|split].
  - rewrite (workouts_report self Hne). fold ws. rewrite Htot. reflexivity.
  - intros ws1 ws2 w Hw. split.
    + unfold total_duration_of. rewrite !total_duration_from.
      rewrite (parsed_durations_skip ws1 ws2 w Hw). reflexivity.
    + unfold len. rewrite !length_app. cbn [length]. lia.
  - intros Hpos. apply fdiv_int_antitone; [exact Hpos|].
    pose proof (parsed_durations_length ws) as Hle. unfold len.
    subst total. destruct (parsed_durations ws) as [|x xs] eqn:E.
    + simpl in Hpos. rewrite flt_irrefl in Hpos. discriminate.
    + simpl in *. lia.
Qed.

End WithLaws.

Lemma average_duration_counts_all_witness :
  let self := parse_xml_streaming (PF := Fixed.ops) init Samples.export in
  workouts self <> []
  /\ parsed_durations (PF := Fixed.ops) (workouts self) = [30000000; 30000000]
  /\ len (workouts self) = 3
  /\ _analyze_workouts self
     = Ok (WK_stats (PF := Fixed.ops) 3 (count_types (workouts self)) 60000000 20000000
                    (last_n 5 (workouts self))).
Proof.
  intros self.
  assert (Hne : workouts self <> []) by (vm_compute; discriminate).
  assert (Hlen : len (workouts self) = 3) by (vm_compute; reflexivity).
  assert (Htotal : fold_left (fadd (PyFloat := Fixed.ops))
                     (parsed_durations (PF := Fixed.ops) (workouts self)) 0 = 60000000)
    by (vm_compute; reflexivity).
  destruct (average_duration_counts_all FixedFacts.laws self Hne) as (Hrep & _ & _).
  cbv zeta in Hrep. change (fzero (PyFloat := Fixed.ops)) with 0 in Hrep.
  rewrite Hlen, Htotal in Hrep.
  split; [exact Hne|]. split; [vm_compute; reflexivity|].
  split; [exact Hlen | exact Hrep].
Defined.

(** C10 as first stated fails: a workout without a duration does not lower
    the average when the durations that read add up to less than zero.
    After a workout of duration -10.0 the reported average is -10.0; with
    a workout without duration added it is -5.0, which is higher. *)
Lemma missing_duration_raises_average :
  let timed := mk_wi "HKWorkoutActivityTypeOther" "2025-05-10 10:00:00 +0200" None
                     (Some "-10.0") None None in
  let untimed := mk_wi "HKWorkoutActivityTypeOther" "2025-05-11 10:00:00 +0200" None
                       None None None in
  let self := fun ws => mk_parser (PF := Fixed.ops) ∅ ws [] [] [] in
  duration_of (PF := Fixed.ops) timed = Some (-10000000)
  /\ duration_of (PF := Fixed.ops) untimed = None
  /\ _analyze_workouts (self [timed])
     = Ok (WK_stats (PF := Fixed.ops) 1 (count_types [timed]) (-10000000) (-10000000)
                    [timed])
  /\ _analyze_workouts (self [timed; untimed])
     = Ok (WK_stats (PF := Fixed.ops) 2 (count_types [timed; untimed]) (-10000000)
                    (-5000000) [timed; untimed])
  /\ flt (PyFloat := Fixed.ops) (-10000000) (-5000000) = true.
Proof.
  intros timed untimed self.
  split; [reflexivity|]. split; [reflexivity|]. split; [reflexivity|].
  split; reflexivity.
Qed.

End ReporterFacts.

(** ** More on the step correction *)

Module StepCorrectorExtFacts.

Import Xml StepCorrector StepCorrectorExt StepCorrectorFacts.

Lemma clear_of_class (ws : list Workout) (r : StepRecord) :
  clear_of ws r = class_eqb (class_of ws r) Walking || class_eqb (class_of ws r) Kept.
Proof.
  unfold clear_of, class_of.
  destruct (is_step_during_workout r (of_type "Cycling" ws)); [reflexivity|].
  destruct (is_step_during_workout r (of_type "Skating" ws)); [reflexivity|].
  destruct (is_step_during_workout r (of_type "Walking" ws)); reflexivity.
Qed.

Lemma sum_clear_of (ws : list Workout) (steps : list StepRecord) :
  sum_values (List.filter (clear_of ws) steps)
  = sum_values (in_class ws Walking steps) + sum_values (in_class ws Kept steps).
Proof.
  induction steps as [|s steps IH]; [reflexivity|].
  unfold in_class in *. cbn [List.filter]. rewrite clear_of_class.
  destruct (class_of ws s); simpl; rewrite ?sum_values_cons; lia.
Qed.

Lemma clear_of_iff (ws : list Workout) (r : StepRecord) :
  clear_of ws r = true
  <-> forall w, In w ws -> takes_off w = true -> overlaps r w = false.
Proof.
  unfold clear_of. rewrite andb_true_iff, !negb_true_iff. split.
  - intros [Hc Hs] w Hin Hty. destruct (overlaps r w) eqn:Ho; [|reflexivity].
    unfold takes_off in Hty. apply orb_true_iff in Hty as [Hty|Hty].
    + assert (is_step_during_workout r (of_type "Cycling" ws) = true); [|congruence].
      apply during_iff. exists w. split; [apply of_type_In; auto | exact Ho].
    + assert (is_step_during_workout r (of_type "Skating" ws) = true); [|congruence].
      apply during_iff. exists w. split; [apply of_type_In; auto | exact Ho].
  - intros H. split.
    + destruct (is_step_during_workout r (of_type "Cycling" ws)) eqn:E; [|reflexivity].
      apply during_iff in E as (w & Hin & Ho). apply of_type_In in Hin as [Hin Hty].
      rewrite (H w Hin) in Ho; [discriminate|]. unfold takes_off. rewrite Hty. reflexivity.
    + destruct (is_step_during_workout r (of_type "Skating" ws)) eqn:E; [|reflexivity].
      apply during_iff in E as (w & Hin & Ho). apply of_type_In in Hin as [Hin Hty].
      rewrite (H w Hin) in Ho; [discriminate|]. unfold takes_off. rewrite Hty.
      apply orb_true_r.
Qed.

Lemma corrected_is_clear (ws : list Workout) (steps : list StepRecord) :
  corrected_steps (correct_steps ws steps) = sum_values (List.filter (clear_of ws) steps).
Proof.
  destruct (buckets_by_class ws steps) as (Bc & Bs & _).
  pose proof (class_split ws steps) as Hsplit.
  unfold correct_steps; simpl. rewrite Bc, Bs, sum_clear_of. lia.
Qed.

(** The corrected steps are the steps of the records that no cycling and
    no skating workout overlaps, and of no other record. *)
Theorem corrected_counts_clear_records :
  forall (workout_times : list Workout) (step_records : list StepRecord),
    corrected_steps (correct_steps workout_times step_records)
    = total_of (map st_value (List.filter (clear_of workout_times) step_records))
    /\ forall r, clear_of workout_times r = true
                 <-> forall w, In w workout_times -> takes_off w = true ->
                               overlaps r w = false.
Proof.
  intros ws steps. split.
  - rewrite corrected_is_clear. apply sum_values_total.
  - intros r. apply clear_of_iff.
Qed.

Lemma during_same_members (r : StepRecord) (name : string) (ws ws' : list Workout) :
  (forall w, In w ws -> In w ws') ->
  is_step_during_workout r (of_type name ws) = true ->
  is_step_during_workout r (of_type name ws') = true.
Proof.
  intros Hsub H. apply during_iff in H as (w & Hin & Ho). apply during_iff.
  exists w. split; [|exact Ho]. apply of_type_In in Hin as [Hin Hty].
  apply of_type_In. auto.
Qed.

Lemma during_eq (r : StepRecord) (name : string) (ws ws' : list Workout) :
  (forall w, In w ws <-> In w ws') ->
  is_step_during_workout r (of_type name ws) = is_step_during_workout r (of_type name ws').
Proof.
  intros H.
  destruct (is_step_during_workout r (of_type name ws)) eqn:E1;
    destruct (is_step_during_workout r (of_type name ws')) eqn:E2; try reflexivity.
  - apply (during_same_members r name ws ws') in E1; [congruence | intros w; apply H].
  - apply (during_same_members r name ws' ws) in E2; [congruence | intros w; apply H].
Qed.

Lemma filter_ext_all {A} (f g : A -> bool) (l : list A) :
  (forall x, f x = g x) -> List.filter f l = List.filter g l.
Proof.
  intros H. induction l as [|x l IH]; [reflexivity|]. simpl. rewrite H, IH. reflexivity.
Qed.

(** The result depends on which workouts there are, not on their order or
    on how often each one occurs. *)
Theorem correction_ignores_workout_order :
  forall (ws ws' : list Workout) (step_records : list StepRecord),
    (forall w, In w ws <-> In w ws') ->
    let c := correct_steps ws step_records in
    let c' := correct_steps ws' step_records in
    classify_all ws step_records = classify_all ws' step_records
    /\ cycling_steps c = cycling_steps c' /\ skating_steps c = skating_steps c'
    /\ walking_steps c = walking_steps c' /\ corrected_steps c = corrected_steps c'.
Proof.
  intros ws ws' steps H c c'.
  assert (Hclass : forall r, class_of ws r = class_of ws' r).
  { intros r. unfold class_of.
    rewrite (during_eq r "Cycling" ws ws' H), (during_eq r "Skating" ws ws' H),
      (during_eq r "Walking" ws ws' H). reflexivity. }
  assert (Hin : forall k, in_class ws k steps = in_class ws' k steps).
  { intros k. unfold in_class. apply filter_ext_all. intros r. rewrite Hclass. reflexivity. }
  assert (Hb : classify_all ws steps = classify_all ws' steps).
  { destruct (buckets_by_class ws steps) as (Bc & Bs & Bw).
    destruct (buckets_by_class ws' steps) as (Bc' & Bs' & Bw').
    destruct (classify_all ws steps) as [a1 a2 a3], (classify_all ws' steps) as [b1 b2 b3].
    simpl in *. rewrite Bc, Bs, Bw, Bc', Bs', Bw', !Hin. reflexivity. }
  unfold c, c', correct_steps; simpl. rewrite Hb. auto.
Qed.

Lemma correction_ignores_workout_order_witness :
  let c := correct_steps Samples.workouts Samples.steps in
  let c' := correct_steps (rev Samples.workouts ++ Samples.workouts) Samples.steps in
  cycling_steps c = cycling_steps c' /\ corrected_steps c = corrected_steps c'.
Proof.
  assert (H : forall w, In w Samples.workouts
                        <-> In w (rev Samples.workouts ++ Samples.workouts)).
  { intros w. rewrite in_app_iff, <- in_rev. tauto. }
  destruct (correction_ignores_workout_order Samples.workouts
              (rev Samples.workouts ++ Samples.workouts) Samples.steps H)
    as (_ & Hc & _ & _ & Hk).
  split; [exact Hc | exact Hk].
Defined.

Lemma sum_filter_le (p q : StepRecord -> bool) (l : list StepRecord) :
  (forall r, In r l -> 0 <= st_value r) ->
  (forall r, p r = true -> q r = true) ->
  sum_values (List.filter p l) <= sum_values (List.filter q l).
Proof.
  intros Hpos Hpq. induction l as [|x l IH]; [reflexivity|].
  assert (Hx : 0 <= st_value x) by (apply Hpos; left; reflexivity).
  assert (IH' : sum_values (List.filter p l) <= sum_values (List.filter q l))
    by (apply IH; intros r Hr; apply Hpos; right; exact Hr).
  simpl. destruct (p x) eqn:Ep.
  - rewrite (Hpq x Ep), !sum_values_cons. lia.
  - destruct (q x); rewrite ?sum_values_cons; lia.
Qed.

(** With step values that are not negative, more workouts never give more
    corrected steps. *)
Theorem more_workouts_fewer_steps :
  forall (ws ws' : list Workout) (step_records : list StepRecord),
    (forall r, In r step_records -> 0 <= st_value r) ->
    (forall w, In w ws -> In w ws') ->
    corrected_steps (correct_steps ws' step_records)
    <= corrected_steps (correct_steps ws step_records)
    /\ corrected_steps (correct_steps ws step_records)
       <= total_steps (correct_steps ws step_records).
Proof.
  intros ws ws' steps Hpos Hsub. rewrite !corrected_is_clear. split.
  - apply sum_filter_le; [exact Hpos|].
    intros r. rewrite !clear_of_iff. intros H w Hin Hty. apply H; auto.
  - unfold correct_steps; simpl.
    replace (sum_values steps) with (sum_values (List.filter (fun _ => true) steps)).
    + apply sum_filter_le; [exact Hpos | reflexivity].
    + f_equal. induction steps as [|x l IH]; [reflexivity|]. simpl. f_equal. apply IH.
      intros r Hr. apply Hpos. right. exact Hr.
Qed.

Lemma more_workouts_fewer_steps_witness :
  (forall r, In r Samples.steps -> 0 <= st_value r)
  /\ corrected_steps (correct_steps Samples.workouts Samples.steps)
     <= corrected_steps (correct_steps (firstn 1 Samples.workouts) Samples.steps)
  /\ corrected_steps (correct_steps (firstn 1 Samples.workouts) Samples.steps)
     <= total_steps (correct_steps (firstn 1 Samples.workouts) Samples.steps).
Proof.
  assert (H : forall r, In r Samples.steps -> 0 <= st_value r).
  { intros r Hr. simpl in Hr.
    destruct Hr as [<-|[<-|[<-|[<-|[<-|[<-|[]]]]]]]; simpl; lia. }
  split; [exact H|].
  apply (more_workouts_fewer_steps (firstn 1 Samples.workouts) Samples.workouts
           Samples.steps H).
  intros w Hw. simpl in Hw. destruct Hw as [<-|[]]. left. reflexivity.
Defined.

Lemma corrected_counts_clear_records_witness :
  corrected_steps (correct_steps Samples.workouts Samples.steps) = 500
  /\ clear_of Samples.workouts Samples.both = false.
Proof.
  destruct (corrected_counts_clear_records Samples.workouts Samples.steps) as [H _].
  split; [rewrite H; reflexivity | reflexivity].
Defined.

Lemma filter_filter_implied {A} (f g : A -> bool) (l : list A) :
  (forall x, f x = true -> g x = true) ->
  List.filter f (List.filter g l) = List.filter f l.
Proof.
  intros H. induction l as [|x l IH]; [reflexivity|]. simpl.
  destruct (g x) eqn:G; simpl; rewrite IH; [reflexivity|].
  destruct (f x) eqn:F; [|reflexivity]. rewrite (H x F) in G. discriminate.
Qed.

Lemma of_type_takes_off (ws : list Workout) :
  of_type "Cycling" (List.filter takes_off ws) = of_type "Cycling" ws
  /\ of_type "Skating" (List.filter takes_off ws) = of_type "Skating" ws.
Proof.
  unfold of_type, takes_off. split; apply filter_filter_implied; intros w H; rewrite H;
    [reflexivity | apply orb_true_r].
Qed.

Lemma in_class_cycling (ws : list Workout) (steps : list StepRecord) :
  in_class ws Cycling steps
  = List.filter (fun r => is_step_during_workout r (of_type "Cycling" ws)) steps.
Proof.
  unfold in_class. apply filter_ext_all. intros r. unfold class_of.
  destruct (is_step_during_workout r (of_type "Cycling" ws)); [reflexivity|].
  destruct (is_step_during_workout r (of_type "Skating" ws)); [reflexivity|].
  destruct (is_step_during_workout r (of_type "Walking" ws)); reflexivity.
Qed.

Lemma in_class_skating (ws : list Workout) (steps : list StepRecord) :
  in_class ws Skating steps
  = List.filter (fun r => negb (is_step_during_workout r (of_type "Cycling" ws))
                          && is_step_during_workout r (of_type "Skating" ws)) steps.
Proof.
  unfold in_class. apply filter_ext_all. intros r. unfold class_of.
  destruct (is_step_during_workout r (of_type "Cycling" ws)); [reflexivity|].
  destruct (is_step_during_workout r (of_type "Skating" ws)); [reflexivity|].
  destruct (is_step_during_workout r (of_type "Walking" ws)); reflexivity.
Qed.

Lemma during_none (r : StepRecord) (name : string) (ws : list Workout) :
  (forall w, In w ws -> PyStr.contains name (wk_type w) = false) ->
  is_step_during_workout r (of_type name ws) = false.
Proof.
  intros H. destruct (is_step_during_workout r (of_type name ws)) eqn:E; [|reflexivity].
  apply during_iff in E as (w & Hin & _). apply of_type_In in Hin as [Hin Hty].
  rewrite (H w Hin) in Hty. discriminate.
Qed.

Lemma filter_none {A} (f : A -> bool) (l : list A) :
  (forall x, f x = false) -> List.filter f l = [].
Proof.
  intros H. induction l as [|x l IH]; [reflexivity|]. simpl. rewrite H. exact IH.
Qed.

(** Walking workouts and workouts of any other kind never change the
    cycling, skating or corrected steps; when no workout is a cycling or a
    skating one (in particular when there is none), nothing is taken off. *)
Theorem only_cycling_and_skating_take_off :
  forall (workout_times : list Workout) (step_records : list StepRecord),
    let c := correct_steps workout_times step_records in
    let c' := correct_steps (List.filter takes_off workout_times) step_records in
    cycling_steps c = cycling_steps c' /\ skating_steps c = skating_steps c'
    /\ corrected_steps c = corrected_steps c'
    /\ ((forall w, In w workout_times -> takes_off w = false) ->
        cycling_steps c = 0 /\ skating_steps c = 0
        /\ corrected_steps c = total_steps c).
Proof.
  intros ws steps c c'.
  destruct (of_type_takes_off ws) as [Tc Ts].
  destruct (buckets_by_class ws steps) as (Bc & Bs & _).
  destruct (buckets_by_class (List.filter takes_off ws) steps) as (Bc' & Bs' & _).
  assert (Hc : cycling_steps c = cycling_steps c').
  { unfold c, c', correct_steps; simpl. rewrite Bc, Bc', !in_class_cycling, Tc. reflexivity. }
  assert (Hs : skating_steps c = skating_steps c').
  { unfold c, c', correct_steps; simpl. rewrite Bs, Bs', !in_class_skating, Tc, Ts.
    reflexivity. }
  split; [exact Hc|]. split; [exact Hs|]. split.
  - unfold c, c', correct_steps in *; simpl in *. lia.
  - intros Hnone.
    assert (Dc : forall r, is_step_during_workout r (of_type "Cycling" ws) = false).
    { intros r. apply during_none. intros w Hin. specialize (Hnone w Hin).
      unfold takes_off in Hnone. apply orb_false_iff in Hnone. tauto. }
    assert (Ds : forall r, is_step_during_workout r (of_type "Skating" ws) = false).
    { intros r. apply during_none. intros w Hin. specialize (Hnone w Hin).
      unfold takes_off in Hnone. apply orb_false_iff in Hnone. tauto. }
    unfold c, correct_steps; simpl. rewrite Bc, Bs, in_class_cycling, in_class_skating.
    rewrite (filter_none _ steps Dc).
    rewrite (filter_none _ steps) by (intros r; rewrite Dc, Ds; reflexivity).
    unfold sum_values; simpl. lia.
Qed.

Lemma only_cycling_and_skating_take_off_witness :
  let c := correct_steps (skipn 2 Samples.workouts) Samples.steps in
  (forall w, In w (skipn 2 Samples.workouts) -> takes_off w = false)
  /\ walking_steps c = 300 /\ corrected_steps c = total_steps c.
Proof.
  intros c.
  assert (H : forall w, In w (skipn 2 Samples.workouts) -> takes_off w = false).
  { intros w Hw. simpl in Hw. destruct Hw as [<-|[]]. reflexivity. }
  destruct (only_cycling_and_skating_take_off (skipn 2 Samples.workouts) Samples.steps)
    as (_ & _ & _ & Hnone).
  split; [exact H|]. split; [reflexivity|]. apply (Hnone H).
Defined.

(** *** What the two passes extract *)







(** A step record extracted from an export whose two ends lie, as
    instants, within a cycling workout extracted from it is counted as
    cycling, whatever the zones the time stamps are written in. *)
Theorem steps_within_a_ride_are_cycling :
  forall (export : stream) (r : StepRecord) (w : Workout),
    In r (extract_steps_with_times export) ->
    In w (extract_workout_times export) ->
    PyStr.contains "Cycling" (wk_type w) = true ->
    within r w ->
    let workout_times := extract_workout_times export in
    let b := classify_all workout_times (extract_steps_with_times export) in
    overlaps r w = true
    /\ In r (steps_during_cycling b)
    /\ clear_of workout_times r = false.
Proof.
  intros export r w Hr Hw Hty [[_ H1] [H2 _]] ws b.
  assert (Ho : overlaps r w = true).
  { apply (extracted_overlap_instants export r w Hr Hw). split; assumption. }
  pose proof (cycling_first ws r w Hw Hty Ho) as Hclass.
  split; [exact Ho|]. split.
  - destruct (buckets_by_class ws (extract_steps_with_times export)) as (Bc & _).
    unfold b. rewrite Bc. apply in_class_iff. auto.
  - rewrite clear_of_class, Hclass. reflexivity.
Qed.

Lemma steps_within_a_ride_are_cycling_witness :
  let r := mk_step (Samples.at_0200 10 5) (Samples.at_0200 10 10) 500 "Watch" in
  let w := mk_workout (Samples.at_0200 10 0) (Samples.at_0200 10 30)
                      "HKWorkoutActivityTypeCycling" in
  within r w
  /\ In r (steps_during_cycling
             (classify_all (extract_workout_times Samples.export)
                           (extract_steps_with_times Samples.export))).
Proof.
  intros r w.
  assert (Hwithin : within r w) by (unfold within; vm_compute; intuition discriminate).
  split; [exact Hwithin|].
  apply (steps_within_a_ride_are_cycling Samples.export r w).
  - vm_compute. tauto.
  - vm_compute. tauto.
  - reflexivity.
  - exact Hwithin.
Defined.



End StepCorrectorExtFacts.

(** ** Totals over dicts *)

Module DictFacts.

Import PyNum Dict.

Lemma zsum_shift (l : list Z) (a : Z) : fold_left Z.add l a = a + zsum l.
Proof.
  unfold zsum. revert a. induction l as [|x l IH]; intros a; simpl; [lia|].
  rewrite IH, (IH (0 + x)). lia.
Qed.

Lemma zsum_cons (x : Z) (l : list Z) : zsum (x :: l) = x + zsum l.
Proof. unfold zsum at 1. simpl. rewrite zsum_shift. lia. Qed.

Lemma zsum_app (l1 l2 : list Z) : zsum (l1 ++ l2) = zsum l1 + zsum l2.
Proof.
  induction l1 as [|x l1 IH]; [reflexivity|]. simpl. rewrite !zsum_cons, IH. lia.
Qed.

Lemma zsum_perm (l l' : list Z) : l ≡ₚ l' -> zsum l = zsum l'.
Proof.
  induction 1 as [|x l l' _ IH|x y l|l l' l'' _ IH1 _ IH2].
  - reflexivity.
  - rewrite !zsum_cons, IH. reflexivity.
  - rewrite !zsum_cons. lia.
  - congruence.
Qed.

Lemma weight_empty {V} (f : V -> Z) : weight f (∅ : gmap string V) = 0.
Proof. unfold weight, values_of. rewrite map_to_list_empty. reflexivity. Qed.

Lemma weight_insert_fresh {V} (f : V -> Z) (k : string) (x : V) (d : gmap string V) :
  d !! k = None -> weight f (<[k:=x]> d) = f x + weight f d.
Proof.
  intros H. unfold weight, values_of.
  rewrite (zsum_perm _ (map f ((k, x) :: map_to_list d).*2)).
  - simpl. apply zsum_cons.
  - apply Permutation_map, fmap_Permutation, map_to_list_insert, H.
Qed.

(** Storing a value under a key changes the total by the difference
    between the new value and the one the key held. *)
Lemma weight_insert {V} (f : V -> Z) (k : string) (x : V) (d : gmap string V) :
  weight f (<[k:=x]> d) = weight f d - default 0 (f <$> d !! k) + f x.
Proof.
  destruct (d !! k) as [y|] eqn:E; simpl.
  - rewrite <- (insert_delete_eq d k x).
    rewrite <- (insert_delete_id d k y E) at 2.
    rewrite !weight_insert_fresh by apply lookup_delete_eq. lia.
  - rewrite (weight_insert_fresh f k x d E). lia.
Qed.

Lemma values_of_length {V} (d : gmap string V) : length (values_of d) = size d.
Proof. unfold values_of. rewrite length_fmap. apply length_map_to_list. Qed.

Lemma values_of_In {V} (d : gmap string V) (x : V) :
  In x (values_of d) <-> exists k, d !! k = Some x.
Proof.
  unfold values_of. rewrite <- list_elem_of_In, list_elem_of_fmap. split.
  - intros ([k y] & -> & H). exists k. apply elem_of_map_to_list. exact H.
  - intros (k & H). exists (k, x). split; [reflexivity|].
    apply elem_of_map_to_list. exact H.
Qed.

Section Tally.
Context {A : Type} (key : A -> string) (val : A -> Z).

Lemma bump_held (k k' : string) (n : Z) (d : gmap string Z) :
  held (Health.bump k n d) k' = held d k' + (if String.eqb k k' then n else 0).
Proof.
  unfold held, Health.bump. destruct (String.eqb_spec k k') as [->|Hne].
  - rewrite lookup_insert_eq. reflexivity.
  - rewrite lookup_insert_ne by exact Hne. simpl. lia.
Qed.

Lemma bump_weight (k : string) (n : Z) (d : gmap string Z) :
  weight id (Health.bump k n d) = weight id d + n.
Proof.
  unfold Health.bump. rewrite weight_insert.
  destruct (d !! k); simpl; unfold id; lia.
Qed.

Lemma bump_keys (k k' : string) (n : Z) (d : gmap string Z) :
  is_Some (Health.bump k n d !! k') <-> k = k' \/ is_Some (d !! k').
Proof.
  unfold Health.bump. destruct (String.eqb_spec k k') as [->|Hne].
  - rewrite lookup_insert_eq. split; [auto | intros _; eauto].
  - rewrite lookup_insert_ne by exact Hne. split; [auto | intros [?|?]; [congruence|auto]].
Qed.

Lemma tally_held (l : list A) (d : gmap string Z) (k : string) :
  held (tally key val l d) k
  = held d k + zsum (map val (List.filter (fun x => String.eqb (key x) k) l)).
Proof.
  unfold tally. revert d. induction l as [|x l IH]; intros d; simpl.
  - unfold zsum; simpl; lia.
  - rewrite IH, bump_held. destruct (String.eqb (key x) k); simpl.
    + rewrite zsum_cons. lia.
    + lia.
Qed.

Lemma tally_weight (l : list A) (d : gmap string Z) :
  weight id (tally key val l d) = weight id d + zsum (map val l).
Proof.
  unfold tally. revert d. induction l as [|x l IH]; intros d; simpl.
  - unfold zsum; simpl; lia.
  - rewrite IH, bump_weight, zsum_cons. lia.
Qed.

Lemma tally_keys (l : list A) (d : gmap string Z) (k : string) :
  is_Some (tally key val l d !! k) <-> is_Some (d !! k) \/ exists x, In x l /\ key x = k.
Proof.
  unfold tally. revert d. induction l as [|x l IH]; intros d; simpl.
  - split; [auto | intros [H|(x & [] & _)]; exact H].
  - rewrite IH, bump_keys. split.
    + intros [[H|H]|(y & Hy & Hk)]; [right; exists x; auto | auto | right; exists y; auto].
    + intros [H|(y & [<-|Hy] & Hk)]; [auto | auto | right; exists y; auto].
Qed.

Lemma tally_size (l : list A) : (size (tally key val l ∅) <= length l)%nat.
Proof.
  assert (H : forall d, (size (tally key val l d) <= size d + length l)%nat).
  { unfold tally. induction l as [|x l IH]; intros d; simpl; [lia|].
    specialize (IH (Health.bump (key x) (val x) d)).
    assert (size (Health.bump (key x) (val x) d) <= S (size d))%nat; [|lia].
    unfold Health.bump. destruct (d !! key x) eqn:E.
    - rewrite map_size_insert_Some by eauto. lia.
    - rewrite map_size_insert_None by exact E. lia. }
  specialize (H ∅). rewrite map_size_empty in H. exact H.
Qed.

End Tally.

Lemma dict_values_weight (d : gmap string Z) :
  zsum (Health.dict_values d) = weight id d.
Proof. unfold weight, Health.dict_values, values_of. rewrite map_id. reflexivity. Qed.

End DictFacts.

(** ** More on the health analyzer *)

Module HealthExtFacts.

Lemma len_nonzero_nonempty {A : Type} (l : list A) : PyNum.len l <> 0 -> l <> [].
Proof. intros H ->. apply H. reflexivity. Qed.

Import Xml PyNum Health HealthExt Dict DictFacts.

Section WithFloat.
Context {PF : PyFloat}.

Lemma dated_reads (elem : Element) :
  dated elem = true
  <-> exists c s d, get elem "startDate" = Some (String c s)
                    /\ DT.strptime_date (first_token (String c s)) = Some d
                    /\ DT.naive_ge d start_date = true.
Proof.
  unfold dated, on_or_after_cutoff. split.
  - destruct (get elem "startDate") as [[|c s]|]; try discriminate.
    destruct (DT.strptime_date (first_token (String c s))) as [d|] eqn:E; [|discriminate].
    intros H. exists c, s, d. auto.
  - intros (c & s & d & Hs & Hd & H). rewrite Hs, Hd. exact H.
Qed.

(** An element that is not dated leaves the analyzer as it was. *)
Lemma process_record_undated (self : HealthDataParser) (elem : Element) :
  dated elem = false -> _process_record self elem = self.
Proof.
  unfold dated, on_or_after_cutoff, _process_record.
  destruct (get elem "startDate") as [[|c s]|]; try reflexivity.
  destruct (DT.strptime_date (first_token (String c s))) as [d|]; [|reflexivity].
  intros ->. reflexivity.
Qed.

Lemma process_workout_undated (self : HealthDataParser) (elem : Element) :
  dated elem = false -> _process_workout self elem = self.
Proof.
  unfold dated, on_or_after_cutoff, _process_workout.
  destruct (get elem "startDate") as [[|c s]|]; try reflexivity.
  destruct (DT.strptime_date (first_token (String c s))) as [d|]; [|reflexivity].
  intros ->. reflexivity.
Qed.


Lemma process_record_stats (self : HealthDataParser) (elem : Element) :
  dated elem = true ->
  stats (_process_record self elem)
  = bump (get_default elem "type" "Unknown") 1 (stats self)
  /\ workouts (_process_record self elem) = workouts self.
Proof.
  intros H. apply dated_reads in H as (c & s & d & Hs & Hd & Hge).
  unfold _process_record. rewrite Hs, Hd, Hge.
  repeat case_match; simpl; auto.
Qed.

Lemma process_workout_dated (self : HealthDataParser) (elem : Element) :
  dated elem = true ->
  stats (_process_workout self elem) = stats self
  /\ heart_rate_data (_process_workout self elem) = heart_rate_data self
  /\ step_data (_process_workout self elem) = step_data self
  /\ energy_data (_process_workout self elem) = energy_data self
  /\ exists w, workouts (_process_workout self elem) = workouts self ++ [w]
               /\ wi_type w = get_default elem "workoutActivityType" "Unknown"
               /\ wi_duration w = get elem "duration".
Proof.
  intros H. apply dated_reads in H as (c & s & d & Hs & Hd & Hge).
  unfold _process_workout. rewrite Hs, Hd, Hge. simpl.
  repeat split; eauto.
Qed.

Lemma len_app_one {A} (l : list A) (x : A) : len (l ++ [x]) = len l + 1.
Proof. unfold len. rewrite length_app. simpl. lia. Qed.

Lemma counts_cover_init : counts_cover init.
Proof.
  unfold counts_cover, init, held, len. simpl. rewrite !lookup_empty. simpl.
  refine (conj _ (conj _ (conj _ (conj _ _)))); [lia | lia | lia | lia | constructor].
Qed.

Lemma process_record_covers (self : HealthDataParser) (elem : Element) :
  counts_cover self -> counts_cover (_process_record self elem).
Proof.
  intros (Hh & Hs & Ha & Hb & Hk).
  destruct (dated elem) eqn:Hd;
    [|rewrite process_record_undated by exact Hd;
      refine (conj _ (conj _ (conj _ (conj _ _)))); assumption].
  apply dated_reads in Hd as (c & s & d & Hs' & Hd & Hge).
  unfold _process_record. rewrite Hs', Hd, Hge.
  remember (get_default elem "type" "Unknown") as ty eqn:Hty.
  pose proof (bump_held ty "HKQuantityTypeIdentifierHeartRate" 1 (stats self)) as B1.
  pose proof (bump_held ty "HKQuantityTypeIdentifierStepCount" 1 (stats self)) as B2.
  pose proof (bump_held ty "HKQuantityTypeIdentifierActiveEnergyBurned" 1 (stats self)) as B3.
  pose proof (bump_held ty "HKQuantityTypeIdentifierBasalEnergyBurned" 1 (stats self)) as B4.
  assert (Fk : forall e, is_active e || is_basal e = true ->
                         Forall (fun e => is_active e || is_basal e = true)
                                (energy_data self ++ [e])).
  { intros e He. apply Forall_app. split; [exact Hk | constructor; [exact He | constructor]]. }
  destruct (String.eqb_spec ty "HKQuantityTypeIdentifierHeartRate") as [E1|N1].
  { rewrite E1 in B1, B2, B3, B4. simpl in B1, B2, B3, B4.
    destruct (get elem "value") as [[|c' v]|];
      [| destruct (float_of_string (String c' v)) |];
      unfold counts_cover; simpl; rewrite ?len_app_one, ?E1, B1, B2, B3, B4;
      (refine (conj _ (conj _ (conj _ (conj _ _)))); [lia | lia | lia | lia | exact Hk]). }
  destruct (String.eqb_spec ty "HKQuantityTypeIdentifierStepCount") as [E2|N2].
  { rewrite E2 in B1, B2, B3, B4. simpl in B1, B2, B3, B4.
    destruct (get elem "value") as [[|c' v]|];
      [| destruct (PyStr.int_of_string (String c' v)) |];
      unfold counts_cover; simpl; rewrite ?len_app_one, ?E2, B1, B2, B3, B4;
      (refine (conj _ (conj _ (conj _ (conj _ _)))); [lia | lia | lia | lia | exact Hk]). }
  destruct (String.eqb_spec ty "HKQuantityTypeIdentifierActiveEnergyBurned") as [E3|N3].
  { rewrite E3 in B1, B2, B3, B4. simpl in B1, B2, B3, B4. cbn [orb].
    destruct (get elem "value") as [[|c' v]|];
      [| destruct (float_of_string (String c' v)) |];
      unfold counts_cover; simpl; rewrite ?List.filter_app, ?E3; simpl;
      rewrite ?app_nil_r, ?len_app_one, ?E3, B1, B2, B3, B4;
      (refine (conj _ (conj _ (conj _ (conj _ _))));
       [lia | lia | lia | lia | first [exact Hk | apply Fk; reflexivity]]). }
  destruct (String.eqb_spec ty "HKQuantityTypeIdentifierBasalEnergyBurned") as [E4|N4].
  { rewrite E4 in B1, B2, B3, B4. simpl in B1, B2, B3, B4. cbn [orb].
    destruct (get elem "value") as [[|c' v]|];
      [| destruct (float_of_string (String c' v)) |];
      unfold counts_cover; simpl; rewrite ?List.filter_app, ?E4; simpl;
      rewrite ?app_nil_r, ?len_app_one, ?E4, B1, B2, B3, B4;
      (refine (conj _ (conj _ (conj _ (conj _ _))));
       [lia | lia | lia | lia | first [exact Hk | apply Fk; reflexivity]]). }
  simpl in B1, B2, B3, B4.
  unfold counts_cover; simpl. rewrite B1, B2, B3, B4.
  refine (conj _ (conj _ (conj _ (conj _ _)))); [lia | lia | lia | lia | exact Hk].
Qed.

Lemma process_workout_covers (self : HealthDataParser) (elem : Element) :
  counts_cover self -> counts_cover (_process_workout self elem).
Proof.
  intros H. destruct (dated elem) eqn:Hd;
    [|rewrite process_workout_undated by exact Hd; exact H].
  destruct (process_workout_dated self elem Hd) as (E1 & E2 & E3 & E4 & _).
  unfold counts_cover in *. rewrite E1, E2, E3, E4. exact H.
Qed.

Lemma on_event_cases (self : HealthDataParser) (p : event * Element) :
  on_event self p
  = if dated_record p then _process_record self (snd p)
    else if dated_workout p then _process_workout self (snd p)
    else self.
Proof.
  destruct p as [ev elem]. unfold on_event, dated_record, dated_workout. simpl.
  destruct (is_end ev); [|reflexivity]. simpl.
  destruct (String.eqb_spec (tag elem) "Record") as [E|N]; simpl.
  - destruct (dated elem) eqn:Hd; [reflexivity|].
    rewrite process_record_undated by exact Hd. rewrite E. reflexivity.
  - destruct (String.eqb (tag elem) "Workout"); simpl; [|reflexivity].
    destruct (dated elem) eqn:Hd; [reflexivity|].
    apply process_workout_undated. exact Hd.
Qed.

Lemma dated_record_not_workout (p : event * Element) :
  dated_record p = true -> dated_workout p = false.
Proof.
  unfold dated_record, dated_workout. rewrite !andb_true_iff. intros [[_ H] _].
  apply String.eqb_eq in H. rewrite H. rewrite andb_false_r. reflexivity.
Qed.

(** The counts and the lists after a stream, from any analyzer. *)
Lemma parse_counts (export : stream) (self : HealthDataParser) :
  counts_cover self ->
  let self' := parse_xml_streaming self export in
  weight id (stats self')
  = weight id (stats self) + len (List.filter dated_record export)
  /\ len (workouts self') = len (workouts self) + len (List.filter dated_workout export)
  /\ counts_cover self'.
Proof.
  unfold parse_xml_streaming. revert self.
  induction export as [|p export IH]; intros self Hc; simpl.
  - unfold len; simpl. split; [lia|]. split; [lia | exact Hc].
  - assert (Hstep : weight id (stats (on_event self p))
                    = weight id (stats self) + (if dated_record p then 1 else 0)
                    /\ len (workouts (on_event self p))
                       = len (workouts self) + (if dated_workout p then 1 else 0)
                    /\ counts_cover (on_event self p)).
    { rewrite on_event_cases. destruct (dated_record p) eqn:Hr.
      - rewrite (dated_record_not_workout p Hr).
        unfold dated_record in Hr. apply andb_true_iff in Hr as [_ Hd].
        destruct (process_record_stats self (snd p) Hd) as [Es Ew].
        rewrite Es, Ew, bump_weight. split; [lia|]. split; [lia|].
        apply process_record_covers. exact Hc.
      - destruct (dated_workout p) eqn:Hw.
        + unfold dated_workout in Hw. apply andb_true_iff in Hw as [_ Hd].
          destruct (process_workout_dated self (snd p) Hd)
            as (Es & _ & _ & _ & w & Ew & _).
          rewrite Es, Ew, len_app_one. split; [lia|]. split; [lia|].
          apply process_workout_covers. exact Hc.
        + split; [lia|]. split; [lia | exact Hc]. }
    destruct Hstep as (Hs & Hw & Hc').
    destruct (IH (on_event self p) Hc') as (Is & Iw & Ic).
    split; [|split; [|exact Ic]].
    + rewrite Is, Hs. destruct (dated_record p); unfold len; simpl; lia.
    + rewrite Iw, Hw. destruct (dated_workout p); unfold len; simpl; lia.
Qed.


Lemma energy_stats_some (es : list Energy) :
  es <> [] -> exists st, energy_stats es = Ok (Some st).
Proof.
  destruct es as [|e rest]; [congruence|]. intros _.
  unfold energy_stats, truediv. cbn [map].
  rewrite ReporterFacts.len_cons_nonzero. simpl. eauto.
Qed.

Lemma kind_contains (e : Energy) :
  is_active e || is_basal e = true ->
  PyStr.contains "ActiveEnergy" (en_type e) = is_active e
  /\ PyStr.contains "BasalEnergy" (en_type e) = is_basal e.
Proof.
  unfold is_active, is_basal. intros H. apply orb_true_iff in H as [H|H].
  - apply String.eqb_eq in H. rewrite H. split; reflexivity.
  - apply String.eqb_eq in H. rewrite H. split; reflexivity.
Qed.

Lemma filter_kinds (es : list Energy) :
  Forall (fun e => is_active e || is_basal e = true) es ->
  List.filter (fun e => PyStr.contains "ActiveEnergy" (en_type e)) es
  = List.filter is_active es
  /\ List.filter (fun e => PyStr.contains "BasalEnergy" (en_type e)) es
     = List.filter is_basal es.
Proof.
  induction 1 as [|e es He _ [IHa IHb]]; [split; reflexivity|].
  destruct (kind_contains e He) as [Ka Kb]. simpl. rewrite Ka, Kb, IHa, IHb.
  split; reflexivity.
Qed.

(** After any stream every energy entry is of the active or of the basal
    kind; so when entries were collected the energy summary carries
    statistics for at least one kind, for a kind exactly when it has
    entries, and carries the message only when there are none. *)
Theorem energy_summary_kinds :
  forall export : stream,
    let self := parse_xml_streaming init export in
    Forall (fun e => is_active e || is_basal e = true) (energy_data self)
    /\ (energy_data self = [] ->
        _analyze_energy self = Ok (EN_message "No energy data found"))
    /\ (energy_data self <> [] ->
        exists a b, _analyze_energy self = Ok (EN_result a b)
                    /\ (is_Some a \/ is_Some b)
                    /\ (is_Some a <-> List.filter is_active (energy_data self) <> [])
                    /\ (is_Some b <-> List.filter is_basal (energy_data self) <> [])).
Proof.
  intros export self.
  destruct (parse_counts export init counts_cover_init) as (_ & _ & _ & _ & _ & _ & Hk).
  fold self in Hk. split; [exact Hk|]. split.
  - intros H. unfold _analyze_energy. rewrite H. reflexivity.
  - intros Hne. unfold _analyze_energy.
    destruct (filter_kinds _ Hk) as [Fa Fb].
    destruct (energy_data self) as [|e rest] eqn:E; [congruence|].
    rewrite Fa, Fb.
    assert (Hstat : forall l : list Energy,
              exists o, energy_stats l = Ok o /\ (is_Some o <-> l <> [])).
    { intros l. destruct l as [|x l'].
      - exists None. split; [reflexivity|]. split; [intros [? ?]; discriminate | congruence].
      - destruct (energy_stats_some (x :: l') ltac:(discriminate)) as [st ->].
        exists (Some st). split; [reflexivity|]. split; [discriminate | eauto]. }
    destruct (Hstat (List.filter is_active (e :: rest))) as (a & -> & Ha).
    destruct (Hstat (List.filter is_basal (e :: rest))) as (b & -> & Hb).
    exists a, b. simpl. split; [reflexivity|]. split; [|split; assumption].
    apply Forall_inv in Hk. simpl in Ha, Hb.
    destruct (is_active e); simpl in *.
    + left. apply Ha. discriminate.
    + rewrite Hk in Hb. right. apply Hb. discriminate.
Qed.

Lemma zmin_le (rest : list Z) (x : Z) :
  forall y, In y (x :: rest) -> fold_left Z.min rest x <= y.
Proof.
  assert (H : forall rest x, fold_left Z.min rest x <= x
                             /\ forall y, In y rest -> fold_left Z.min rest x <= y).
  { clear. induction rest as [|z rest IH]; intros x; simpl.
    - split; [lia | intros y []].
    - destruct (IH (Z.min x z)) as [H1 H2]. split; [lia|].
      intros y [Hy|Hy]; [subst; lia | apply H2; exact Hy]. }
  destruct (H rest x) as [H1 H2].
  intros y [Hy|Hy]; [subst; exact H1 | apply H2; exact Hy].
Qed.

Lemma zmax_ge (rest : list Z) (x : Z) :
  forall y, In y (x :: rest) -> y <= fold_left Z.max rest x.
Proof.
  assert (H : forall rest x, x <= fold_left Z.max rest x
                             /\ forall y, In y rest -> y <= fold_left Z.max rest x).
  { clear. induction rest as [|z rest IH]; intros x; simpl.
    - split; [lia | intros y []].
    - destruct (IH (Z.max x z)) as [H1 H2]. split; [lia|].
      intros y [Hy|Hy]; [subst; lia | apply H2; exact Hy]. }
  destruct (H rest x) as [H1 H2].
  intros y [Hy|Hy]; [subst; exact H1 | apply H2; exact Hy].
Qed.

Lemma daily_steps_tally (data : list StepDatum) :
  daily_steps_of data = tally (fun step => first_token (sd_date step)) sd_value data ∅.
Proof. reflexivity. Qed.

(** The step summary of a non-empty collection: the total is the sum of
    all collected values; the breakdown holds, for each day that has
    entries and for no other, the sum of that day's values; the number of
    days is the number of those days; and every daily total lies between
    the reported minimum and maximum. *)
Theorem step_summary_totals :
  forall (self : HealthDataParser) (r : StepSummary),
    step_data self <> [] ->
    _analyze_steps self = Ok r ->
    exists total_days total_steps average_daily max_daily min_daily daily,
      r = ST_stats total_days total_steps average_daily max_daily min_daily daily
      /\ total_steps = zsum (map sd_value (step_data self))
      /\ total_days = Z.of_nat (size daily)
      /\ 1 <= total_days <= len (step_data self)
      /\ (forall day, held daily day = zsum (map sd_value (on_day day (step_data self))))
      /\ (forall day, is_Some (daily !! day)
                      <-> exists step, In step (step_data self)
                                       /\ first_token (sd_date step) = day)
      /\ (forall day t, daily !! day = Some t -> min_daily <= t <= max_daily)
      /\ int_truediv total_steps total_days = Some average_daily.
Proof.
  intros self r Hne Hr. unfold _analyze_steps in Hr.
  destruct (step_data self) as [|d0 rest] eqn:E; [congruence|]. clear Hne.
  set (data := d0 :: rest) in *.
  set (daily := daily_steps_of data) in *.
  assert (Hsize : len (dict_values daily) = Z.of_nat (size daily)).
  { unfold len. f_equal. apply (values_of_length daily). }
  assert (Hpos : (1 <= size daily)%nat).
  { destruct (size daily) eqn:S0; [|lia]. apply map_size_empty_iff in S0.
    exfalso. revert S0. apply ReporterFacts.daily_steps_nonempty. discriminate. }
  destruct (dict_values daily) as [|v vs] eqn:Ev.
  { unfold len in Hsize. simpl in Hsize. lia. }
  unfold int_div in Hr. rewrite ReporterFacts.len_cons_nonzero in Hr.
  destruct (int_truediv (zsum (v :: vs)) (len (v :: vs))) as [avg|] eqn:Ediv;
    [|discriminate].
  simpl in Hr. injection Hr as <-.
  assert (Hsum : zsum (v :: vs) = zsum (map sd_value data)).
  { rewrite <- Ev, dict_values_weight. unfold daily. rewrite daily_steps_tally.
    rewrite tally_weight, weight_empty. lia. }
  exists (Z.of_nat (size daily)), (zsum (v :: vs)), avg,
    (fold_left Z.max vs v), (fold_left Z.min vs v), daily.
  split; [reflexivity|]. split; [exact Hsum|]. split; [reflexivity|].
  split; [|split; [|split; [|split]]].
  - split; [lia|]. unfold len. apply inj_le. unfold daily. rewrite daily_steps_tally.
    apply tally_size.
  - intros day. unfold daily. rewrite daily_steps_tally, tally_held.
    unfold held. rewrite lookup_empty. reflexivity.
  - intros day. unfold daily. rewrite daily_steps_tally, tally_keys. split.
    + intros [H|H]; [rewrite lookup_empty in H; destruct H; discriminate | exact H].
    + intros H. right. exact H.
  - intros day t Ht.
    assert (Hin : In t (v :: vs)).
    { rewrite <- Ev. apply (values_of_In daily). exists day. exact Ht. }
    split; [apply zmin_le | apply zmax_ge]; exact Hin.
  - rewrite Hsize in Ediv. exact Ediv.
Qed.

Lemma fold_pick_In {A} (better : A -> A -> bool) (rest : list A) (x : A) :
  In (fold_left (fun m y => if better y m then y else m) rest x) (x :: rest).
Proof.
  revert x. induction rest as [|z rest IH]; intros x; simpl; [auto|].
  destruct (IH (if better z x then z else x)) as [H|H].
  - destruct (better z x); rewrite <- H; auto.
  - right. right. exact H.
Qed.

Lemma last_n_suffix {A} (n : nat) (l : list A) :
  (exists pre, l = pre ++ last_n n l) /\ length (last_n n l) = Nat.min n (length l).
Proof.
  unfold last_n. split.
  - exists (firstn (length l - n) l). symmetry. apply firstn_skipn.
  - rewrite length_skipn. lia.
Qed.

(** The heart-rate summary of a non-empty collection counts every reading,
    reports as minimum and maximum two readings that occur, and lists the
    last ten readings (all of them when there are fewer) in order. *)
Theorem heart_rate_summary_readings :
  forall self : HealthDataParser,
    heart_rate_data self <> [] ->
    let data := heart_rate_data self in
    let values := map hr_value data in
    exists mn mx,
      _analyze_heart_rate self
      = Ok (HR_stats (len data) (fdiv_int (fsum values) (len data)) mn mx (last_n 10 data))
      /\ In mn values /\ In mx values
      /\ (exists pre, data = pre ++ last_n 10 data)
      /\ length (last_n 10 data) = Nat.min 10 (length data).
Proof.
  intros self Hne data values. unfold _analyze_heart_rate.
  subst values data. destruct (heart_rate_data self) as [|h rest] eqn:E; [congruence|].
  assert (Hlen : len (map hr_value (h :: rest)) = len (h :: rest))
    by (unfold len; rewrite length_map; reflexivity).
  rewrite Hlen. unfold truediv. rewrite ReporterFacts.len_cons_nonzero.
  cbn [map fmin fmax rbind].
  eexists _, _. split; [reflexivity|]. split; [|split; [|apply last_n_suffix]].
  - apply (fold_pick_In (fun y m => flt y m)).
  - apply (fold_pick_In (fun y m => flt m y)).
Qed.

Lemma count_types_tally (ws : list WorkoutInfo) :
  count_types ws = tally wi_type (fun _ => 1) ws ∅.
Proof. reflexivity. Qed.

Lemma zsum_ones {A} (l : list A) : zsum (map (fun _ => 1) l) = len l.
Proof.
  unfold len. induction l as [|x l IH]; [reflexivity|].
  cbn [map]. rewrite zsum_cons, IH. simpl length. lia.
Qed.

(** The workout summary of a non-empty list: the counts by type add up to
    the number of workouts; each type that occurs, and no other, holds the
    number of workouts of that type; and the recent workouts are the last
    five (all of them when there are fewer) in order. *)
Theorem workout_summary_counts :
  forall self : HealthDataParser,
    workouts self <> [] ->
    let ws := workouts self in
    exists total average,
      _analyze_workouts self
      = Ok (WK_stats (len ws) (count_types ws) total average (last_n 5 ws))
      /\ zsum (dict_values (count_types ws)) = len ws
      /\ (forall ty, held (count_types ws) ty = len (of_workout_type ty ws))
      /\ (forall ty, is_Some (count_types ws !! ty)
                     <-> exists w, In w ws /\ wi_type w = ty)
      /\ (exists pre, ws = pre ++ last_n 5 ws)
      /\ length (last_n 5 ws) = Nat.min 5 (length ws).
Proof.
  intros self Hne ws. eexists _, _.
  split; [apply (ReporterFacts.workouts_report self Hne)|].
  split; [|split; [|split; [|apply last_n_suffix]]].
  - rewrite dict_values_weight, count_types_tally, tally_weight, weight_empty, zsum_ones. lia.
  - intros ty. rewrite count_types_tally, tally_held. unfold held at 1.
    rewrite lookup_empty. unfold of_workout_type. simpl. apply zsum_ones.
  - intros ty. rewrite count_types_tally, tally_keys. split.
    + intros [H|H]; [rewrite lookup_empty in H; destruct H; discriminate | exact H].
    + intros H. right. exact H.
Qed.

End WithFloat.


(** The sample export holds seven dated records and three dated workouts;
    the energy export counts two records and collects one value. *)
Example sample_record_counts :
  len (List.filter dated_record Samples.export) = 7
  /\ len (List.filter dated_workout Samples.export) = 3
  /\ len (List.filter dated_record MoreSamples.energy_export) = 2
  /\ len (energy_data (parse_xml_streaming (PF := Fixed.ops) init
                                           MoreSamples.energy_export)) = 1.
Proof. vm_compute. auto. Qed.

Lemma energy_summary_kinds_witness :
  let self := parse_xml_streaming (PF := Fixed.ops) init MoreSamples.energy_export in
  energy_data self <> []
  /\ exists a b, _analyze_energy self = Ok (EN_result a b)
                 /\ (is_Some a \/ is_Some b)
                 /\ (is_Some a <-> List.filter is_active (energy_data self) <> [])
                 /\ (is_Some b <-> List.filter is_basal (energy_data self) <> []).
Proof.
  intros self.
  assert (Hne : energy_data self <> [])
    by (apply len_nonzero_nonempty; vm_compute; discriminate).
  split; [exact Hne|].
  destruct (energy_summary_kinds (PF := Fixed.ops) MoreSamples.energy_export)
    as (_ & _ & H).
  exact (H Hne).
Defined.

Lemma step_summary_totals_witness :
  let self := parse_xml_streaming (PF := Fixed.ops) init Samples.export in
  step_data self <> []
  /\ forall r, _analyze_steps self = Ok r ->
               exists total_days total_steps average_daily max_daily min_daily daily,
                 r = ST_stats total_days total_steps average_daily max_daily min_daily daily
                 /\ total_steps = 1207.
Proof.
  intros self.
  assert (Hne : step_data self <> [])
    by (apply len_nonzero_nonempty; vm_compute; discriminate).
  split; [exact Hne|]. intros r Hr.
  destruct (step_summary_totals self r Hne Hr)
    as (days & total & avg & mx & mn & daily & -> & Ht & _).
  exists days, total, avg, mx, mn, daily. split; [reflexivity|].
  rewrite Ht. vm_compute. reflexivity.
Defined.

Lemma heart_rate_summary_readings_witness :
  let self := parse_xml_streaming (PF := Fixed.ops) init Samples.export in
  heart_rate_data self <> []
  /\ exists mn mx avg recent,
       _analyze_heart_rate self = Ok (HR_stats 1 avg mn mx recent)
       /\ In mn (map hr_value (heart_rate_data self)).
Proof.
  intros self.
  assert (Hne : heart_rate_data self <> [])
    by (apply len_nonzero_nonempty; vm_compute; discriminate).
  split; [exact Hne|].
  destruct (heart_rate_summary_readings self Hne) as (mn & mx & Hr & Hmn & _).
  exists mn, mx. eexists _, _. split; [|exact Hmn].
  rewrite Hr. replace (len (heart_rate_data self)) with 1 by (vm_compute; reflexivity).
  reflexivity.
Defined.

Lemma workout_summary_counts_witness :
  let self := parse_xml_streaming (PF := Fixed.ops) init Samples.export in
  workouts self <> []
  /\ zsum (dict_values (count_types (workouts self))) = 3
  /\ held (count_types (workouts self)) "HKWorkoutActivityTypeCycling" = 1.
Proof.
  intros self.
  assert (Hne : workouts self <> [])
    by (apply len_nonzero_nonempty; vm_compute; discriminate).
  split; [exact Hne|].
  destruct (workout_summary_counts self Hne) as (_ & _ & _ & Hsum & Hheld & _).
  split.
  - rewrite Hsum. vm_compute. reflexivity.
  - rewrite Hheld. vm_compute. reflexivity.
Defined.

End HealthExtFacts.

(** ** More on the route analyzer *)

Module GPXExtFacts.

Import PyNum GPX GPXExt Dict DictFacts.









Section Batch.
Context {PF : PyFloat} {PY : Interpreter}.
Variable fs : FileSystem.




End Batch.

Section Summary.
Context {PF : PyFloat} {PY : Interpreter}.

Lemma add_route_weight (monthly : gmap string MonthStats) (r : RouteInfo) :
  weight ms_routes (add_route monthly r) = weight ms_routes monthly + 1.
Proof.
  unfold add_route. rewrite weight_insert.
  destruct (monthly !! PyStr.take 7 (date r)); simpl; lia.
Qed.

Lemma add_route_count (monthly : gmap string MonthStats) (r : RouteInfo) (m : string) :
  default 0 (ms_routes <$> add_route monthly r !! m)
  = default 0 (ms_routes <$> monthly !! m)
    + (if String.eqb (PyStr.take 7 (date r)) m then 1 else 0).
Proof.
  unfold add_route. destruct (String.eqb_spec (PyStr.take 7 (date r)) m) as [->|Hne].
  - rewrite lookup_insert_eq. simpl. destruct (monthly !! m); simpl; lia.
  - rewrite lookup_insert_ne by exact Hne. lia.
Qed.

Lemma add_route_key (monthly : gmap string MonthStats) (r : RouteInfo) (m : string) :
  is_Some (add_route monthly r !! m)
  <-> is_Some (monthly !! m) \/ PyStr.take 7 (date r) = m.
Proof.
  unfold add_route. destruct (String.eqb_spec (PyStr.take 7 (date r)) m) as [->|Hne].
  - rewrite lookup_insert_eq. split; [intros _; right; reflexivity | intros _; eauto].
  - rewrite lookup_insert_ne by exact Hne. split; [auto | intros [H|H]; [exact H | congruence]].
Qed.

Lemma monthly_fold (rs : list RouteInfo) (monthly : gmap string MonthStats) :
  weight ms_routes (fold_left add_route rs monthly) = weight ms_routes monthly + len rs
  /\ forall m,
       default 0 (ms_routes <$> fold_left add_route rs monthly !! m)
       = default 0 (ms_routes <$> monthly !! m) + len (in_month m rs)
       /\ (is_Some (fold_left add_route rs monthly !! m)
           <-> is_Some (monthly !! m) \/ in_month m rs <> []).
Proof.
  revert monthly. induction rs as [|r rs IH]; intros monthly.
  - simpl. unfold len; simpl. split; [lia | intros m; split; [lia | tauto]].
  - cbn [fold_left]. destruct (IH (add_route monthly r)) as [Iw Ic]. split.
    + rewrite Iw, add_route_weight. unfold len. simpl length. lia.
    + intros m. destruct (Ic m) as [In Ik]. split.
      * rewrite In, add_route_count. unfold in_month. cbn [List.filter].
        destruct (String.eqb (PyStr.take 7 (date r)) m); unfold len; simpl length; lia.
      * rewrite Ik, add_route_key. unfold in_month. cbn [List.filter].
        destruct (String.eqb_spec (PyStr.take 7 (date r)) m) as [Heq|Hne].
        -- split; [intros _; right; discriminate | intros _; left; right; exact Heq].
        -- split; [intros [[H|H]|H]; [left; exact H | contradiction | right; exact H]
                  | intros [H|H]; [left; left; exact H | right; exact H]].
Qed.

(** The summary of a non-empty list of routes is the dict of totals, never
    a division by zero.  In its monthly breakdown the route counts add up
    to the total number of routes, each month holds the number of routes
    whose date begins with it, and a month is listed exactly when some
    route falls in it. *)
Theorem monthly_counts_add_up :
  forall self : GPXAnalyzer,
    routes self <> [] ->
    exists s,
      generate_summary self = Ok (GS_stats s)
      /\ total_routes s = len (routes self)
      /\ weight ms_routes (monthly_breakdown s) = total_routes s
      /\ (forall m, default 0 (ms_routes <$> monthly_breakdown s !! m)
                    = len (in_month m (routes self)))
      /\ (forall m, is_Some (monthly_breakdown s !! m)
                    <-> in_month m (routes self) <> []).
Proof.
  intros self Hne. unfold generate_summary.
  destruct (routes self) as [|r rs] eqn:E; [congruence|].
  unfold truediv. rewrite ReporterFacts.len_cons_nonzero. cbn [rbind].
  eexists. split; [reflexivity|]. cbn [total_routes monthly_breakdown].
  destruct (monthly_fold (r :: rs) ∅) as [Hw Hc].
  rewrite weight_empty in Hw.
  split; [reflexivity|]. split; [rewrite Hw; lia|]. split.
  - intros m. destruct (Hc m) as [Hn _]. rewrite Hn, lookup_empty. simpl. lia.
  - intros m. destruct (Hc m) as [_ Hk]. rewrite Hk, lookup_empty.
    split; [intros [[x Hx]|H]; [discriminate | exact H] | auto].
Qed.

End Summary.

Section Distance.
Context {PF : PyFloat}.

Lemma distance_loop_snoc (points : list TrackPoint) (p q : TrackPoint) (acc : float) :
  last points = Some q ->
  distance_loop (points ++ [p]) acc
  = (total_distance <-- distance_loop points acc ;; add_leg q p total_distance).
Proof.
  unfold add_leg. revert acc. induction points as [|a [|b rest] IH]; intros acc Hq.
  - discriminate.
  - injection Hq as ->. cbn [app distance_loop rbind].
    destruct (haversine_km (lat q) (lon q) (lat p) (lon p)); reflexivity.
  - cbn [app distance_loop].
    destruct (haversine_km (lat a) (lon a) (lat b) (lon b)) as [leg|]; [|reflexivity].
    apply (IH (fadd acc leg)). exact Hq.
Qed.

Lemma distance_loop_raises (points : list TrackPoint) (acc : float) (e : exn) :
  distance_loop points acc = Raise e -> e = ValueError.
Proof.
  revert acc. induction points as [|a [|b rest] IH]; intros acc; try discriminate.
  cbn [distance_loop].
  destruct (haversine_km (lat a) (lon a) (lat b) (lon b)) as [leg|].
  - apply IH.
  - intros H. injection H as <-. reflexivity.
Qed.

(** One more point at the end of a route adds one leg to its distance:
    the great-circle distance from the point that was last, added after
    all the others.  When the formula fails on a leg, on this one or on an
    earlier one, the distance is the [ValueError] and nothing else; a
    route of fewer than two points has the distance zero. *)
Theorem distance_adds_last_leg :
  forall (points : list TrackPoint) (p q : TrackPoint),
    last points = Some q ->
    _calculate_distance (points ++ [p])
    = (total_distance <-- _calculate_distance points ;; add_leg q p total_distance)
    /\ (forall e, _calculate_distance (points ++ [p]) = Raise e -> e = ValueError)
    /\ _calculate_distance [q] = Ok fzero.
Proof.
  intros points p q Hq. split; [|split; [|reflexivity]].
  - destruct points as [|a [|b rest]].
    + discriminate.
    + injection Hq as ->. unfold add_leg.
      change (_calculate_distance [q]) with (Ok (A := float) fzero).
      change (_calculate_distance ([q] ++ [p])) with (distance_loop [q; p] fzero).
      cbn [distance_loop rbind].
      destruct (haversine_km (lat q) (lon q) (lat p) (lon p)); reflexivity.
    + unfold _calculate_distance.
      replace (len ((a :: b :: rest) ++ [p]) <? 2) with false
        by (symmetry; apply Z.ltb_ge; unfold len; rewrite length_app; simpl length; lia).
      replace (len (a :: b :: rest) <? 2) with false
        by (symmetry; apply Z.ltb_ge; unfold len; simpl length; lia).
      apply distance_loop_snoc. exact Hq.
  - intros e. unfold _calculate_distance.
    destruct (len (points ++ [p]) <? 2); [discriminate | apply distance_loop_raises].
Qed.

End Distance.

Lemma distance_adds_last_leg_witness :
  last [MoreSamples.walk_start] = Some MoreSamples.walk_start
  /\ _calculate_distance ([MoreSamples.walk_start] ++ [MoreSamples.walk_end])
     = Ok 1108554.
Proof.
  split; [reflexivity|].
  destruct (distance_adds_last_leg (PF := Fixed.ops) [MoreSamples.walk_start]
              MoreSamples.walk_end MoreSamples.walk_start eq_refl) as [H _].
  rewrite H. reflexivity.
Defined.

Lemma duration_when_comparable_witness :
  _calculate_duration (PY := before_3_11) Samples.short_walk
  = Ok (@minutes_of_timedelta Fixed.ops 1800000000).
Proof.
  destruct (GPXFacts.duration_when_comparable (PF := Fixed.ops) (PY := before_3_11)
              FixedFacts.laws Samples.short_walk) as (_ & _ & _ & H).
  exact (H "2025-05-10T15:09:00Z" "2025-05-10T15:39:00Z" _ _
           (le_n 2) eq_refl eq_refl eq_refl eq_refl).
Defined.



Lemma monthly_counts_add_up_witness :
  let self := analyze_gpx_files (PY := before_3_11) Samples.route_fs
                                (init "workout-routes") in
  routes self <> []
  /\ exists s : @RouteStats Fixed.ops,
       generate_summary self = Ok (GS_stats s)
       /\ weight (@ms_routes Fixed.ops) (monthly_breakdown s) = 1
       /\ default 0 (@ms_routes Fixed.ops <$> monthly_breakdown s !! "2025-05") = 1.
Proof.
  intros self.
  assert (Hne : routes self <> [])
    by (apply HealthExtFacts.len_nonzero_nonempty; vm_compute; discriminate).
  split; [exact Hne|].
  destruct (monthly_counts_add_up self Hne) as (s & Hs & Ht & Hw & Hm & _).
  exists s. split; [exact Hs|]. split.
  - rewrite Hw, Ht. vm_compute. reflexivity.
  - rewrite Hm. vm_compute. reflexivity.
Defined.

End GPXExtFacts.

(** ** Documents and the loop over them *)

Module TreeFacts.

Import Xml Tree.

Lemma Node_induction (P : Node -> Prop) :
  (forall t a x cs, Forall P cs -> P (mk_node t a x cs)) -> forall n, P n.
Proof.
  intros H. fix IH 1. intros [t a x cs]. apply H.
  induction cs as [|c cs IHcs]; constructor; [apply IH | exact IHcs].
Qed.

Lemma findall_node (tag t : string) (a : gmap string string) (x : option string) (cs : list Node) :
  findall tag (mk_node t a x cs)
  = flat_map (fun c => (if String.eqb (node_tag c) tag then [c] else []) ++ findall tag c)
             cs.
Proof.
  unfold findall. cbn [descendants].
  induction cs as [|c cs IH]; [reflexivity|].
  cbn [flat_map]. rewrite List.filter_app. cbn [List.filter]. rewrite IH.
  destruct (String.eqb (node_tag c) tag); reflexivity.
Qed.

Lemma findall_cleared (tag : string) (n : Node) : cleared n -> findall tag n = [].
Proof. destruct n as [t a x cs]. intros (_ & _ & Hc). simpl in Hc. subst cs. reflexivity. Qed.

Lemma clear_cleared (n : Node) : cleared (clear n).
Proof. repeat split; reflexivity. Qed.


Section Loop.
Context {S : Type} (body : S -> Node -> S * Node).

Lemma turn_eq (s : S) (acc : list Node) (c : Node) :
  turn body (s, acc) c
  = (fst (iterparse_loop body c s), acc ++ [snd (iterparse_loop body c s)]).
Proof. reflexivity. Qed.

Lemma loop_node (t : string) (a : gmap string string) (x : option string) (cs : list Node) (s : S) :
  iterparse_loop body (mk_node t a x cs) s
  = body (fst (fold_left (turn body) cs (s, [])))
         (mk_node t a x (snd (fold_left (turn body) cs (s, [])))).
Proof. reflexivity. Qed.

End Loop.

End TreeFacts.

(** ** The health analyzer on documents *)

Module HealthTreeFacts.

Import Xml Tree TreeFacts PyNum Health HealthTree.

Section WithFloat.
Context {PF : PyFloat}.

Lemma process_workout_base (self : Parser) (elem : Node) :
  base (HealthTree._process_workout self elem)
  = Health._process_workout (base self) (elem_of elem).
Proof.
  unfold HealthTree._process_workout, Health._process_workout.
  destruct (get (elem_of elem) "startDate") as [[|c s]|]; try reflexivity.
  destruct (DT.strptime_date (first_token (String c s))) as [d|]; [|reflexivity].
  destruct (DT.naive_ge d start_date); reflexivity.
Qed.

Lemma body_base (self : Parser) (elem : Node) :
  base (fst (body self elem)) = on_event (base self) (ev_end, elem_of elem).
Proof.
  unfold body, on_event. cbn [fst is_end tag elem_of].
  destruct (String.eqb (node_tag elem) "Record"); [reflexivity|].
  destruct (String.eqb (node_tag elem) "Workout"); [apply process_workout_base | reflexivity].
Qed.

(** The loop over a document leaves the parser that the loop over the
    document's stream of events leaves: what the elements hold below them
    has no part in the lists and counts. *)
Theorem document_as_stream :
  forall (self : Parser) (root : Node),
    base (parse_document self root) = parse_xml_streaming (base self) (events root).
Proof.
  intros self root. unfold parse_document, parse_xml_streaming. revert self.
  induction root as [t a x cs IH] using Node_induction. intros self.
  rewrite loop_node, body_base. cbn [events elem_of node_tag node_attrib fold_left].
  change (on_event (base self) (ev_start, mk_elem t a)) with (base self).
  rewrite fold_left_app. cbn [fold_left]. f_equal.
  generalize (@nil Node). revert self.
  induction IH as [|c cs Hc _ IHcs]; intros self acc; [reflexivity|].
  cbn [fold_left flat_map]. rewrite turn_eq, fold_left_app, IHcs, Hc. reflexivity.
Qed.

Lemma statistics_of_cleared (t : string) (a : gmap string string) (x : option string) (cs : list Node) :
  Forall cleared cs -> statistics_of (mk_node t a x cs) = ∅.
Proof.
  intros H. unfold statistics_of. rewrite findall_node. generalize (∅ : gmap string Statistic).
  induction H as [|c cs Hc _ IH]; intros stats; [reflexivity|].
  cbn [flat_map]. rewrite !fold_left_app, IH, (findall_cleared _ c Hc). cbn [fold_left].
  destruct (String.eqb (node_tag c) "WorkoutStatistics"); [|reflexivity].
  cbn [fold_left]. unfold add_statistic, get, elem_of. cbn [attrib].
  destruct Hc as [-> _]. rewrite lookup_empty. reflexivity.
Qed.

Lemma process_record_workouts (self : HealthDataParser) (elem : Element) :
  workouts (_process_record self elem) = workouts self.
Proof.
  destruct (HealthExt.dated elem) eqn:Hd.
  - apply (HealthExtFacts.process_record_stats self elem Hd).
  - rewrite (HealthExtFacts.process_record_undated self elem Hd). reflexivity.
Qed.

Lemma body_keeps (self : Parser) (elem : Node) :
  Forall cleared (children elem) -> statistics_empty self ->
  statistics_empty (fst (body self elem)).
Proof.
  intros Hc [Hl He]. unfold body. cbn [fst].
  destruct (String.eqb (node_tag elem) "Record").
  { split; cbn [statistics base]; [rewrite process_record_workouts; exact Hl | exact He]. }
  destruct (String.eqb (node_tag elem) "Workout"); [|split; assumption].
  unfold HealthTree._process_workout.
  destruct (get (elem_of elem) "startDate") as [[|c s]|]; try (split; assumption).
  destruct (DT.strptime_date (first_token (String c s))) as [d|]; [|split; assumption].
  destruct (DT.naive_ge d start_date); [|split; assumption].
  split; cbn [statistics base workouts].
  - rewrite !length_app, Hl. reflexivity.
  - apply Forall_app. split; [exact He|]. constructor; [|constructor].
    destruct elem as [t a x cs]. apply statistics_of_cleared. exact Hc.
Qed.

Lemma loop_keeps (n : Node) :
  forall self, statistics_empty self ->
               statistics_empty (fst (iterparse_loop body n self))
               /\ cleared (snd (iterparse_loop body n self)).
Proof.
  induction n as [t a x cs IH] using Node_induction. intros self Hs.
  rewrite loop_node. split; [|apply clear_cleared].
  assert (Hcs : forall self acc, statistics_empty self -> Forall cleared acc ->
                  statistics_empty (fst (fold_left (turn body) cs (self, acc)))
                  /\ Forall cleared (snd (fold_left (turn body) cs (self, acc)))).
  { clear self Hs. induction IH as [|c cs Hc _ IHcs]; intros self acc Hs Ha.
    - split; assumption.
    - cbn [fold_left]. rewrite turn_eq. destruct (Hc self Hs) as [H1 H2].
      apply IHcs; [exact H1|]. apply Forall_app. split; [exact Ha|].
      constructor; [exact H2 | constructor]. }
  destruct (Hcs self [] Hs (List.Forall_nil _)) as [H1 H2].
  apply body_keeps; [exact H2 | exact H1].
Qed.

(** Whatever the document holds, every workout is stored with an empty
    ['statistics'] dict: the statistics elements below a workout have
    been cleared, each at its own 'end' event, before the workout's 'end'
    event reads them. *)
Theorem workout_statistics_always_empty :
  forall root : Node,
    let self := parse_document (mk_tree_parser init []) root in
    length (statistics self) = length (workouts (base self))
    /\ Forall (fun stats => stats = ∅) (statistics self).
Proof.
  intros root. apply (loop_keeps root (mk_tree_parser init [])).
  split; [reflexivity | constructor].
Qed.

End WithFloat.

(** The sample document: the ride read on its own has a cycling distance,
    and the two programs differ on it (see below for the distances). *)
Example sample_ride_statistics :
  st_sum <$> statistics_of TreeSamples.ride !! "HKQuantityTypeIdentifierDistanceCycling"
  = Some (Some "12.5")
  /\ len (workouts (base (parse_document (PF := Fixed.ops) (mk_tree_parser init [])
                                          TreeSamples.document))) = 3.
Proof. vm_compute. auto. Qed.

End HealthTreeFacts.

(** ** The workout distances *)

Module WorkoutDistancesFacts.

Import Xml Tree TreeFacts PyNum WorkoutDistances.

Section WithFloat.
Context {PF : PyFloat}.






(** A statistics element of a distance type whose sum does not read ends
    the loop over the workout's statistics: those after it are not
    counted, and what was added before it stays. *)
Theorem unreadable_sum_ends_workout :
  forall (workout_type : string) (before after : list Node) (bad : Node) (d : Distances),
    is_distance bad = true ->
    sum_of bad = None ->
    add_statistics workout_type (before ++ bad :: after) d
    = add_statistics workout_type before d.
Proof.
  intros wt before after bad d Hb Hs. revert d.
  induction before as [|s before IH]; intros d.
  - unfold is_distance in Hb. cbn [app add_statistics]. cbv zeta. rewrite Hs.
    destruct (is_type _ "HKQuantityTypeIdentifierDistanceCycling"); [reflexivity|].
    destruct (is_type _ "HKQuantityTypeIdentifierDistanceSkatingSports"); [reflexivity|].
    destruct (is_type _ "HKQuantityTypeIdentifierDistanceWalkingRunning");
      [reflexivity | discriminate].
  - cbn [app add_statistics]. cbv zeta.
    repeat (destruct (is_type _ _); [destruct (sum_of s); [|reflexivity]|]);
      try destruct (PyStr.contains "Running" wt); apply IH.
Qed.

(** The distance on foot of one workout goes to one side only: to running
    when the workout's type contains 'Running', to walking otherwise; the
    other side is as it was. *)
Theorem walking_or_running :
  forall (workout_type : string) (stat_elems : list Node) (d : Distances),
    if PyStr.contains "Running" workout_type
    then walking (add_statistics workout_type stat_elems d) = walking d
    else running (add_statistics workout_type stat_elems d) = running d.
Proof.
  intros wt stats. destruct (PyStr.contains "Running" wt) eqn:E;
    induction stats as [|s stats IH]; intros d; try reflexivity;
    cbn [add_statistics]; cbv zeta; rewrite ?E;
    repeat (destruct (is_type _ _); [destruct (sum_of s); [|reflexivity]|]);
    try (rewrite IH; reflexivity); reflexivity.
Qed.

End WithFloat.


Lemma unreadable_sum_ends_workout_witness :
  add_statistics (PF := Fixed.ops) "HKWorkoutActivityTypeCycling"
    ([TreeSamples.cycled] ++ TreeSamples.garbled :: [TreeSamples.skated]) no_distances
  = add_statistics (PF := Fixed.ops) "HKWorkoutActivityTypeCycling" [TreeSamples.cycled]
                   no_distances.
Proof.
  apply (unreadable_sum_ends_workout (PF := Fixed.ops)); vm_compute; reflexivity.
Defined.

End WorkoutDistancesFacts.

(** ** Route files as documents *)

Module GPXTreeFacts.

Import Xml Tree TreeFacts PyNum GPX GPXTree.

Section WithFloat.
Context {PF : PyFloat} {PY : Interpreter}.

Lemma read_points_ok (trkpts : list Node) (points : list TrackPoint) :
  read_points trkpts = Ok points
  <-> Forall2 (fun trkpt point => point_of trkpt = Ok point) trkpts points.
Proof.
  revert points. induction trkpts as [|t ts IH]; intros points; cbn [read_points].
  - split.
    + intros H. injection H as <-. constructor.
    + intros H. inversion H. reflexivity.
  - destruct (point_of t) as [p|e] eqn:Hp; cbn [rbind].
    + destruct (read_points ts) as [ps|e] eqn:Hps; cbn [rbind].
      * split.
        -- intros H. injection H as <-. constructor; [exact Hp | apply IH; reflexivity].
        -- intros H. inversion H as [|? ? ? ? H1 H2]; subst.
           rewrite Hp in H1. injection H1 as <-.
           apply IH in H2. injection H2 as <-. reflexivity.
      * split; [discriminate|].
        intros H. inversion H as [|? ? ? ? H1 H2]; subst. apply IH in H2. discriminate.
    + split; [discriminate|].
      intros H. inversion H as [|? ? ? ? H1 H2]; subst. rewrite Hp in H1. discriminate.
Qed.

Lemma read_points_raise (trkpts : list Node) (e : exn) :
  read_points trkpts = Raise e
  <-> exists before bad after,
        trkpts = before ++ bad :: after
        /\ Forall (fun trkpt => exists point, point_of trkpt = Ok point) before
        /\ point_of bad = Raise e.
Proof.
  induction trkpts as [|t ts IH]; cbn [read_points].
  - split; [discriminate|]. intros (before & bad & after & H & _).
    destruct before; discriminate.
  - destruct (point_of t) as [p|e0] eqn:Hp; cbn [rbind].
    + destruct (read_points ts) as [ps|e1] eqn:Hps; cbn [rbind].
      * split; [discriminate|].
        intros (before & bad & after & H & Hb & Hbad).
        destruct before as [|b before]; simpl in H; injection H as -> ->.
        -- rewrite Hp in Hbad. discriminate.
        -- apply Forall_cons in Hb as [_ Hb].
           assert (Hr : Ok ps = Raise e) by (apply IH; eauto 6). discriminate.
      * split.
        -- intros H. injection H as ->.
           destruct (proj1 IH eq_refl) as (before & bad & after & -> & Hb & Hbad).
           exists (t :: before), bad, after. split; [reflexivity|].
           split; [constructor; eauto | exact Hbad].
        -- intros (before & bad & after & H & Hb & Hbad).
           destruct before as [|b before]; simpl in H; injection H as -> ->.
           ++ rewrite Hp in Hbad. discriminate.
           ++ apply Forall_cons in Hb as [_ Hb]. apply IH. eauto 6.
    + split.
      * intros H. injection H as ->. exists [], t, ts. auto.
      * intros (before & bad & after & H & Hb & Hbad).
        destruct before as [|b before]; simpl in H; injection H as -> ->.
        -- rewrite Hp in Hbad. injection Hbad as ->. reflexivity.
        -- apply Forall_cons in Hb as [[p Hb] _]. rewrite Hp in Hb. discriminate.
Qed.

(** The track points of a document are read from its [trkpt] elements of
    the GPX 1.1 namespace, one each, in document order; the first element
    that does not read raises, and no point is returned then. *)
Theorem track_points_read :
  forall root : Node,
    (forall points,
        track_points_of root = Ok points
        <-> Forall2 (fun trkpt point => point_of trkpt = Ok point)
                    (findall (gpx "trkpt") root) points)
    /\ (forall e,
           track_points_of root = Raise e
           <-> exists before bad after,
                 findall (gpx "trkpt") root = before ++ bad :: after
                 /\ Forall (fun trkpt => exists point, point_of trkpt = Ok point) before
                 /\ point_of bad = Raise e).
Proof.
  intros root. split.
  - intros points. apply read_points_ok.
  - intros e. apply read_points_raise.
Qed.

Variable names : option (list string).
Variable parse : string -> result Node.

(** A document without a [trkpt] element of the GPX 1.1 namespace gives no
    route, and no line is printed for it. *)
Theorem no_track_points_no_route :
  forall (self : GPXAnalyzer) (file_path filename : string) (route_date : DT.naive)
         (root : Node),
    parse file_path = Ok root ->
    none_inside (gpx "trkpt") root ->
    _analyze_single_gpx (fs_of names parse) self file_path filename route_date
    = (mk_analyzer (gpx_dir self) (routes self) (opened self ++ [file_path])
                   (printed self), None).
Proof.
  intros self file_path filename route_date root Hp Hn.
  unfold _analyze_single_gpx, fs_of. cbn [read_track_points]. rewrite Hp. cbn [rbind].
  unfold track_points_of. unfold none_inside in Hn. rewrite Hn. reflexivity.
Qed.

(** One [trkpt] element that does not read loses the whole route: the
    file gives no route, and the error is printed. *)
Theorem unreadable_point_drops_route :
  forall (self : GPXAnalyzer) (file_path filename : string) (route_date : DT.naive)
         (root : Node) (before after : list Node) (bad : Node) (e : exn),
    parse file_path = Ok root ->
    findall (gpx "trkpt") root = before ++ bad :: after ->
    Forall (fun trkpt => exists point, point_of trkpt = Ok point) before ->
    point_of bad = Raise e ->
    _analyze_single_gpx (fs_of names parse) self file_path filename route_date
    = (mk_analyzer (gpx_dir self) (routes self) (opened self ++ [file_path])
                   (printed self ++ [Error_analyzing filename e]), None).
Proof.
  intros self file_path filename route_date root before after bad e Hp Hf Hb Hbad.
  unfold _analyze_single_gpx, fs_of. cbn [read_track_points]. rewrite Hp. cbn [rbind].
  assert (Hr : track_points_of root = Raise e).
  { apply read_points_raise. exists before, bad, after. auto. }
  rewrite Hr. reflexivity.
Qed.

(** A route that is kept counts as its track points the [trkpt] elements
    of its document, of which there is one at least, and starts at the
    first of them. *)
Theorem route_counts_track_points :
  forall (self : GPXAnalyzer) (file_path filename : string) (route_date : DT.naive)
         (info : RouteInfo),
    snd (_analyze_single_gpx (fs_of names parse) self file_path filename route_date)
    = Some info ->
    exists root first rest point,
      parse file_path = Ok root
      /\ findall (gpx "trkpt") root = first :: rest
      /\ track_points info = len (findall (gpx "trkpt") root)
      /\ point_of first = Ok point
      /\ start_point info = (lat point, lon point).
Proof.
  intros self file_path filename route_date info.
  unfold _analyze_single_gpx, fs_of. cbn [read_track_points].
  destruct (parse file_path) as [root|e]; cbn [rbind]; [|discriminate].
  destruct (track_points_of root) as [[|p ps]|e] eqn:Hr; try discriminate.
  destruct (_calculate_distance (p :: ps)) as [distance|e]; [|discriminate].
  destruct (_calculate_duration (p :: ps)) as [duration|e]; [|discriminate].
  cbn [snd]. intros H. injection H as <-. cbn [track_points start_point].
  apply read_points_ok in Hr.
  inversion Hr as [|first ? rest ? H1 H2 Hf]; subst.
  exists root, first, rest, p. rewrite <- Hf.
  refine (conj eq_refl (conj eq_refl (conj _ (conj H1 eq_refl)))).
  unfold len. cbn [length]. rewrite (Forall2_length _ _ _ H2). reflexivity.
Qed.

End WithFloat.

Lemma no_track_points_no_route_witness :
  snd (_analyze_single_gpx (PY := before_3_11)
         (fs_of (PF := Fixed.ops) None (fun _ => Ok TreeSamples.bare_route))
         (init "workout-routes") "workout-routes/route_2025-05-10_5.09pm.gpx"
         "route_2025-05-10_5.09pm.gpx" (DT.mk_naive 2025 5 10 0 0 0 0))
  = None.
Proof.
  rewrite (no_track_points_no_route (PF := Fixed.ops) (PY := before_3_11) None
             _ _ _ _ _ TreeSamples.bare_route);
    reflexivity.
Defined.

Lemma unreadable_point_drops_route_witness :
  printed (fst (_analyze_single_gpx (PY := before_3_11)
                  (fs_of (PF := Fixed.ops) None (fun _ => Ok TreeSamples.broken_route))
                  (init "workout-routes") "workout-routes/route_2025-05-10_5.09pm.gpx"
                  "route_2025-05-10_5.09pm.gpx" (DT.mk_naive 2025 5 10 0 0 0 0)))
  = [Error_analyzing "route_2025-05-10_5.09pm.gpx" TypeError].
Proof.
  rewrite (unreadable_point_drops_route (PF := Fixed.ops) (PY := before_3_11) None
             _ _ _ _ _
             TreeSamples.broken_route (TreeSamples.two_points gpx) []
             TreeSamples.no_elevation TypeError).
  - reflexivity.
  - reflexivity.
  - reflexivity.
  - repeat constructor; eexists; reflexivity.
  - reflexivity.
Defined.

Lemma route_counts_track_points_witness :
  exists info root,
    snd (_analyze_single_gpx (PY := before_3_11)
           (fs_of (PF := Fixed.ops) None (fun _ => Ok TreeSamples.route))
           (init "workout-routes") "workout-routes/route_2025-05-10_5.09pm.gpx"
           "route_2025-05-10_5.09pm.gpx" (DT.mk_naive 2025 5 10 0 0 0 0))
    = Some info
    /\ track_points info = len (findall (gpx "trkpt") root)
    /\ track_points info = 2.
Proof.
  eexists. 
  destruct (route_counts_track_points (PF := Fixed.ops) (PY := before_3_11) None
              (fun _ => Ok TreeSamples.route) (init "workout-routes")
              "workout-routes/route_2025-05-10_5.09pm.gpx" "route_2025-05-10_5.09pm.gpx"
              (DT.mk_naive 2025 5 10 0 0 0 0) _ eq_refl)
    as (root & first & rest & point & Hp & _ & Hn & _).
  exists root. split; [reflexivity|]. split; [exact Hn|]. reflexivity.
Defined.

End GPXTreeFacts.
